(** * ShunyaCode signaling server: rooms, waiting room, relay, host
      commands and the intel (telemetry) aggregator.

    A shallow embedding of [server/index.js] (the socket.io coordinator):
    every [socket.on(...)] handler is a function from the server state to
    the new state and the list of emissions it performs, in program order.

    Conventions of the embedding.
    - A JavaScript string is the list of its UTF-16 code units ([str]).
    - A JavaScript [Map] is an insertion-ordered association list
      ([JsMap]): [getRoomBySocket] returns the first room in iteration
      order and the roster is listed in join order, so order is kept.
    - [Date.now()] is an argument of every handler (milliseconds, [Z]).
    - A JavaScript number that is not an integer is a binary64: the
      rational it denotes, with every operation rounded to nearest, ties
      to even, at 53 bits ([Double]).
    - socket.io rooms are called channels here, to keep them apart from
      the meeting rooms of the registry: every connection is subscribed to
      the channel named by its own id, [socket.join(x)] subscribes it to
      [x], [io.to(x).emit] reaches the connections subscribed to [x] at
      that moment, [socket.to(x).emit] the same but for the connections
      subscribed to the channel named by the id of the sender (the
      sender itself, as a rule), and [socket.emit] the connection
      itself. *)

From Stdlib Require Import List Bool ZArith NArith QArith Lia Lqa.
From Stdlib Require Import Ascii String.
From Stdlib Require Floats.SpecFloat.
Import ListNotations.

Local Open Scope Z_scope.

(** ** Strings *)

Module Str.

Definition str := list N.

Definition of_string (s : String.string) : str :=
  List.map N_of_ascii (list_ascii_of_string s).

Definition eqb (a b : str) : bool :=
  if list_eq_dec N.eq_dec a b then true else false.

(** ECMAScript WhiteSpace and LineTerminator code units, the ones
    [String.prototype.trim] strips. *)
Definition is_ws (c : N) : bool :=
  ((9 <=? c) && (c <=? 13) || (c =? 32) || (c =? 160) || (c =? 5760)
   || (8192 <=? c) && (c <=? 8202) || (c =? 8232) || (c =? 8233)
   || (c =? 8239) || (c =? 8287) || (c =? 12288) || (c =? 65279))%N.

Fixpoint trimStart (s : str) : str :=
  match s with
  | c :: r => if is_ws c then trimStart r else s
  | [] => []
  end.

Definition trimEnd (s : str) : str := rev (trimStart (rev s)).

(** [s.trim()] *)
Definition trim (s : str) : str := trimEnd (trimStart s).

(** [s.slice(0, n)] *)
Definition slice0 (n : nat) (s : str) : str := firstn n s.

(** A string that does not start with white space. *)
Definition clean (s : str) : Prop :=
  match s with
  | [] => True
  | c :: _ => is_ws c = false
  end.

(** JavaScript truthiness of a string: non-empty. *)
Definition truthy (s : str) : bool :=
  match s with [] => false | _ :: _ => true end.

End Str.

Abbreviation str := Str.str.
Abbreviation lit := Str.of_string.

(** ** Insertion-ordered maps with string keys (JavaScript [Map]) *)

Module JsMap.

Definition t (V : Type) := list (str * V).

Section Ops.
Context {V : Type}.

Fixpoint get (k : str) (m : t V) : option V :=
  match m with
  | [] => None
  | (k', v) :: r => if Str.eqb k k' then Some v else get k r
  end.

Definition has (k : str) (m : t V) : bool :=
  match get k m with Some _ => true | None => false end.

(** [m.set(k, v)]: an existing key keeps its place, a new one goes last. *)
Fixpoint set (k : str) (v : V) (m : t V) : t V :=
  match m with
  | [] => [(k, v)]
  | (k', v') :: r =>
      if Str.eqb k k' then (k', v) :: r else (k', v') :: set k v r
  end.

(** [m.delete(k)] *)
Fixpoint delete (k : str) (m : t V) : t V :=
  match m with
  | [] => []
  | (k', v') :: r =>
      if Str.eqb k k' then delete k r else (k', v') :: delete k r
  end.

Definition size (m : t V) : nat := List.length m.

Definition keys (m : t V) : list str := List.map fst m.

End Ops.

End JsMap.

(** ** Numbers (binary64)

    A finite binary64 is carried as the rational it denotes, and an
    operation is the exact one followed by [round]: to the nearest
    number with 53 significant bits, the one with an even significand
    when two are equally near.  The exponent is not bounded here: the
    numbers of the program are time values ([Date.now()], an integer of
    magnitude 8.64e15 at most), their quotients by 1000 and differences
    of these, which neither overflow nor are subnormal. *)

Module Double.

(** [2^e] is [up e / down e]: one of the two is 1. *)
Definition up (e : Z) : Z := 2 ^ Z.max e 0.
Definition down (e : Z) : Z := 2 ^ Z.max (- e) 0.

(** The integer nearest to [n / d] for [0 < d], the even one of two that
    are equally near. *)
Definition nearest_even (n d : Z) : Z :=
  let f := n / d in
  match 2 * (n mod d) ?= d with
  | Lt => f
  | Gt => f + 1
  | Eq => if Z.even f then f else f + 1
  end.

(** The exponent of [n / d]: the [k] with [2^k <= n / d < 2^(k+1)]. *)
Definition exponent (n d : positive) : Z :=
  let k := Z.log2 (Zpos n) - Z.log2 (Zpos d) in
  if Zpos d * up k <=? Zpos n * down k then k else k - 1.

(** [n / d] rounded to 53 bits: [m * 2^e] for the integer [m] nearest to
    [(n / d) / 2^e], where [e] is the exponent of the last of 53 bits. *)
Definition round_pos (n d : positive) : Q :=
  let e := exponent n d - 52 in
  let m := nearest_even (Zpos n * down e) (Zpos d * up e) in
  (m * up e) # Z.to_pos (down e).

Definition round (q : Q) : Q :=
  match Qnum q with
  | Z0 => 0
  | Zpos n => round_pos n (Qden q)
  | Zneg n => - round_pos n (Qden q)
  end.

(** [x / y] and [x - y] on numbers. *)
Definition div (x y : Q) : Q := round (x / y).
Definition sub (x y : Q) : Q := round (x - y).

(** [x >= y] *)
Definition ge (x y : Q) : bool := Qle_bool y x.

End Double.

(** ** Data model *)

(** Values the coordinator stores or relays without looking inside them
    (session descriptions, ICE candidates, the elements of an
    [emotion_data] array) are carried as strings. *)
Definition opaque := str.

(** The value of [members] and [pending]: [{ userName }]. *)
Record member := { userName : str }.

(** The value of [room.intel].  [last_history_sample_time] is in seconds
    ([Date.now() / 1000]), a binary64. *)
Record intel_entry := {
  latest_emotion_data : list opaque;
  emotion_history : list (list opaque);
  last_history_sample_time : Q }.

(** A pending [setTimeout(() => rooms.delete(roomId), delay)]: the room id
    its callback closes over and the instant it is due. *)
Record timer := { t_roomId : str; t_due : Z }.

(** A room of the registry.  [scheduledAt] is [null] or a time value in
    milliseconds; [expiryTimer] is [null] or the pending timeout.  The
    runtime's timer queue is the set of [expiryTimer] fields of the
    registered rooms: a room object leaves [rooms] only when its timer is
    cleared (end-meeting), absent (disconnect) or has just run. *)
Record room := {
  creatorId : str;
  password : option str;
  scheduledAt : option Z;
  expiryMinutes : Z;
  waitingRoom : bool;
  members : JsMap.t member;
  pending : JsMap.t member;
  expiryTimer : option timer;
  intel : JsMap.t intel_entry }.

(** What the handlers keep on the connection object, and the channels
    the connection is subscribed to ([socket.rooms]). *)
Record socket := {
  s_roomId : option str;
  s_userName : option str;
  s_isHost : bool;
  s_channels : list str }.

(** [rooms] and [io.sockets.sockets]. *)
Record server := {
  rooms : JsMap.t room;
  sockets : JsMap.t socket }.

(** [roomOptions] of a creating join.  [o_scheduledAt] is the time value
    of [new Date(opts.scheduledAt)] ([None] when the option is falsy;
    an unparsable date gives NaN, which every test below treats like
    [null], and is [None] too).  [o_expiryMinutes] is [None] when the
    option is not a number; whole minutes otherwise. *)
Record room_options := {
  o_password : option str;
  o_scheduledAt : option Z;
  o_expiryMinutes : option Z;
  o_waitingRoom : bool }.

(** The third argument of [join-room]. *)
Record join_payload := {
  isCreator : bool;
  roomOptions : option room_options;
  p_password : option str }.

(** An element of a roster: [{ id, ...data }]. *)
Record participant := { p_id : str; p_userName : str }.

(** An element of the dashboard. *)
Record dashboard_row := {
  participant_id : str;
  name : str;
  current : list opaque;
  history : list (list opaque) }.

(** An event argument that the handler does not require to be a string,
    as far as the handler looks at it: a string, or a value of another
    type, of which it sees whether it is truthy and what [String(v)] is
    (the array [[]] is truthy and converts to the empty string, the
    number [0] is falsy and converts to ["0"], an object is truthy and
    converts to ["[object Object]"]). *)
Inductive value :=
| VString (s : str)
| VOther (truthy : bool) (image : str).

(** [!!v] *)
Definition is_truthy (v : value) : bool :=
  match v with
  | VString s => Str.truthy s
  | VOther b _ => b
  end.

(** [String(v)] *)
Definition String_of (v : value) : str :=
  match v with
  | VString s => s
  | VOther _ image => image
  end.

(** Server-to-client events. *)
Inductive message :=
| Error (msg : str)
| MeetingNotStarted (at_ : Z)
| RoomJoined (roomId : str) (participants : list participant)
    (host : bool) (myId : str)
| WrongPassword
| WaitingForHost
| PendingJoin (id : str) (user : str)
| PendingLeft (id : str)
| ParticipantJoined (id : str) (user : str)
| ParticipantLeft (id : str)
| AdmittedTo (roomId : str) (participants : list participant) (myId : str)
| Rejected
| Offer (from : str) (sdp : opaque)
| Answer (from : str) (sdp : opaque)
| IceCandidate (from : str) (candidate : opaque)
| ChatMessage (id : str) (user : option str) (text : str) (ts : Z)
| MuteAudio
| MuteAudioRequest
| Kicked
| MeetingEnded
| ParticipantHandRaised (id : str) (user : option str) (raised : bool)
| Reaction (fromId : str) (user : option str) (type : str)
| SpotlightChanged (peerId : option str)
| IntelDashboard (rows : list dashboard_row).

(** One [emit]: the connections it reaches and the event. *)
Record emission := { rcpt : list str; what : message }.

(** Client-to-server events of one connection. *)
Inductive event :=
| Connect
| JoinRoom (roomId : str) (user : option str) (payload : join_payload)
| AdmitPeer (peerId : str)
| Reject (peerId : str)
| SendOffer (targetId : str) (sdp : opaque)
| SendAnswer (targetId : str) (sdp : opaque)
| SendIceCandidate (targetId : str) (candidate : opaque)
| SendChat (text : option str)
| MuteAll
| MutePeer (targetId : str)
| Kick (targetId : str)
| EndMeeting
| RaiseHand (raised : bool)
| SendReaction (type : value)
| Spotlight (peerId : option str)
| IntelMetrics (emotion_data : option (list opaque))
| Disconnect.

(** What the event loop runs next: a handler for a connection's event, or
    the callback of the expiry timer of the room registered as [roomId]. *)
Inductive input :=
| FromSocket (now : Z) (sid : str) (e : event)
| TimerFires (now : Z) (roomId : str).

(** ** Field updates *)

Definition set_members (m : JsMap.t member) (r : room) : room :=
  {| creatorId := creatorId r; password := password r;
     scheduledAt := scheduledAt r; expiryMinutes := expiryMinutes r;
     waitingRoom := waitingRoom r; members := m; pending := pending r;
     expiryTimer := expiryTimer r; intel := intel r |}.

Definition set_pending (m : JsMap.t member) (r : room) : room :=
  {| creatorId := creatorId r; password := password r;
     scheduledAt := scheduledAt r; expiryMinutes := expiryMinutes r;
     waitingRoom := waitingRoom r; members := members r; pending := m;
     expiryTimer := expiryTimer r; intel := intel r |}.

Definition set_intel (m : JsMap.t intel_entry) (r : room) : room :=
  {| creatorId := creatorId r; password := password r;
     scheduledAt := scheduledAt r; expiryMinutes := expiryMinutes r;
     waitingRoom := waitingRoom r; members := members r; pending := pending r;
     expiryTimer := expiryTimer r; intel := m |}.

Definition set_expiryTimer (t : option timer) (r : room) : room :=
  {| creatorId := creatorId r; password := password r;
     scheduledAt := scheduledAt r; expiryMinutes := expiryMinutes r;
     waitingRoom := waitingRoom r; members := members r; pending := pending r;
     expiryTimer := t; intel := intel r |}.

Definition set_rooms (m : JsMap.t room) (st : server) : server :=
  {| rooms := m; sockets := sockets st |}.

Definition set_sockets (m : JsMap.t socket) (st : server) : server :=
  {| rooms := rooms st; sockets := m |}.

(** A write to a room object that is registered as [roomId]. *)
Definition put_room (roomId : str) (r : room) (st : server) : server :=
  set_rooms (JsMap.set roomId r (rooms st)) st.

(** A write to the fields of the connection [sid]. *)
Definition update_socket (sid : str) (f : socket -> socket) (st : server)
  : server :=
  match JsMap.get sid (sockets st) with
  | Some s => set_sockets (JsMap.set sid (f s) (sockets st)) st
  | None => st
  end.

(** ** socket.io: channels and emits *)

Definition subscribed (ch : str) (s : socket) : bool :=
  existsb (Str.eqb ch) (s_channels s).

(** [socket.join(ch)] *)
Definition join (ch : str) (s : socket) : socket :=
  {| s_roomId := s_roomId s; s_userName := s_userName s;
     s_isHost := s_isHost s;
     s_channels := if subscribed ch s then s_channels s
                   else s_channels s ++ [ch] |}.

(** [socket.leave(ch)] *)
Definition leave (ch : str) (s : socket) : socket :=
  {| s_roomId := s_roomId s; s_userName := s_userName s;
     s_isHost := s_isHost s;
     s_channels := filter (fun c => negb (Str.eqb ch c)) (s_channels s) |}.

(** The connections subscribed to [ch], in connection order. *)
Definition subscribers (ch : str) (st : server) : list str :=
  List.map fst (filter (fun e => subscribed ch (snd e)) (sockets st)).

(** [socket.emit(m)] on the connection [sid]. *)
Definition socket_emit (sid : str) (m : message) : emission :=
  {| rcpt := [sid]; what := m |}.

(** [io.to(ch).emit(m)] and [io.in(ch).emit(m)]. *)
Definition io_to (ch : str) (m : message) (st : server) : emission :=
  {| rcpt := subscribers ch st; what := m |}.

(** The connections subscribed to [ch] and not to [ex], in connection
    order. *)
Definition subscribers_except (ex ch : str) (st : server) : list str :=
  List.map fst
    (filter (fun e => subscribed ch (snd e) && negb (subscribed ex (snd e)))
       (sockets st)).

(** [socket.to(ch).emit(m)] on the connection [sid]: a broadcast to [ch]
    that excepts the channel named by the id of the sender.  It reaches
    the connections subscribed to [ch] that are not subscribed to the
    channel [sid]: the sender is left out as long as it is subscribed
    to its own id, and so is every other connection that has joined a
    channel of that name. *)
Definition socket_to (sid ch : str) (m : message) (st : server) : emission :=
  {| rcpt := subscribers_except sid ch st; what := m |}.

(** ** Helpers of the program *)

Definition DEFAULT_EXPIRY_MINUTES : Z := 30.

Definition getRoomBySocket (sid : str) (st : server) : option (str * room) :=
  find (fun e => JsMap.has sid (members (snd e))) (rooms st).

Definition getRoomParticipants (r : room) : list participant :=
  List.map (fun e => {| p_id := fst e; p_userName := userName (snd e) |})
    (members r).

Definition getPendingList (r : room) : list participant :=
  List.map (fun e => {| p_id := fst e; p_userName := userName (snd e) |})
    (pending r).

Definition clearExpiryTimer (r : room) : room :=
  match expiryTimer r with
  | Some _ => set_expiryTimer None r
  | None => r
  end.

(** Node's [setTimeout] runs the callback after [delay] milliseconds,
    and after 1 when [delay] is not within [1 .. 2^31 - 1]. *)
Definition TIMEOUT_MAX : Z := 2147483647.

Definition timeout_delay (delay : Z) : Z :=
  if (1 <=? delay) && (delay <=? TIMEOUT_MAX) then delay else 1.

Definition scheduleRoomExpiry (now : Z) (roomId : str) (r : room) : room :=
  let r := clearExpiryTimer r in
  let minutes := expiryMinutes r in
  if minutes <=? 0 then r
  else set_expiryTimer
         (Some {| t_roomId := roomId;
                  t_due := now + timeout_delay (minutes * 60 * 1000) |}) r.

Definition fresh_intel : intel_entry :=
  {| latest_emotion_data := []; emotion_history := [];
     last_history_sample_time := 0 |}.

(** [userName?.trim()] is truthy. *)
Definition name_given (user : option str) : bool :=
  match user with
  | Some u => Str.truthy (Str.trim u)
  | None => false
  end.

(** [at && Date.now() < at]: the instant, when the test holds. *)
Definition not_started (now : Z) (at_ : option Z) : option Z :=
  match at_ with
  | Some t => if negb (t =? 0) && (now <? t) then Some t else None
  | None => None
  end.

(** [opts.password ? String(opts.password).trim() || null : null] *)
Definition room_password (p : option str) : option str :=
  match p with
  | Some p =>
      if Str.truthy p
      then (let t := Str.trim p in if Str.truthy t then Some t else None)
      else None
  | None => None
  end.

(** [room.password && room.password !== (payload.password || '').trim()] *)
Definition wrong_password (r : room) (payload : join_payload) : bool :=
  match password r with
  | Some pw =>
      Str.truthy pw &&
      negb (Str.eqb pw
              (Str.trim (match p_password payload with
                         | Some p => p
                         | None => []
                         end)))
  | None => false
  end.

(** ** The handlers

    Each takes the id of the connection it runs on ([socket.id]) and the
    state, and returns the state and the emissions.  An early [return] of
    the program is the branch that gives back the state as it is. *)

Definition handler := server -> server * list emission.

(** [socket.on('join-room', (roomId, userName, payload = {}) => ...)] *)
Definition join_room (now : Z) (sid roomId : str) (user : option str)
    (payload : join_payload) : handler := fun st =>
  if negb (Str.truthy roomId) || negb (name_given user) then
    (st, [socket_emit sid (Error (lit "Room ID and name required"))])
  else
    let name := Str.slice0 50 (Str.trim (match user with
                                         | Some u => u
                                         | None => []
                                         end)) in
    match JsMap.get roomId (rooms st) with
    | None =>
        match isCreator payload, roomOptions payload with
        | true, Some opts =>
            let at_ := o_scheduledAt opts in
            match not_started now at_ with
            | Some t => (st, [socket_emit sid (MeetingNotStarted t)])
            | None =>
                let r :=
                  {| creatorId := sid;
                     password := room_password (o_password opts);
                     scheduledAt := at_;
                     expiryMinutes := match o_expiryMinutes opts with
                                      | Some m => m
                                      | None => DEFAULT_EXPIRY_MINUTES
                                      end;
                     waitingRoom := o_waitingRoom opts;
                     members := JsMap.set sid {| userName := name |} [];
                     pending := [];
                     expiryTimer := None;
                     intel := JsMap.set sid fresh_intel [] |} in
                let st := put_room roomId r st in
                let st :=
                  update_socket sid (fun s =>
                    join roomId
                      {| s_roomId := Some roomId; s_userName := Some name;
                         s_isHost := true; s_channels := s_channels s |}) st in
                (st, [socket_emit sid
                        (RoomJoined roomId (getRoomParticipants r) true sid)])
            end
        | _, _ => (st, [socket_emit sid (Error (lit "Room not found"))])
        end
    | Some r =>
        let r := clearExpiryTimer r in
        let st := put_room roomId r st in
        if wrong_password r payload then
          (st, [socket_emit sid WrongPassword])
        else
          match not_started now (scheduledAt r) with
          | Some t => (st, [socket_emit sid (MeetingNotStarted t)])
          | None =>
              if waitingRoom r && negb (Str.eqb sid (creatorId r)) then
                let r := set_pending
                           (JsMap.set sid {| userName := name |} (pending r))
                           r in
                let st := put_room roomId r st in
                let st :=
                  update_socket sid (fun s =>
                    {| s_roomId := Some roomId; s_userName := Some name;
                       s_isHost := false; s_channels := s_channels s |}) st in
                (st, [socket_emit sid WaitingForHost;
                      io_to (creatorId r) (PendingJoin sid name) st])
              else
                let r := set_members
                           (JsMap.set sid {| userName := name |} (members r))
                           r in
                let r := set_intel (JsMap.set sid fresh_intel (intel r)) r in
                let st := put_room roomId r st in
                let host := Str.eqb sid (creatorId r) in
                let st :=
                  update_socket sid (fun s =>
                    join roomId
                      {| s_roomId := Some roomId; s_userName := Some name;
                         s_isHost := host; s_channels := s_channels s |}) st in
                (st, [socket_emit sid
                        (RoomJoined roomId (getRoomParticipants r) host sid);
                      socket_to sid roomId (ParticipantJoined sid name) st])
          end
    end.

(** [socket.on('admit', (peerId) => ...)] *)
Definition admit_peer (sid peerId : str) : handler := fun st =>
  match getRoomBySocket sid st with
  | None => (st, [])
  | Some (roomId, r) =>
      if negb (Str.eqb (creatorId r) sid) then (st, [])
      else
        match JsMap.get peerId (pending r) with
        | None => (st, [])
        | Some pendingData =>
            let r := set_pending (JsMap.delete peerId (pending r)) r in
            let r := set_members (JsMap.set peerId pendingData (members r)) r in
            let r := set_intel (JsMap.set peerId fresh_intel (intel r)) r in
            let st := put_room roomId r st in
            match JsMap.get peerId (sockets st) with
            | None => (st, [])
            | Some _ =>
                let st :=
                  update_socket peerId (fun s =>
                    let s := join roomId s in
                    {| s_roomId := Some roomId;
                       s_userName := Some (userName pendingData);
                       s_isHost := false; s_channels := s_channels s |}) st in
                (st, [socket_emit peerId
                        (AdmittedTo roomId (getRoomParticipants r) peerId);
                      socket_to sid roomId
                        (ParticipantJoined peerId (userName pendingData)) st])
            end
        end
  end.

(** [socket.on('reject', (peerId) => ...)] *)
Definition reject (sid peerId : str) : handler := fun st =>
  match getRoomBySocket sid st with
  | None => (st, [])
  | Some (roomId, r) =>
      if negb (Str.eqb (creatorId r) sid) then (st, [])
      else
        let r := set_pending (JsMap.delete peerId (pending r)) r in
        let st := put_room roomId r st in
        (st, [io_to peerId Rejected st])
  end.

(** [socket.on('offer' | 'answer' | 'ice-candidate', (targetId, x) => ...)] *)
Definition offer (sid targetId : str) (sdp : opaque) : handler := fun st =>
  (st, [io_to targetId (Offer sid sdp) st]).

Definition answer (sid targetId : str) (sdp : opaque) : handler := fun st =>
  (st, [io_to targetId (Answer sid sdp) st]).

Definition ice_candidate (sid targetId : str) (candidate : opaque)
  : handler := fun st =>
  (st, [io_to targetId (IceCandidate sid candidate) st]).

(** [socket.userName] *)
Definition socket_userName (sid : str) (st : server) : option str :=
  match JsMap.get sid (sockets st) with
  | Some s => s_userName s
  | None => None
  end.

(** [socket.on('chat-message', (text) => ...)] *)
Definition chat_message (now : Z) (sid : str) (text : option str)
  : handler := fun st =>
  match getRoomBySocket sid st, text with
  | Some (roomId, _), Some text =>
      if negb (Str.truthy roomId) || negb (Str.truthy (Str.trim text))
      then (st, [])
      else (st, [io_to roomId
                   (ChatMessage sid (socket_userName sid st)
                      (Str.slice0 2000 (Str.trim text)) now) st])
  | _, _ => (st, [])
  end.

(** [function isHost(socket)] *)
Definition isHost (sid : str) (st : server) : bool :=
  match getRoomBySocket sid st with
  | Some (_, r) => Str.eqb (creatorId r) sid
  | None => false
  end.

(** [socket.on('mute-all', () => ...)] *)
Definition mute_all (sid : str) : handler := fun st =>
  match getRoomBySocket sid st with
  | None => (st, [])
  | Some (roomId, _) =>
      if negb (Str.truthy roomId) || negb (isHost sid st) then (st, [])
      else (st, [socket_to sid roomId MuteAudio st])
  end.

(** [socket.on('mute-peer', (targetId) => ...)] *)
Definition mute_peer (sid targetId : str) : handler := fun st =>
  match getRoomBySocket sid st with
  | None => (st, [])
  | Some (_, _) =>
      if negb (isHost sid st) then (st, [])
      else (st, [io_to targetId MuteAudioRequest st])
  end.

(** [peer.roomId === roomId] *)
Definition in_room (roomId : str) (s : socket) : bool :=
  match s_roomId s with
  | Some x => Str.eqb x roomId
  | None => false
  end.

(** [socket.on('kick', (targetId) => ...)] *)
Definition kick (sid targetId : str) : handler := fun st =>
  match getRoomBySocket sid st with
  | None => (st, [])
  | Some (roomId, r) =>
      if negb (isHost sid st) then (st, [])
      else
        let r := set_members (JsMap.delete targetId (members r)) r in
        let r := set_pending (JsMap.delete targetId (pending r)) r in
        let st := put_room roomId r st in
        match JsMap.get targetId (sockets st) with
        | Some peer =>
            if in_room roomId peer then
              let st :=
                update_socket targetId (fun s =>
                  let s := leave roomId s in
                  {| s_roomId := None; s_userName := s_userName s;
                     s_isHost := s_isHost s; s_channels := s_channels s |})
                  st in
              (st, [socket_emit targetId Kicked;
                    io_to roomId (ParticipantLeft targetId) st])
            else (st, [])
        | None => (st, [])
        end
  end.

(** [socket.on('end-meeting', () => ...)] *)
Definition end_meeting (sid : str) : handler := fun st =>
  match getRoomBySocket sid st with
  | None => (st, [])
  | Some (roomId, r) =>
      if negb (Str.truthy roomId) || negb (isHost sid st) then (st, [])
      else
        let out := [io_to roomId MeetingEnded st] in
        let st := put_room roomId (clearExpiryTimer r) st in
        (set_rooms (JsMap.delete roomId (rooms st)) st, out)
  end.

(** [socket.on('raise-hand', (raised) => ...)] *)
Definition raise_hand (sid : str) (raised : bool) : handler := fun st =>
  match getRoomBySocket sid st with
  | None => (st, [])
  | Some (roomId, _) =>
      if negb (Str.truthy roomId) then (st, [])
      else (st, [io_to roomId
                   (ParticipantHandRaised sid (socket_userName sid st) raised)
                   st])
  end.

(** [socket.on('reaction', (type) => ...)] *)
Definition reaction (sid : str) (type : value) : handler := fun st =>
  match getRoomBySocket sid st with
  | None => (st, [])
  | Some (roomId, _) =>
      if negb (Str.truthy roomId) || negb (is_truthy type) then (st, [])
      else (st, [io_to roomId
                   (Reaction sid (socket_userName sid st)
                      (Str.slice0 20 (String_of type))) st])
  end.

(** [socket.on('spotlight', (peerId) => ...)] *)
Definition spotlight (sid : str) (peerId : option str) : handler := fun st =>
  match getRoomBySocket sid st with
  | None => (st, [])
  | Some (roomId, _) =>
      if negb (Str.truthy roomId) || negb (isHost sid st) then (st, [])
      else (st, [io_to roomId
                   (SpotlightChanged
                      (match peerId with
                       | Some p => if Str.truthy p then Some p else None
                       | None => None
                       end)) st])
  end.

Definition INTEL_HISTORY_SAMPLE_INTERVAL_MS : Q := 1000.
Definition INTEL_MAX_HISTORY_LENGTH : Z := 24 * 60 * 60.

(** [Date.now() / 1000] *)
Definition seconds (now : Z) : Q := Double.div (inject_Z now) 1000.

(** [now - entry.last_history_sample_time >= INTERVAL_MS / 1000] with
    [now = Date.now() / 1000]. *)
Definition sample_due (now : Z) (entry : intel_entry) : bool :=
  Double.ge
    (Double.sub (seconds now) (last_history_sample_time entry))
    (Double.div INTEL_HISTORY_SAMPLE_INTERVAL_MS 1000).

(** The update of one entry by one snapshot: [latest_emotion_data] is
    overwritten, and when a sample is due the snapshot is pushed on the
    history, the time recorded and the history shifted if too long. *)
Definition intel_sample (now : Z) (emotion_data : list opaque)
    (entry : intel_entry) : intel_entry :=
  if sample_due now entry then
    let h := emotion_history entry ++ [emotion_data] in
    {| latest_emotion_data := emotion_data;
       emotion_history :=
         if Z.of_nat (List.length h) >? INTEL_MAX_HISTORY_LENGTH
         then tl h else h;
       last_history_sample_time := seconds now |}
  else
    {| latest_emotion_data := emotion_data;
       emotion_history := emotion_history entry;
       last_history_sample_time := last_history_sample_time entry |}.

(** The rows of the dashboard: one per entry of [room.intel]. *)
Definition dashboard (r : room) : list dashboard_row :=
  List.map (fun e =>
    {| participant_id := fst e;
       name := match JsMap.get (fst e) (members r) with
               | Some m => userName m
               | None => Str.slice0 8 (fst e)
               end;
       current := latest_emotion_data (snd e);
       history := emotion_history (snd e) |}) (intel r).

(** [socket.on('intel-metrics', (payload) => ...)]; [emotion_data] is
    [None] when [payload?.emotion_data] is not an array. *)
Definition intel_metrics (now : Z) (sid : str)
    (emotion_data : option (list opaque)) : handler := fun st =>
  match getRoomBySocket sid st with
  | None => (st, [])
  | Some (roomId, r) =>
      if negb (Str.truthy roomId) then (st, [])
      else
        let data := match emotion_data with Some d => d | None => [] end in
        let entry := match JsMap.get sid (intel r) with
                     | Some e => e
                     | None => fresh_intel
                     end in
        let r := set_intel
                   (JsMap.set sid (intel_sample now data entry) (intel r)) r in
        let st := put_room roomId r st in
        if negb (Str.truthy (creatorId r)) then (st, [])
        else (st, [io_to (creatorId r) (IntelDashboard (dashboard r)) st])
  end.

(** [socket.on('disconnect', () => ...)].  socket.io has already taken
    the connection out of its channels and of [io.sockets.sockets] when
    the handler runs: [sock] is the connection object, [st] the state
    without it. *)
Definition disconnect (now : Z) (sid : str) (sock : socket)
  : handler := fun st =>
  match s_roomId sock with
  | None => (st, [])
  | Some roomId =>
      if negb (Str.truthy roomId) then (st, [])
      else
        match JsMap.get roomId (rooms st) with
        | None => (st, [])
        | Some r =>
            let wasPending := JsMap.has sid (pending r) in
            let r := set_members (JsMap.delete sid (members r)) r in
            let r := set_pending (JsMap.delete sid (pending r)) r in
            let r := set_intel (JsMap.delete sid (intel r)) r in
            let st := put_room roomId r st in
            let out :=
              if wasPending && Str.truthy (creatorId r)
              then [io_to (creatorId r) (PendingLeft sid) st]
              else [] in
            if (JsMap.size (members r) =? 0)%nat
               && (JsMap.size (pending r) =? 0)%nat then
              let r := clearExpiryTimer r in
              let r := scheduleRoomExpiry now roomId r in
              let st := put_room roomId r st in
              match expiryTimer r with
              | Some _ => (st, out)
              | None => (set_rooms (JsMap.delete roomId (rooms st)) st, out)
              end
            else (st, out ++ [io_to roomId (ParticipantLeft sid) st])
        end
  end.

(** The callback of a timer, run by the event loop once it is due. *)
Definition timer_fires (now : Z) (roomId : str) : handler := fun st =>
  match JsMap.get roomId (rooms st) with
  | Some r =>
      match expiryTimer r with
      | Some t =>
          if t_due t <=? now
          then (set_rooms (JsMap.delete (t_roomId t) (rooms st)) st, [])
          else (st, [])
      | None => (st, [])
      end
  | None => (st, [])
  end.

(** A new connection: no room, subscribed to the channel of its id. *)
Definition new_socket (sid : str) : socket :=
  {| s_roomId := None; s_userName := None; s_isHost := false;
     s_channels := [sid] |}.

(** ** The event loop

    socket.io gives every connection an id that is non-empty and that no
    other live connection has; events reach the handlers of a live
    connection only. *)
Definition step (i : input) : handler := fun st =>
  match i with
  | TimerFires now roomId => timer_fires now roomId st
  | FromSocket now sid Connect =>
      if Str.truthy sid && negb (JsMap.has sid (sockets st))
      then (set_sockets (JsMap.set sid (new_socket sid) (sockets st)) st, [])
      else (st, [])
  | FromSocket now sid e =>
      match JsMap.get sid (sockets st) with
      | None => (st, [])
      | Some sock =>
          match e with
          | Connect => (st, [])
          | JoinRoom roomId user payload =>
              join_room now sid roomId user payload st
          | AdmitPeer peerId => admit_peer sid peerId st
          | Reject peerId => reject sid peerId st
          | SendOffer targetId sdp => offer sid targetId sdp st
          | SendAnswer targetId sdp => answer sid targetId sdp st
          | SendIceCandidate targetId c => ice_candidate sid targetId c st
          | SendChat text => chat_message now sid text st
          | MuteAll => mute_all sid st
          | MutePeer targetId => mute_peer sid targetId st
          | Kick targetId => kick sid targetId st
          | EndMeeting => end_meeting sid st
          | RaiseHand raised => raise_hand sid raised st
          | SendReaction type => reaction sid type st
          | Spotlight peerId => spotlight sid peerId st
          | IntelMetrics d => intel_metrics now sid d st
          | Disconnect =>
              disconnect now sid sock
                (set_sockets (JsMap.delete sid (sockets st)) st)
          end
      end
  end.

(** The state and the emissions after a sequence of inputs. *)
Fixpoint run (inputs : list input) (st : server)
  : server * list emission :=
  match inputs with
  | [] => (st, [])
  | i :: rest =>
      let (st1, out1) := step i st in
      let (st2, out2) := run rest st1 in
      (st2, out1 ++ out2)
  end.

Definition init : server := {| rooms := []; sockets := [] |}.

(** ** Predicates of the statements *)

(** No key of [members] is a key of [pending]. *)
Definition room_disjoint (r : room) : bool :=
  forallb (fun k => negb (JsMap.has k (pending r))) (JsMap.keys (members r)).

Definition rooms_disjoint (st : server) : bool :=
  forallb (fun e => room_disjoint (snd e)) (rooms st).

(** [members.size === 0 && pending.size === 0] *)
Definition room_empty (r : room) : bool :=
  ((JsMap.size (members r) =? 0) && (JsMap.size (pending r) =? 0))%nat.

(** The host commands. *)
Definition privileged (e : event) : bool :=
  match e with
  | MuteAll | MutePeer _ | Kick _ | EndMeeting | Spotlight _ => true
  | _ => false
  end.

(** [INTEL_MAX_HISTORY_LENGTH] as a length. *)
Definition cap : nat := Z.to_nat INTEL_MAX_HISTORY_LENGTH.

(** Telemetry whose histories are within the cap. *)
Definition intel_ok (m : JsMap.t intel_entry) : Prop :=
  Forall (fun e => (List.length (emotion_history (snd e)) <= cap)%nat) m.

(** What every registered room satisfies: its id is a non-empty string,
    its password, when it has one, is non-empty and trimmed, and the
    histories of its telemetry are within the cap. *)
Definition room_ok (e : str * room) : Prop :=
  Str.truthy (fst e) = true /\
  match password (snd e) with
  | Some pw => Str.truthy pw = true /\ Str.trim pw = pw
  | None => True
  end /\
  intel_ok (intel (snd e)).

Definition state_ok (st : server) : Prop := Forall room_ok (rooms st).

(** The registry has one entry per room id. *)
Definition keys_ok (st : server) : Prop := NoDup (JsMap.keys (rooms st)).

(** The states the server can be in. *)
Definition reachable (st : server) : Prop :=
  exists inputs, st = fst (run inputs init).

(** [(payload.password || '').trim()] *)
Definition supplied_password (payload : join_payload) : str :=
  Str.trim (match p_password payload with Some p => p | None => [] end).

(** A join that was turned away: the connections and the other rooms
    are as before, and the room is as before (members, pending entries,
    telemetry, policy) but for its timer, which is cleared. *)
Definition turned_away (roomId : str) (r : room) (st st' : server) : Prop :=
  sockets st' = sockets st /\
  (forall k, k <> roomId ->
     JsMap.get k (rooms st') = JsMap.get k (rooms st)) /\
  JsMap.get roomId (rooms st') = Some (set_expiryTimer None r).


(** The target and the forwarded event of a relayed negotiation
    message sent by [sid]. *)
Definition relay_of (sid : str) (e : event) : option (str * message) :=
  match e with
  | SendOffer targetId sdp => Some (targetId, Offer sid sdp)
  | SendAnswer targetId sdp => Some (targetId, Answer sid sdp)
  | SendIceCandidate targetId c => Some (targetId, IceCandidate sid c)
  | _ => None
  end.

(** The snapshot a reception carries ([[]] when it is not an array). *)
Definition snapshot_of (emotion_data : option (list opaque)) : list opaque :=
  match emotion_data with Some d => d | None => [] end.

(** The entry of a participant after a sequence of receptions, each with
    the reading of the clock when it is handled. *)
Fixpoint receive_all (snapshots : list (Z * list opaque))
    (entry : intel_entry) : intel_entry :=
  match snapshots with
  | [] => entry
  | (now, d) :: rest => receive_all rest (intel_sample now d entry)
  end.

(** The receptions of the sequence that were appended to the history:
    the reading of the clock (in milliseconds) and the snapshot of each. *)
Fixpoint appended (snapshots : list (Z * list opaque))
    (entry : intel_entry) : list (Z * list opaque) :=
  match snapshots with
  | [] => []
  | (now, d) :: rest =>
      (if sample_due now entry then [(now, d)] else [])
      ++ appended rest (intel_sample now d entry)
  end.

(** Readings of the clock that are one second (1000 ms) apart or more,
    the first one from [last]. *)
Fixpoint spaced (last : Z) (instants : list Z) : Prop :=
  match instants with
  | [] => True
  | t :: rest => last + 1000 <= t /\ spaced t rest
  end.

(** The time values of ECMAScript: what [Date.now()] returns is an
    integer of magnitude 8.64e15 at most. *)
Definition TIME_MAX : Z := 8640000000000000.

Definition time_value (now : Z) : Prop := - TIME_MAX <= now <= TIME_MAX.

(** The binary64 operations of the Standard Library, to compare [Double]
    with: the quotient by 1000 and the difference of two such quotients
    as [SpecFloat] computes them, read back as rationals. *)
Module Binary64.

Definition of_Z (z : Z) : SpecFloat.spec_float :=
  SpecFloat.binary_normalize 53 1024 z 0 false.

Definition to_Q (f : SpecFloat.spec_float) : Q :=
  match f with
  | SpecFloat.S754_finite s m e =>
      let v := (Zpos m * Double.up e) # Z.to_pos (Double.down e) in
      if s then - v else v
  | _ => 0
  end.

Definition div_1000 (a : Z) : SpecFloat.spec_float :=
  SpecFloat.SFdiv 53 1024 (of_Z a) (of_Z 1000).

Definition sub_seconds (a b : Z) : SpecFloat.spec_float :=
  SpecFloat.SFsub 53 1024 (div_1000 a) (div_1000 b).

(** [Double] gives what [SpecFloat] gives for the clock readings [a]
    and [b]: the same seconds, the same difference, and the same answer
    to whether one second has passed. *)
Definition agrees (a b : Z) : bool :=
  Qeq_bool (to_Q (div_1000 a)) (seconds a)
  && Qeq_bool (to_Q (sub_seconds a b))
       (Double.sub (seconds a) (seconds b))
  && Bool.eqb (SpecFloat.SFleb (of_Z 1) (sub_seconds a b))
       (Double.ge (Double.sub (seconds a) (seconds b)) 1).

(** Pairs of clock readings: each of [n] readings from [from], [step]
    apart, with the readings 999, 1000 and 1001 ms before it. *)
Fixpoint samples (n : nat) (from step : Z) : list (Z * Z) :=
  match n with
  | O => []
  | S k =>
      [(from, from - 999); (from, from - 1000); (from, from - 1001)]
      ++ samples k (from + step) step
  end.

End Binary64.

(** The last [n] elements of a list. *)
Definition keep_last {A : Type} (n : nat) (l : list A) : list A :=
  skipn (List.length l - n) l.

(** The name a dashboard row shows for [id]: [m?.userName ?? id.slice(0, 8)]. *)
Definition display_name (r : room) (id : str) : str :=
  match JsMap.get id (members r) with
  | Some m => userName m
  | None => Str.slice0 8 id
  end.

(** ** Scenarios used below *)

Module Scenario.

Definition H : str := lit "H".
Definition A : str := lit "A".
Definition B : str := lit "B".
Definition X : str := lit "X".

Definition options (pw : option str) (at_ : option Z) (expiry : option Z)
    (waiting : bool) : room_options :=
  {| o_password := pw; o_scheduledAt := at_; o_expiryMinutes := expiry;
     o_waitingRoom := waiting |}.

(** The payload the client sends to create a room. *)
Definition creating (o : room_options) : join_payload :=
  {| isCreator := true; roomOptions := Some o; p_password := None |}.

(** The payload the client sends to join one. *)
Definition joining (pw : str) : join_payload :=
  {| isCreator := false; roomOptions := None; p_password := Some pw |}.

(** The state after some inputs, from the empty server. *)
Definition after (inputs : list input) : server := fst (run inputs init).

(** A room with a waiting room: the host creates it, [B] asks to join,
    the host admits [B]; then [B] sends [join-room] once more. *)
Definition admitted : list input :=
  [ FromSocket 0 H Connect;
    FromSocket 1 B Connect;
    FromSocket 2 H (JoinRoom (lit "r1") (Some (lit "host"))
                      (creating (options None None (Some 30) true)));
    FromSocket 3 B (JoinRoom (lit "r1") (Some (lit "bob")) (joining []));
    FromSocket 4 H (AdmitPeer B) ].

Definition rejoin : input :=
  FromSocket 5 B (JoinRoom (lit "r1") (Some (lit "bob")) (joining [])).

Definition st_admitted : server := after admitted.
Definition st_rejoined : server := after (admitted ++ [rejoin]).

(** The host alone in a room that expires after [expiry] minutes. *)
Definition alone (expiry : Z) : list input :=
  [ FromSocket 0 H Connect;
    FromSocket 1 H (JoinRoom (lit "r") (Some (lit "host"))
                      (creating (options None None (Some expiry) false))) ].

(** The host kicks its own session, and the host leaves. *)
Definition self_kick : input := FromSocket 2 H (Kick H).
Definition host_leaves : input := FromSocket 3 H Disconnect.

(** A creation scheduled ten minutes ahead, then a joiner. *)
Definition scheduled : list input :=
  [ FromSocket 0 H Connect;
    FromSocket 0 B Connect;
    FromSocket 1000 H
      (JoinRoom (lit "r2") (Some (lit "host"))
         (creating (options None (Some 601000) (Some 30) false)));
    FromSocket 2000 B (JoinRoom (lit "r2") (Some (lit "bob")) (joining [])) ].

(** The host sends one snapshot, five seconds after creating the room. *)
Definition sampled : list input :=
  alone 30 ++ [ FromSocket 5000 H (IntelMetrics (Some [lit "calm"])) ].

Definition host_rejoins : input :=
  FromSocket 6000 H (JoinRoom (lit "r") (Some (lit "host")) (joining [])).

Definition st_sampled : server := after sampled.

(** Two participants in the room ["r4"]. *)
Definition two_in_r4 : list input :=
  [ FromSocket 0 A Connect;
    FromSocket 1 B Connect;
    FromSocket 2 A (JoinRoom (lit "r4") (Some (lit "ann"))
                      (creating (options None None (Some 30) false)));
    FromSocket 3 B (JoinRoom (lit "r4") (Some (lit "bob")) (joining [])) ].

Definition st_r4 : server := after two_in_r4.

(** The host in its room ["r"], and a participant [X] of ["r"] who then
    creates a room whose id is the host's session id. *)
Definition squatter : list input :=
  alone 30 ++
  [ FromSocket 2 X Connect;
    FromSocket 3 X (JoinRoom (lit "r") (Some (lit "eve")) (joining []));
    FromSocket 4 X (JoinRoom H (Some (lit "eve"))
                      (creating (options None None (Some 30) false))) ].

Definition st_squatter : server := after squatter.

(** Room ["r3"], created with the password [" abc "] and a scheduled
    start that has passed on the clock of the creation. *)
Definition r3 : list input :=
  [ FromSocket 0 H Connect;
    FromSocket 1 B Connect;
    FromSocket 2000 H
      (JoinRoom (lit "r3") (Some (lit "host"))
         (creating (options (Some (lit " abc ")) (Some 1000) (Some 30) false)))
  ].

(** The host has left ["r3"]: the room is empty and its timer runs. *)
Definition r3_empty : list input := r3 ++ [ FromSocket 3000 H Disconnect ].

Definition st_r3 : server := after r3.
Definition st_r3_empty : server := after r3_empty.

(** [B] asks to join ["r3"] with the password [pw], when the clock reads
    [now] ([Date.now()] is the wall clock, and may read less than it did
    at the creation). *)
Definition ask_r3 (now : Z) (pw : str) (st : server)
  : server * list emission :=
  join_room now B (lit "r3") (Some (lit "bob")) (joining pw) st.

End Scenario.

(** ** The credential endpoint

    [POST /livekit/token].  The environment variables and the fields of
    the request body are strings or absent; the access token is carried
    as what it is built from ([toJwt] only signs and encodes it). *)

Record livekit_env := {
  LIVEKIT_API_KEY : option str;
  LIVEKIT_API_SECRET : option str;
  LIVEKIT_URL : option str }.

Record livekit_config := {
  apiKey : str;
  apiSecret : str;
  url : str }.

(** [req.body]: [room], [identity], [name]. *)
Record token_request := {
  q_room : option str;
  q_identity : option str;
  q_name : option str }.

(** The grant of [at.addGrant({...})]. *)
Record video_grant := {
  roomJoin : bool;
  g_room : str;
  canPublish : bool;
  canSubscribe : bool;
  canPublishData : bool }.

(** [new AccessToken(apiKey, apiSecret, { identity, name })] with its grant. *)
Record access_token := {
  at_key : str;
  at_secret : str;
  at_identity : str;
  at_name : str;
  at_grant : video_grant }.

(** What the endpoint answers. *)
Inductive http_response :=
| ServerError (error : str)
| BadRequest (error : str)
| Issued (token : access_token) (issued_url : str).

(** [x || ''] for an optional string. *)
Definition or_empty (x : option str) : str :=
  match x with Some s => s | None => [] end.

(** [x ? 'set' : 'unset'] *)
Definition set_or_unset (x : option str) : str :=
  if Str.truthy (or_empty x) then lit "set" else lit "unset".

(** [function requireLiveKitEnv(res)]: the configuration, or the answer
    it has sent. *)
Definition requireLiveKitEnv (env : livekit_env)
  : livekit_config + http_response :=
  let key := or_empty (LIVEKIT_API_KEY env) in
  let secret := or_empty (LIVEKIT_API_SECRET env) in
  let u := if Str.truthy (or_empty (LIVEKIT_URL env))
           then or_empty (LIVEKIT_URL env)
           else lit "ws://localhost:7880" in
  if negb (Str.truthy key) || negb (Str.truthy secret) then
    inr (ServerError
           (lit "LIVEKIT_API_KEY and LIVEKIT_API_SECRET must be set on the server (seen apiKey="
            ++ set_or_unset (LIVEKIT_API_KEY env)
            ++ lit ", apiSecret="
            ++ set_or_unset (LIVEKIT_API_SECRET env)
            ++ lit ")"))
  else inl {| apiKey := key; apiSecret := secret; url := u |}.

(** [app.post('/livekit/token', async (req, res) => ...)] *)
Definition livekit_token (env : livekit_env) (body : token_request)
  : http_response :=
  match requireLiveKitEnv env with
  | inr sent => sent
  | inl cfg =>
      let room := Str.trim (or_empty (q_room body)) in
      let identity := Str.trim (or_empty (q_identity body)) in
      let name := Str.trim (or_empty (q_name body)) in
      if negb (Str.truthy room) || negb (Str.truthy identity) then
        BadRequest (lit "room and identity are required")
      else
        Issued
          {| at_key := apiKey cfg;
             at_secret := apiSecret cfg;
             at_identity := identity;
             at_name := if Str.truthy name then name else identity;
             at_grant := {| roomJoin := true; g_room := room;
                            canPublish := true; canSubscribe := true;
                            canPublishData := true |} |}
          (url cfg)
  end.

(** ** Further predicates of the statements *)

(** A display name as the join handler makes it: not empty, fifty code
    units at most, no white space in front. *)
Definition name_ok (n : str) : Prop :=
  n <> [] /\ (List.length n <= 50)%nat /\ Str.clean n.

Definition names_ok (m : JsMap.t member) : Prop :=
  Forall (fun e => name_ok (userName (snd e))) m.

(** A pending timer is the one of an empty room that expires, and its
    callback deletes the room it is stored in. *)
Definition timer_ok (k : str) (r : room) : Prop :=
  forall t,
    expiryTimer r = Some t ->
    t_roomId t = k /\ members r = [] /\ pending r = [] /\
    0 < expiryMinutes r.

(** Every member has a telemetry record. *)
Definition telemetry_covers (r : room) : Prop :=
  forall k, JsMap.has k (members r) = true -> JsMap.has k (intel r) = true.

(** Nobody is pending without a waiting room, and the creator never is. *)
Definition pending_ok (r : room) : Prop :=
  (waitingRoom r = false -> pending r = []) /\
  JsMap.has (creatorId r) (pending r) = false.

Definition room_inv (e : str * room) : Prop :=
  names_ok (members (snd e)) /\
  names_ok (pending (snd e)) /\
  timer_ok (fst e) (snd e) /\
  telemetry_covers (snd e) /\
  pending_ok (snd e) /\
  Str.truthy (creatorId (snd e)) = true.

(** The ids of the live connections are non-empty strings. *)
Definition sockets_ok (st : server) : Prop :=
  Forall (fun e => Str.truthy (fst e) = true) (sockets st).

Definition state_inv (st : server) : Prop :=
  Forall room_inv (rooms st) /\ sockets_ok st.

(** The registry of connections has one entry per session id. *)
Definition conns_ok (st : server) : Prop := NoDup (JsMap.keys (sockets st)).

(** The events whose handlers only relay or broadcast. *)
Definition stateless (e : event) : bool :=
  match e with
  | SendOffer _ _ | SendAnswer _ _ | SendIceCandidate _ _ | SendChat _
  | MuteAll | MutePeer _ | RaiseHand _ | SendReaction _ | Spotlight _ => true
  | _ => false
  end.

(** Every key of the map is [k]. *)
Definition only_key {V : Type} (k : str) (m : JsMap.t V) : Prop :=
  Forall (fun e => fst e = k) m.

(** The display name the join handler stores: [userName.trim().slice(0, 50)]. *)
Definition stored_name (user : option str) : str :=
  Str.slice0 50 (Str.trim (or_empty user)).

Module Scenario2.

Import Scenario.

(** The host alone in ["r"], then a second live connection. *)
Definition host_and_guest : list input :=
  alone 30 ++ [ FromSocket 2 B Connect ].

(** The host and [B] in ["r"]. *)
Definition two_in_r : list input :=
  host_and_guest ++
  [ FromSocket 3 B (JoinRoom (lit "r") (Some (lit "  bob ")) (joining [])) ].

(** The room ["r1"] with a waiting room, the host in it, [B] pending. *)
Definition waiting : list input := firstn 4 admitted.

Definition st_alone : server := after (alone 30).
Definition st_host_and_guest : server := after host_and_guest.
Definition st_two_in_r : server := after two_in_r.
Definition st_waiting : server := after waiting.
Definition st_host_only_r1 : server := after (firstn 3 admitted).

(** The host has left ["r"], which now waits for its expiry. *)
Definition expiring : list input := alone 30 ++ [ host_leaves ].
Definition st_expiring : server := after expiring.

Definition env_ok : livekit_env :=
  {| LIVEKIT_API_KEY := Some (lit "key");
     LIVEKIT_API_SECRET := Some (lit "secret");
     LIVEKIT_URL := None |}.

Definition ask_token : token_request :=
  {| q_room := Some (lit " r "); q_identity := Some (lit "bob");
     q_name := Some (lit "  ") |}.

End Scenario2.

Module Scenario3.

Import Scenario.

(** An empty room of [H] that expires after [minutes] minutes. *)
Definition bare (minutes : Z) : room :=
  {| creatorId := H; password := None; scheduledAt := None;
     expiryMinutes := minutes; waitingRoom := false; members := [];
     pending := []; expiryTimer := None; intel := [] |}.

(** [B] has sent a chat message to the room ["r"]. *)
Definition chatting : list input :=
  Scenario2.two_in_r ++ [ FromSocket 7 B (SendChat (Some (lit "  hi "))) ].


(** The room ["r1"] of [H] with a waiting room; [B] has created a room
    whose id is the session id of [H], and is pending in ["r1"]. *)
Definition waiting_in_channel_of_host : list input :=
  firstn 3 admitted ++
  [ FromSocket 3 B (JoinRoom H (Some (lit "bob"))
                      (creating (options None None (Some 30) false)));
    FromSocket 4 B (JoinRoom (lit "r1") (Some (lit "bob")) (joining [])) ].

Definition st_waiting_in_channel_of_host : server :=
  after waiting_in_channel_of_host.

End Scenario3.

(** * Properties *)

(** ** Facts about strings and maps *)

Module StrFacts.

Lemma eqb_eq a b : Str.eqb a b = true <-> a = b.
Proof.
  unfold Str.eqb; destruct (list_eq_dec N.eq_dec a b); split; congruence.
Qed.

Lemma eqb_neq a b : Str.eqb a b = false <-> a <> b.
Proof.
  unfold Str.eqb; destruct (list_eq_dec N.eq_dec a b); split; congruence.
Qed.

Lemma eqb_refl a : Str.eqb a a = true.
Proof. apply eqb_eq; reflexivity. Qed.

Lemma truthy_nonempty s : Str.truthy s = true <-> s <> [].
Proof. destruct s; simpl; split; congruence. Qed.

Lemma trimStart_clean s : Str.clean (Str.trimStart s).
Proof.
  induction s as [|c r IH]; simpl; auto.
  destruct (Str.is_ws c) eqn:E; simpl; auto.
Qed.

Lemma trimStart_id s : Str.clean s -> Str.trimStart s = s.
Proof. destruct s as [|c r]; simpl; auto. intros ->; reflexivity. Qed.

Lemma trimStart_snoc l c :
  Str.is_ws c = false -> exists l', Str.trimStart (l ++ [c]) = l' ++ [c].
Proof.
  intros Hc. induction l as [|d l IH]; simpl.
  - rewrite Hc. now exists [].
  - destruct (Str.is_ws d); auto. now exists (d :: l).
Qed.

Lemma trimEnd_clean s : Str.clean s -> Str.clean (Str.trimEnd s).
Proof.
  unfold Str.trimEnd. destruct s as [|c r]; simpl; auto.
  intros Hc. destruct (trimStart_snoc (rev r) c Hc) as [l' ->].
  rewrite rev_app_distr. simpl. exact Hc.
Qed.

Lemma trim_clean s : Str.clean (Str.trim s).
Proof. apply trimEnd_clean, trimStart_clean. Qed.

Lemma trim_rev_clean s : Str.clean (rev (Str.trim s)).
Proof.
  unfold Str.trim, Str.trimEnd. rewrite rev_involutive. apply trimStart_clean.
Qed.

(** Trimming a trimmed string changes nothing. *)
Lemma trim_idempotent s : Str.trim (Str.trim s) = Str.trim s.
Proof.
  unfold Str.trim at 1. rewrite (trimStart_id _ (trim_clean s)).
  unfold Str.trimEnd. rewrite (trimStart_id _ (trim_rev_clean s)).
  apply rev_involutive.
Qed.

End StrFacts.

Module JsMapFacts.

Section Facts.
Context {V : Type}.
Implicit Types (m : JsMap.t V) (k : str) (v : V).

Lemma get_set_same k v m : JsMap.get k (JsMap.set k v m) = Some v.
Proof.
  induction m as [|[k' v'] r IH]; simpl.
  - now rewrite StrFacts.eqb_refl.
  - destruct (Str.eqb k k') eqn:E; simpl; rewrite E; auto.
Qed.

Lemma get_set_other k k' v m :
  k' <> k -> JsMap.get k' (JsMap.set k v m) = JsMap.get k' m.
Proof.
  intros Hne. induction m as [|[k0 v0] r IH]; simpl.
  - apply StrFacts.eqb_neq in Hne. now rewrite Hne.
  - destruct (Str.eqb k k0) eqn:E; simpl.
    + apply StrFacts.eqb_eq in E; subst k0.
      apply StrFacts.eqb_neq in Hne. now rewrite Hne.
    + destruct (Str.eqb k' k0); auto.
Qed.

Lemma get_delete_other k k' m :
  k' <> k -> JsMap.get k' (JsMap.delete k m) = JsMap.get k' m.
Proof.
  intros Hne. induction m as [|[k0 v0] r IH]; simpl; auto.
  destruct (Str.eqb k k0) eqn:E; simpl.
  - apply StrFacts.eqb_eq in E; subst k0.
    apply StrFacts.eqb_neq in Hne. now rewrite Hne.
  - destruct (Str.eqb k' k0); auto.
Qed.

Lemma has_set_same k v m : JsMap.has k (JsMap.set k v m) = true.
Proof. unfold JsMap.has. now rewrite get_set_same. Qed.

Lemma get_In k v m : JsMap.get k m = Some v -> In (k, v) m.
Proof.
  induction m as [|[k' v'] r IH]; simpl; try discriminate.
  destruct (Str.eqb k k') eqn:E; auto.
  apply StrFacts.eqb_eq in E; subst. intros [= ->]. now left.
Qed.

Lemma Forall_set (P : str * V -> Prop) k v m :
  (forall k', P (k', v)) -> Forall P m -> Forall P (JsMap.set k v m).
Proof.
  intros Hv. induction 1 as [|[k' v'] r Hx Hr IH]; simpl.
  - constructor; auto.
  - destruct (Str.eqb k k'); constructor; auto.
Qed.

Lemma Forall_delete (P : str * V -> Prop) k m :
  Forall P m -> Forall P (JsMap.delete k m).
Proof.
  induction 1 as [|[k' v'] r Hx Hr IH]; simpl; auto.
  destruct (Str.eqb k k'); auto.
Qed.

Lemma keys_set k v m k' :
  In k' (JsMap.keys (JsMap.set k v m)) <-> k' = k \/ In k' (JsMap.keys m).
Proof.
  induction m as [|[k0 v0] r IH]; simpl.
  - intuition.
  - destruct (Str.eqb k k0) eqn:E; simpl.
    + apply StrFacts.eqb_eq in E; subst k0. intuition.
    + rewrite IH. intuition.
Qed.

Lemma keys_delete k m k' :
  In k' (JsMap.keys (JsMap.delete k m)) -> In k' (JsMap.keys m).
Proof.
  induction m as [|[k0 v0] r IH]; simpl; auto.
  destruct (Str.eqb k k0); simpl; intuition.
Qed.

Lemma NoDup_set k v m :
  NoDup (JsMap.keys m) -> NoDup (JsMap.keys (JsMap.set k v m)).
Proof.
  induction m as [|[k0 v0] r IH]; simpl; intros Hnd.
  - constructor; [intros []| constructor].
  - inversion Hnd as [|? ? Hnin Hr]; subst.
    destruct (Str.eqb k k0) eqn:E; simpl.
    + constructor; assumption.
    + constructor; [|now apply IH].
      rewrite keys_set. intros [-> | Hin]; [|contradiction].
      now rewrite StrFacts.eqb_refl in E.
Qed.

Lemma NoDup_delete k m :
  NoDup (JsMap.keys m) -> NoDup (JsMap.keys (JsMap.delete k m)).
Proof.
  induction m as [|[k0 v0] r IH]; simpl; intros Hnd; auto.
  inversion Hnd as [|? ? Hnin Hr]; subst.
  destruct (Str.eqb k k0); simpl; auto.
  constructor; [|now apply IH].
  intros Hin. apply Hnin. now apply keys_delete in Hin.
Qed.

(** With one entry per key, an entry of the list is what [get] finds. *)
Lemma NoDup_get k v m :
  NoDup (JsMap.keys m) -> In (k, v) m -> JsMap.get k m = Some v.
Proof.
  induction m as [|[k0 v0] r IH]; simpl; intros Hnd Hin; [destruct Hin|].
  inversion Hnd as [|? ? Hnin Hr]; subst.
  destruct Hin as [[= -> ->] | Hin].
  - now rewrite StrFacts.eqb_refl.
  - destruct (Str.eqb k k0) eqn:E; [|now apply IH].
    apply StrFacts.eqb_eq in E; subst k0. exfalso. apply Hnin.
    change k with (fst (k, v)). now apply in_map.
Qed.

End Facts.

End JsMapFacts.

(** ** Facts about numbers *)

Module DoubleFacts.

Import Double.

Lemma nearest_even_error n d :
  0 < d -> - d <= 2 * (nearest_even n d * d - n) <= d.
Proof.
  intros Hd. unfold nearest_even.
  pose proof (Z.div_mod n d ltac:(lia)) as Hdm.
  pose proof (Z.mod_pos_bound n d Hd) as Hr.
  destruct (Z.compare_spec (2 * (n mod d)) d) as [He | Hl | Hg].
  - destruct (Z.even (n / d)); nia.
  - nia.
  - nia.
Qed.

Lemma nearest_even_nonneg n d : 0 <= n -> 0 < d -> 0 <= nearest_even n d.
Proof.
  intros Hn Hd. unfold nearest_even.
  pose proof (Z.div_pos n d Hn Hd).
  destruct (2 * (n mod d) ?= d); [destruct (Z.even (n / d))| |]; lia.
Qed.

Lemma exponent_le n d j :
  0 <= j -> Zpos n < Zpos d * 2 ^ j -> exponent n d <= j - 1.
Proof.
  intros Hj Hlt. unfold exponent.
  pose proof (Z.log2_spec (Zpos n) ltac:(lia)) as [Hn1 Hn2].
  pose proof (Z.log2_spec (Zpos d) ltac:(lia)) as [Hd1 Hd2].
  pose proof (Z.log2_nonneg (Zpos n)) as Hn0.
  pose proof (Z.log2_nonneg (Zpos d)) as Hd0.
  set (ln := Z.log2 (Zpos n)) in *. set (ld := Z.log2 (Zpos d)) in *.
  assert (Hk : ln - ld <= j).
  { destruct (Z.le_gt_cases (ln - ld) j) as [H | H]; [exact H|].
    exfalso.
    assert (H2 : 2 ^ (Z.succ ld + j) <= 2 ^ ln)
      by (apply Z.pow_le_mono_r; lia).
    rewrite Z.pow_add_r in H2 by lia.
    assert (H3 : 0 < 2 ^ j) by (apply Z.pow_pos_nonneg; lia).
    assert (H4 : Zpos d * 2 ^ j < 2 ^ Z.succ ld * 2 ^ j)
      by (apply Z.mul_lt_mono_pos_r; [exact H3 | exact Hd2]).
    lia. }
  destruct (Z.leb_spec (Zpos d * up (ln - ld)) (Zpos n * down (ln - ld)))
    as [Ht | Ht]; [|lia].
  destruct (Z.eq_dec (ln - ld) j) as [E | E]; [|lia].
  exfalso. rewrite E in Ht. unfold up, down in Ht.
  rewrite Z.max_l in Ht by lia.
  rewrite Z.max_r in Ht by lia.
  rewrite Z.pow_0_r in Ht. lia.
Qed.

(** The error of a rounding below [2^j], for [0 <= j <= 53]: half a unit
    in the last place at most. *)
Lemma round_pos_error n d j :
  0 <= j <= 53 -> Zpos n < Zpos d * 2 ^ j ->
  ((Zpos n # d) - (1 # Z.to_pos (2 ^ (54 - j))) <= round_pos n d)%Q /\
  (round_pos n d <= (Zpos n # d) + (1 # Z.to_pos (2 ^ (54 - j))))%Q.
Proof.
  intros Hj Hlt. unfold round_pos.
  pose proof (exponent_le n d j ltac:(lia) Hlt) as He.
  set (e := exponent n d - 52) in *.
  assert (He0 : e <= j - 53) by lia.
  unfold up, down.
  rewrite (Z.max_r e 0), (Z.max_l (- e) 0) by lia.
  rewrite Z.pow_0_r, !Z.mul_1_r.
  set (P := 2 ^ (- e)).
  assert (HP : 0 < P) by (apply Z.pow_pos_nonneg; lia).
  assert (HPj : 2 ^ (53 - j) <= P) by (apply Z.pow_le_mono_r; lia).
  assert (H54 : 2 ^ (54 - j) = 2 * 2 ^ (53 - j)).
  { replace (54 - j) with (Z.succ (53 - j)) by lia.
    apply Z.pow_succ_r. lia. }
  assert (HQ : 0 < 2 ^ (53 - j)) by (apply Z.pow_pos_nonneg; lia).
  pose proof (nearest_even_error (Zpos n * P) (Zpos d) ltac:(lia)) as Hm.
  set (m := nearest_even (Zpos n * P) (Zpos d)) in *.
  rewrite H54. set (B := 2 ^ (53 - j)) in *.
  unfold Qminus. unfold Qle, Qplus, Qopp. cbn [Qnum Qden].
  rewrite !Pos2Z.inj_mul, !Z2Pos.id by lia.
  assert (H1 : Zpos d * B <= Zpos d * P) by (apply Z.mul_le_mono_nonneg_l; lia).
  assert (H2 : (2 * (m * Zpos d - Zpos n * P) + Zpos d) * B >= 0) by nia.
  assert (H3 : (Zpos d - 2 * (m * Zpos d - Zpos n * P)) * B >= 0) by nia.
  clearbody m P B e. split; nia.
Qed.

Lemma round_pos_nonneg n d : (0 <= round_pos n d)%Q.
Proof.
  unfold round_pos, Qle. cbn [Qnum Qden]. rewrite Z.mul_1_r, Z.mul_0_l.
  apply Z.mul_nonneg_nonneg.
  - apply nearest_even_nonneg.
    + apply Z.mul_nonneg_nonneg; [lia|]. apply Z.pow_nonneg. lia.
    + apply Z.mul_pos_pos; [lia|]. apply Z.pow_pos_nonneg; lia.
  - apply Z.pow_nonneg. lia.
Qed.

(** The error of a rounding of a number below [2^j] in magnitude. *)
Lemma round_error q j :
  0 <= j <= 53 -> Z.abs (Qnum q) < Zpos (Qden q) * 2 ^ j ->
  (q - (1 # Z.to_pos (2 ^ (54 - j))) <= round q)%Q /\
  (round q <= q + (1 # Z.to_pos (2 ^ (54 - j))))%Q.
Proof.
  intros Hj Hlt. destruct q as [[|n|n] d]; unfold round; cbn [Qnum Qden] in *.
  - unfold Qle, Qminus, Qplus, Qopp. cbn [Qnum Qden]. lia.
  - apply round_pos_error; assumption.
  - destruct (round_pos_error n d j Hj Hlt) as [H1 H2].
    assert (E : (Zneg n # d == - (Zpos n # d))%Q) by reflexivity.
    set (eps := 1 # Z.to_pos (2 ^ (54 - j))) in *.
    rewrite E. split; lra.
Qed.

(** A rounding that is 1 or more comes from [1 - 2^-54] or more. *)
Lemma round_ge_1 q :
  (1 <= round q)%Q -> (1 - (1 # 18014398509481984) <= q)%Q.
Proof.
  intros H. destruct (Qlt_le_dec q 1) as [Hlt | Hge]; [|lra].
  destruct q as [[|n|n] d]; unfold round in H; cbn [Qnum Qden] in H.
  - unfold Qle in H. cbn in H. lia.
  - assert (Hn : Zpos n < Zpos d * 2 ^ 0).
    { unfold Qlt in Hlt. cbn in Hlt. lia. }
    destruct (round_pos_error n d 0 ltac:(lia) Hn) as [_ H2].
    change (Z.to_pos (2 ^ (54 - 0))) with 18014398509481984%positive in H2.
    lra.
  - pose proof (round_pos_nonneg n d). lra.
Qed.

(** The quotient of an integer of magnitude below [2^43 * 1000] by 1000
    is within [2^-11] of the exact one. *)
Lemma div_1000_error a :
  Z.abs a < 8796093022208000 ->
  (inject_Z a / 1000 - (1 # 2048) <= div (inject_Z a) 1000)%Q /\
  (div (inject_Z a) 1000 <= inject_Z a / 1000 + (1 # 2048))%Q.
Proof.
  intros Ha. unfold div.
  apply (round_error (inject_Z a / 1000) 43); [lia|].
  cbn [Qnum Qden inject_Z Qdiv Qmult Qinv].
  change (2 ^ 43) with 8796093022208. lia.
Qed.

End DoubleFacts.

(** [Double] and the binary64 of the Standard Library agree on clock
    readings from 1970, from the present and from the end of the range
    of time values, at gaps of 999, 1000 and 1001 ms. *)
Example double_agrees_with_binary64 :
  forallb (fun p => Binary64.agrees (fst p) (snd p))
    (Binary64.samples 40 1002 1
     ++ Binary64.samples 40 1762070400000 977
     ++ Binary64.samples 40 2147483646900 5
     ++ Binary64.samples 40 8639999999990000 233) = true.
Proof. vm_compute. reflexivity. Qed.

(** ** Fields that a timer reset leaves alone *)

Lemma clearExpiryTimer_fields r :
  creatorId (clearExpiryTimer r) = creatorId r /\
  password (clearExpiryTimer r) = password r /\
  scheduledAt (clearExpiryTimer r) = scheduledAt r /\
  expiryMinutes (clearExpiryTimer r) = expiryMinutes r /\
  waitingRoom (clearExpiryTimer r) = waitingRoom r /\
  members (clearExpiryTimer r) = members r /\
  pending (clearExpiryTimer r) = pending r /\
  intel (clearExpiryTimer r) = intel r /\
  expiryTimer (clearExpiryTimer r) = None.
Proof.
  unfold clearExpiryTimer. destruct (expiryTimer r) eqn:E; simpl; tauto.
Qed.

Lemma clearExpiryTimer_eq r : clearExpiryTimer r = set_expiryTimer None r.
Proof.
  unfold clearExpiryTimer. destruct r as [c p s e w m q [t|] i]; reflexivity.
Qed.

Lemma wrong_password_clear r payload :
  wrong_password (clearExpiryTimer r) payload = wrong_password r payload.
Proof.
  unfold wrong_password.
  now destruct (clearExpiryTimer_fields r) as (_ & -> & _).
Qed.

(** ** Writes to connections and rooms *)

Lemma rooms_update_socket sid f st :
  rooms (update_socket sid f st) = rooms st.
Proof.
  unfold update_socket. destruct (JsMap.get sid (sockets st)); reflexivity.
Qed.

Lemma get_put_room roomId r st :
  JsMap.get roomId (rooms (put_room roomId r st)) = Some r.
Proof. apply JsMapFacts.get_set_same. Qed.

Lemma get_put_room_other roomId k r st :
  k <> roomId ->
  JsMap.get k (rooms (put_room roomId r st)) = JsMap.get k (rooms st).
Proof. intros; now apply JsMapFacts.get_set_other. Qed.

Lemma getRoomBySocket_registered sid st roomId r :
  getRoomBySocket sid st = Some (roomId, r) ->
  In (roomId, r) (rooms st) /\ JsMap.has sid (members r) = true.
Proof.
  unfold getRoomBySocket. intros Hf. apply find_some in Hf. exact Hf.
Qed.

(** ** One snapshot, one entry *)

Lemma keep_last_app {A : Type} (n : nat) (a b : list A) :
  keep_last n (keep_last n a ++ b) = keep_last n (a ++ b).
Proof.
  unfold keep_last. rewrite !length_app, length_skipn.
  destruct (Nat.le_gt_cases (List.length a) n) as [Hle | Hgt].
  - replace (List.length a - n)%nat with 0%nat by lia. simpl.
    now rewrite Nat.sub_0_r.
  - replace (List.length a - (List.length a - n) + List.length b - n)%nat
      with (List.length b) by lia.
    replace (List.length a + List.length b - n)%nat
      with (List.length b + (List.length a - n))%nat by lia.
    rewrite <- skipn_skipn. f_equal.
    rewrite skipn_app.
    replace (List.length a - n - List.length a)%nat with 0%nat by lia.
    reflexivity.
Qed.

Lemma keep_last_length {A : Type} (n : nat) (l : list A) :
  (List.length (keep_last n l) <= n)%nat.
Proof. unfold keep_last. rewrite length_skipn. lia. Qed.

Lemma keep_last_short {A : Type} (n : nat) (l : list A) :
  (List.length l <= n)%nat -> keep_last n l = l.
Proof.
  intros Hle. unfold keep_last.
  now replace (List.length l - n)%nat with 0%nat by lia.
Qed.

Lemma cap_Z : Z.of_nat cap = 86400.
Proof. reflexivity. Qed.

Lemma intel_sample_history now d e :
  (List.length (emotion_history e) <= cap)%nat ->
  emotion_history (intel_sample now d e) =
  if sample_due now e then keep_last cap (emotion_history e ++ [d])
  else emotion_history e.
Proof.
  intros Hlen. unfold intel_sample. destruct (sample_due now e); cbv zeta;
    cbn [emotion_history]; auto.
  pose proof cap_Z as Hc.
  assert (Hl : List.length (emotion_history e ++ [d])
               = S (List.length (emotion_history e)))
    by (rewrite length_app; simpl; lia).
  unfold INTEL_MAX_HISTORY_LENGTH.
  destruct (Z.gtb_spec (Z.of_nat (List.length (emotion_history e ++ [d])))
              (24 * 60 * 60)) as [Hgt | Hle].
  - unfold keep_last.
    replace (List.length (emotion_history e ++ [d]) - cap)%nat with 1%nat
      by lia.
    reflexivity.
  - symmetry. apply keep_last_short. lia.
Qed.

Lemma intel_sample_length now d e :
  (List.length (emotion_history e) <= cap)%nat ->
  (List.length (emotion_history (intel_sample now d e)) <= cap)%nat.
Proof.
  intros Hlen. rewrite intel_sample_history by exact Hlen.
  destruct (sample_due now e); [apply keep_last_length | exact Hlen].
Qed.

Lemma intel_sample_time now d e :
  last_history_sample_time (intel_sample now d e) =
  if sample_due now e then seconds now else last_history_sample_time e.
Proof. unfold intel_sample. destruct (sample_due now e); reflexivity. Qed.

(** The seconds of a time value are within [2^-11] of the exact quotient. *)
Lemma seconds_error now :
  time_value now ->
  (inject_Z now / 1000 - (1 # 2048) <= seconds now)%Q /\
  (seconds now <= inject_Z now / 1000 + (1 # 2048))%Q.
Proof.
  intros [H1 H2]. unfold TIME_MAX in *.
  apply DoubleFacts.div_1000_error. lia.
Qed.

(** When a sample is due, and the time of the last one is the seconds
    of the reading [last] (or 0, for none, with [last = 0]), one second
    has passed on the clock. *)
Lemma sample_due_spaced now last e :
  time_value now ->
  (inject_Z last / 1000 - (1 # 2048) <= last_history_sample_time e)%Q ->
  (last_history_sample_time e <= inject_Z last / 1000 + (1 # 2048))%Q ->
  sample_due now e = true ->
  last + 1000 <= now.
Proof.
  intros Hnow Hl1 Hl2 Hdue.
  unfold sample_due, Double.ge, Double.sub in Hdue.
  apply Qle_bool_iff in Hdue.
  assert (H1 : (1 <= Double.div INTEL_HISTORY_SAMPLE_INTERVAL_MS 1000)%Q)
    by (vm_compute; discriminate).
  pose proof (DoubleFacts.round_ge_1 _ (Qle_trans _ _ _ H1 Hdue)) as Hq.
  destruct (seconds_error now Hnow) as [_ Hs].
  assert (Hlt : (inject_Z (last + 999) < inject_Z now)%Q).
  { rewrite inject_Z_plus. change (inject_Z 999) with 999%Q.
    clear Hdue H1. unfold Qdiv in *.
    change (/ 1000)%Q with (1 # 1000)%Q in *. lra. }
  rewrite <- Zlt_Qlt in Hlt. lia.
Qed.

Lemma receive_all_length snapshots : forall e,
  (List.length (emotion_history e) <= cap)%nat ->
  (List.length (emotion_history (receive_all snapshots e)) <= cap)%nat.
Proof.
  induction snapshots as [|[now d] rest IH]; intros e Hlen; simpl; auto.
  apply IH. now apply intel_sample_length.
Qed.

Lemma receive_all_history snapshots : forall e,
  (List.length (emotion_history e) <= cap)%nat ->
  emotion_history (receive_all snapshots e) =
  keep_last cap (emotion_history e ++ List.map snd (appended snapshots e)).
Proof.
  induction snapshots as [|[now d] rest IH]; intros e Hlen; simpl.
  - rewrite app_nil_r. symmetry. now apply keep_last_short.
  - rewrite IH by now apply intel_sample_length.
    rewrite intel_sample_history by exact Hlen.
    destruct (sample_due now e); simpl; auto.
    rewrite keep_last_app, <- app_assoc. reflexivity.
Qed.

Lemma appended_spaced snapshots : forall e last,
  (inject_Z last / 1000 - (1 # 2048) <= last_history_sample_time e)%Q ->
  (last_history_sample_time e <= inject_Z last / 1000 + (1 # 2048))%Q ->
  Forall (fun s => time_value (fst s)) snapshots ->
  spaced last (List.map fst (appended snapshots e)).
Proof.
  induction snapshots as [|[now d] rest IH]; intros e last Hl1 Hl2 Hall;
    simpl; auto.
  inversion Hall as [|x l Hnow Hrest]; subst. cbn [fst] in Hnow.
  pose proof (intel_sample_time now d e) as Ht.
  destruct (sample_due now e) eqn:Hdue; simpl.
  - split; [exact (sample_due_spaced now last e Hnow Hl1 Hl2 Hdue)|].
    destruct (seconds_error now Hnow) as [Hs1 Hs2].
    apply IH; [rewrite Ht; exact Hs1 | rewrite Ht; exact Hs2 | exact Hrest].
  - apply IH; [rewrite Ht; exact Hl1 | rewrite Ht; exact Hl2 | exact Hrest].
Qed.

(** ** What holds of every registered room *)

Lemma room_ok_same k r r' :
  password r' = password r -> intel r' = intel r ->
  room_ok (k, r) -> room_ok (k, r').
Proof. unfold room_ok; simpl. intros -> ->. auto. Qed.

Lemma room_ok_set_intel k r m :
  room_ok (k, r) -> intel_ok m -> room_ok (k, set_intel m r).
Proof. unfold room_ok; simpl. tauto. Qed.

Lemma room_ok_intel k r : room_ok (k, r) -> intel_ok (intel r).
Proof. unfold room_ok; simpl. tauto. Qed.

Lemma intel_ok_set k v m :
  (List.length (emotion_history v) <= cap)%nat ->
  intel_ok m -> intel_ok (JsMap.set k v m).
Proof. intros Hv. apply JsMapFacts.Forall_set. intros k'. exact Hv. Qed.

Lemma intel_ok_delete k m : intel_ok m -> intel_ok (JsMap.delete k m).
Proof. apply JsMapFacts.Forall_delete. Qed.

Lemma intel_ok_get k e m :
  intel_ok m -> JsMap.get k m = Some e ->
  (List.length (emotion_history e) <= cap)%nat.
Proof.
  intros Hok Hg. apply JsMapFacts.get_In in Hg.
  exact (proj1 (Forall_forall _ _) Hok _ Hg).
Qed.

Lemma fresh_intel_ok : (List.length (emotion_history fresh_intel) <= cap)%nat.
Proof. simpl. lia. Qed.

Lemma intel_ok_sample now k d m :
  intel_ok m ->
  intel_ok
    (JsMap.set k
       (intel_sample now d
          (match JsMap.get k m with Some e => e | None => fresh_intel end)) m).
Proof.
  intros Hok. apply intel_ok_set; [|exact Hok].
  apply intel_sample_length.
  destruct (JsMap.get k m) as [e|] eqn:E;
    [exact (intel_ok_get k e m Hok E) | exact fresh_intel_ok].
Qed.

Lemma room_password_ok k p :
  Str.truthy k = true ->
  forall r,
    password r = room_password p -> intel_ok (intel r) -> room_ok (k, r).
Proof.
  intros Hk r Hp Hi. split; [exact Hk|]. split; [|exact Hi]. simpl.
  rewrite Hp.
  unfold room_password. destruct p as [p|]; auto.
  destruct (Str.truthy p); auto.
  destruct (Str.truthy (Str.trim p)) eqn:E; auto.
  split; [exact E | apply StrFacts.trim_idempotent].
Qed.

Lemma state_ok_get st k r :
  state_ok st -> JsMap.get k (rooms st) = Some r -> room_ok (k, r).
Proof.
  intros Hok Hg. apply JsMapFacts.get_In in Hg.
  exact (proj1 (Forall_forall _ _) Hok _ Hg).
Qed.

Lemma state_ok_find st sid k r :
  state_ok st -> getRoomBySocket sid st = Some (k, r) -> room_ok (k, r).
Proof.
  intros Hok Hf. apply getRoomBySocket_registered in Hf as [Hin _].
  exact (proj1 (Forall_forall _ _) Hok _ Hin).
Qed.

Lemma state_ok_put st k r :
  state_ok st -> room_ok (k, r) -> state_ok (put_room k r st).
Proof.
  unfold state_ok, put_room; simpl. intros Hok Hr.
  induction Hok as [|[k' v'] m Hx Hm IH]; simpl.
  - constructor; auto.
  - destruct (Str.eqb k k') eqn:E; constructor; auto.
    apply StrFacts.eqb_eq in E; subst; exact Hr.
Qed.

Lemma state_ok_delete st k :
  state_ok st -> state_ok (set_rooms (JsMap.delete k (rooms st)) st).
Proof. unfold state_ok; simpl. apply JsMapFacts.Forall_delete. Qed.

Lemma state_ok_update_socket st sid f :
  state_ok st -> state_ok (update_socket sid f st).
Proof. unfold state_ok. now rewrite rooms_update_socket. Qed.

Lemma state_ok_set_sockets st m :
  state_ok st -> state_ok (set_sockets m st).
Proof. auto. Qed.

Lemma room_ok_clear k r : room_ok (k, r) -> room_ok (k, clearExpiryTimer r).
Proof.
  destruct (clearExpiryTimer_fields r) as (_ & Hp & _ & _ & _ & _ & _ & Hi & _).
  now apply room_ok_same.
Qed.

Lemma room_ok_schedule now k k' r :
  room_ok (k, r) -> room_ok (k, scheduleRoomExpiry now k' r).
Proof.
  intros Hr. unfold scheduleRoomExpiry. cbv zeta.
  destruct (expiryMinutes (clearExpiryTimer r) <=? 0).
  - now apply room_ok_clear.
  - apply (room_ok_same k (clearExpiryTimer r)); [reflexivity..|].
    now apply room_ok_clear.
Qed.

Lemma intel_clear r : intel (clearExpiryTimer r) = intel r.
Proof. now destruct (clearExpiryTimer_fields r) as (_&_&_&_&_&_&_& -> & _). Qed.

Ltac room_ok_leaf :=
  match goal with
  | H : JsMap.get ?k (rooms ?st) = Some ?r |- room_ok (?k, ?r) =>
      apply (state_ok_get st k r); [assumption | exact H]
  | H : getRoomBySocket ?sid ?st = Some (?k, ?r) |- room_ok (?k, ?r) =>
      apply (state_ok_find st sid k r); [assumption | exact H]
  | H : JsMap.get ?k (rooms ?st) = Some ?r |- intel_ok (intel ?r) =>
      apply (room_ok_intel k r), (state_ok_get st k r);
      [assumption | exact H]
  | H : getRoomBySocket ?sid ?st = Some (?k, ?r) |- intel_ok (intel ?r) =>
      apply (room_ok_intel k r), (state_ok_find st sid k r);
      [assumption | exact H]
  end.

Ltac state_ok_tac :=
  repeat first
    [ assumption
    | room_ok_leaf
    | progress cbn [fst]
    | apply state_ok_update_socket
    | apply state_ok_set_sockets
    | apply state_ok_delete
    | apply state_ok_put
    | apply room_ok_clear
    | apply room_ok_schedule
    | apply intel_ok_sample
    | apply intel_ok_delete
    | apply intel_ok_set; [exact fresh_intel_ok|]
    | match goal with
      | |- room_ok (_, set_members _ ?r) =>
          apply (room_ok_same _ r _ eq_refl eq_refl)
      | |- room_ok (_, set_pending _ ?r) =>
          apply (room_ok_same _ r _ eq_refl eq_refl)
      | |- room_ok (_, set_expiryTimer _ ?r) =>
          apply (room_ok_same _ r _ eq_refl eq_refl)
      | |- room_ok (_, set_intel _ _) => apply room_ok_set_intel
      | |- intel_ok _ =>
          first [ progress cbn [intel set_members set_pending set_intel
                                set_expiryTimer]
                | rewrite intel_clear ]
      | |- state_ok (fst (if ?b then _ else _)) => destruct b eqn:?
      | |- state_ok (fst (match ?x with Some _ => _ | None => _ end)) =>
          let E := fresh "E" in
          destruct x as [?|] eqn:E;
          try match type of E with
              | _ = Some ?p =>
                  is_var p;
                  match type of p with (_ * _)%type => destruct p end
              end
      | |- state_ok (fst (let (_, _) := ?p in _)) => destruct p
      end ].

Lemma join_room_ok now sid roomId user payload st :
  state_ok st -> state_ok (fst (join_room now sid roomId user payload st)).
Proof.
  intros Hok. unfold join_room. cbv zeta.
  destruct (negb (Str.truthy roomId) || negb (name_given user)) eqn:Hv;
    [exact Hok|].
  apply orb_false_elim in Hv as [Hid _]. apply negb_false_iff in Hid.
  destruct (JsMap.get roomId (rooms st)) as [r|] eqn:Hget.
  - state_ok_tac.
  - destruct (isCreator payload); [|exact Hok].
    destruct (roomOptions payload) as [opts|]; [|exact Hok].
    destruct (not_started now (o_scheduledAt opts)); [exact Hok|].
    state_ok_tac. apply (room_password_ok roomId (o_password opts)); auto.
    apply intel_ok_set; [exact fresh_intel_ok | constructor].
Qed.

Lemma step_ok i st : state_ok st -> state_ok (fst (step i st)).
Proof.
  intros Hok. destruct i as [now sid e | now roomId].
  - unfold step.
    destruct e; try (destruct (JsMap.get sid (sockets st)) eqn:Hs;
                     [|exact Hok]).
    + state_ok_tac.
    + now apply join_room_ok.
    + unfold admit_peer. cbv zeta. state_ok_tac.
    + unfold reject. cbv zeta. state_ok_tac.
    + exact Hok.
    + exact Hok.
    + exact Hok.
    + unfold chat_message.
      destruct (getRoomBySocket sid st) as [[k r]|]; [|exact Hok].
      destruct text; [|exact Hok]. state_ok_tac.
    + unfold mute_all. state_ok_tac.
    + unfold mute_peer. state_ok_tac.
    + unfold kick. cbv zeta. state_ok_tac.
    + unfold end_meeting. cbv zeta. state_ok_tac.
    + unfold raise_hand. state_ok_tac.
    + unfold reaction. state_ok_tac.
    + unfold spotlight. state_ok_tac.
    + unfold intel_metrics. cbv zeta. state_ok_tac.
    + unfold disconnect. cbv zeta.
      assert (Hok' : state_ok (set_sockets (JsMap.delete sid (sockets st)) st))
        by exact Hok.
      revert Hok'. generalize (set_sockets (JsMap.delete sid (sockets st)) st).
      clear Hok. intros st' Hok. state_ok_tac.
  - unfold step, timer_fires. state_ok_tac.
Qed.

Lemma run_ok inputs : forall st, state_ok st -> state_ok (fst (run inputs st)).
Proof.
  induction inputs as [|i rest IH]; intros st Hok; simpl; auto.
  pose proof (step_ok i st Hok) as H1.
  destruct (step i st) as [st1 out1]. simpl in H1.
  specialize (IH st1 H1). destruct (run rest st1) as [st2 out2]. exact IH.
Qed.

(** Every reachable state has well-formed rooms. *)
Lemma reachable_ok st : reachable st -> state_ok st.
Proof.
  intros [inputs ->]. apply run_ok. constructor.
Qed.

Lemma keys_ok_put st k r : keys_ok st -> keys_ok (put_room k r st).
Proof. apply JsMapFacts.NoDup_set. Qed.

Lemma keys_ok_delete st k :
  keys_ok st -> keys_ok (set_rooms (JsMap.delete k (rooms st)) st).
Proof. apply JsMapFacts.NoDup_delete. Qed.

Lemma keys_ok_update_socket st sid f :
  keys_ok st -> keys_ok (update_socket sid f st).
Proof. unfold keys_ok. now rewrite rooms_update_socket. Qed.

Ltac keys_ok_tac :=
  repeat first
    [ assumption
    | progress cbn [fst]
    | apply keys_ok_update_socket
    | apply keys_ok_delete
    | apply keys_ok_put
    | match goal with
      | |- keys_ok (set_sockets _ ?st) => change (keys_ok st)
      | |- keys_ok (fst (if ?b then _ else _)) => destruct b
      | |- keys_ok (fst (match ?x with _ => _ end)) => destruct x
      end ].

Lemma step_keys_ok i st : keys_ok st -> keys_ok (fst (step i st)).
Proof.
  intros Hok. destruct i as [now sid e | now roomId].
  - unfold step.
    destruct e; try (destruct (JsMap.get sid (sockets st)) as [sock|];
                     [|exact Hok]).
    + keys_ok_tac.
    + unfold join_room. cbv zeta. keys_ok_tac.
    + unfold admit_peer. cbv zeta. keys_ok_tac.
    + unfold reject. cbv zeta. keys_ok_tac.
    + exact Hok.
    + exact Hok.
    + exact Hok.
    + unfold chat_message. keys_ok_tac.
    + unfold mute_all. keys_ok_tac.
    + unfold mute_peer. keys_ok_tac.
    + unfold kick. cbv zeta. keys_ok_tac.
    + unfold end_meeting. cbv zeta. keys_ok_tac.
    + unfold raise_hand. keys_ok_tac.
    + unfold reaction. keys_ok_tac.
    + unfold spotlight. keys_ok_tac.
    + unfold intel_metrics. cbv zeta. keys_ok_tac.
    + unfold disconnect. cbv zeta. keys_ok_tac.
  - unfold step, timer_fires. keys_ok_tac.
Qed.

(** Every reachable state has one room per room id. *)
Lemma reachable_keys_ok st : reachable st -> keys_ok st.
Proof.
  intros [inputs ->]. unfold init.
  assert (H0 : keys_ok {| rooms := []; sockets := [] |}) by constructor.
  revert H0. generalize {| rooms := []; sockets := [] |}.
  induction inputs as [|i rest IH]; intros st Hok; simpl; auto.
  pose proof (step_keys_ok i st Hok) as H1.
  destruct (step i st) as [st1 out1]. simpl in H1.
  specialize (IH st1 H1). destruct (run rest st1) as [st2 out2]. exact IH.
Qed.

(** In a reachable state the room [getRoomBySocket] resolves is the one
    registered under its id. *)
Lemma getRoomBySocket_get sid st roomId r :
  keys_ok st ->
  getRoomBySocket sid st = Some (roomId, r) ->
  JsMap.get roomId (rooms st) = Some r.
Proof.
  intros Hok Hf. apply JsMapFacts.NoDup_get; [exact Hok|].
  apply (getRoomBySocket_registered sid st roomId r Hf).
Qed.

(** ** Members and pending (C1) *)

(** A member of a room with a waiting room who is not its creator, and
    whose repeated join passes the password and the schedule, is written
    into [pending] and stays in [members]. *)
Lemma member_rejoin_in_both now sid roomId user payload st r :
  Str.truthy roomId = true ->
  name_given user = true ->
  JsMap.get roomId (rooms st) = Some r ->
  wrong_password r payload = false ->
  not_started now (scheduledAt r) = None ->
  waitingRoom r = true ->
  sid <> creatorId r ->
  JsMap.has sid (members r) = true ->
  exists r',
    JsMap.get roomId
      (rooms (fst (join_room now sid roomId user payload st))) = Some r' /\
    JsMap.has sid (members r') = true /\
    JsMap.has sid (pending r') = true.
Proof.
  intros Hid Hname Hget Hpw Hat Hwait Hne Hmem.
  unfold join_room. rewrite Hid, Hname, Hget. cbn [negb orb]. cbv zeta.
  rewrite wrong_password_clear, Hpw.
  destruct (clearExpiryTimer_fields r)
    as (Ec & _ & Es & _ & Ew & Em & _ & _ & _).
  rewrite Es, Hat, Ew, Ec, Hwait.
  apply StrFacts.eqb_neq in Hne. rewrite Hne. cbn [negb andb fst].
  rewrite rooms_update_socket, get_put_room.
  eexists. split; [reflexivity|]. cbn [members pending set_pending].
  rewrite Em. split; [exact Hmem | apply JsMapFacts.has_set_same].
Qed.

(** C1. The claim: in every room, at every point between two handlers,
    no session id is a key of both [members] and [pending].
    The program breaks it.  In a room with a waiting room, a session
    the host has admitted is in [members]; when that session sends
    [join-room] again, the waiting-room branch writes it into [pending]
    and leaves [members] as it is.  The rooms are disjoint before that
    join, and afterwards [B] is a key of both maps of the room ["r1"]. *)
Theorem rejoin_after_admit_in_both :
  rooms_disjoint Scenario.st_admitted = true /\
  rooms_disjoint Scenario.st_rejoined = false /\
  exists r,
    JsMap.get (lit "r1") (rooms Scenario.st_rejoined) = Some r /\
    JsMap.has Scenario.B (members r) = true /\
    JsMap.has Scenario.B (pending r) = true.
Proof.
  split; [reflexivity|]. split; [reflexivity|].
  eexists. split; [reflexivity|]. split; reflexivity.
Qed.

(** ** Emptiness and the expiry scheduler (C2) *)

(** The kick handler deletes no room and starts no timer: every
    registered room is still registered afterwards, with the timer it
    had. *)
Lemma kick_never_schedules sid targetId st roomId r :
  keys_ok st ->
  JsMap.get roomId (rooms st) = Some r ->
  exists r',
    JsMap.get roomId (rooms (fst (kick sid targetId st))) = Some r' /\
    expiryTimer r' = expiryTimer r.
Proof.
  intros Hok Hget. unfold kick.
  destruct (getRoomBySocket sid st) as [[k r0]|] eqn:Hf; [|eauto].
  destruct (negb (isHost sid st)); [eauto|]. cbv zeta.
  pose proof (getRoomBySocket_get sid st k r0 Hok Hf) as Hk.
  assert (Hrooms : exists r',
    JsMap.get roomId
      (rooms (put_room k
                (set_pending
                   (JsMap.delete targetId
                      (pending
                         (set_members (JsMap.delete targetId (members r0))
                            r0)))
                   (set_members (JsMap.delete targetId (members r0)) r0))
                st)) = Some r' /\
    expiryTimer r' = expiryTimer r).
  { destruct (list_eq_dec N.eq_dec roomId k) as [-> | Hne].
    - rewrite get_put_room. eexists. split; [reflexivity|].
      rewrite Hk in Hget. now injection Hget as <-.
    - rewrite get_put_room_other by exact Hne. eauto. }
  destruct (JsMap.get targetId (sockets (put_room k _ st))) as [peer|];
    [destruct (in_room k peer)|];
    cbn [fst]; rewrite ?rooms_update_socket; exact Hrooms.
Qed.

(** C2. The claim: every event that makes a room empty, kick included,
    deletes it in the same step when [expiryMinutes = 0] and starts the
    timer when [expiryMinutes > 0].
    The kick handler does neither.  A host alone in its room who kicks
    its own session leaves the room registered, with no member, nobody
    pending and no timer, whatever [expiryMinutes] is, and the room is
    still there after the host has disconnected; the disconnect handler,
    from the state before the kick, deletes the room when
    [expiryMinutes = 0] and starts the timer when it is 30. *)
Theorem self_kick_leaves_empty_room :
  (forall expiry,
     exists r,
       JsMap.get (lit "r")
         (rooms (Scenario.after
                   (Scenario.alone expiry ++ [Scenario.self_kick])))
       = Some r /\
       room_empty r = true /\ expiryTimer r = None) /\
  (forall expiry,
     exists r,
       JsMap.get (lit "r")
         (rooms (Scenario.after
                   (Scenario.alone expiry ++
                    [Scenario.self_kick; Scenario.host_leaves])))
       = Some r /\
       room_empty r = true /\ expiryTimer r = None) /\
  rooms (Scenario.after (Scenario.alone 0 ++ [Scenario.host_leaves])) = [] /\
  (exists r,
     rooms (Scenario.after (Scenario.alone 30 ++ [Scenario.host_leaves]))
     = [(lit "r", r)] /\
     room_empty r = true /\
     expiryTimer r = Some {| t_roomId := lit "r"; t_due := 3 + 30 * 60000 |}).
Proof.
  split; [|split; [|split]].
  - intros expiry. eexists. repeat split; reflexivity.
  - intros expiry. eexists. repeat split; reflexivity.
  - reflexivity.
  - eexists. repeat split; reflexivity.
Qed.

(** ** Creating a scheduled room (C3) *)

(** A creating join whose start is ahead answers with the not-started
    signal and leaves the state, registry included, as it was. *)
Lemma creation_ahead_of_start now sid roomId user payload opts t st :
  Str.truthy roomId = true ->
  name_given user = true ->
  JsMap.get roomId (rooms st) = None ->
  isCreator payload = true ->
  roomOptions payload = Some opts ->
  not_started now (o_scheduledAt opts) = Some t ->
  join_room now sid roomId user payload st
  = (st, [socket_emit sid (MeetingNotStarted t)]).
Proof.
  intros Hid Hname Hget Hc Ho Hat.
  unfold join_room. rewrite Hid, Hname, Hget, Hc, Ho. cbn [negb orb].
  cbv zeta. now rewrite Hat.
Qed.

(** C3. The claim: a creating join whose [scheduledAt] is in the future
    still creates the room, and the creator gets the not-started signal.
    The handler sends the signal and returns before it builds the room:
    the registry is as it was, and a joiner who comes next is told that
    the room is not found, where the README promises joiners the
    not-started notice until the scheduled time. *)
Theorem scheduled_creation_registers_nothing :
  run Scenario.scheduled init =
  ({| rooms := [];
      sockets := [(Scenario.H, new_socket Scenario.H);
                  (Scenario.B, new_socket Scenario.B)] |},
   [socket_emit Scenario.H (MeetingNotStarted 601000);
    socket_emit Scenario.B (Error (lit "Room not found"))]).
Proof. reflexivity. Qed.

(** ** Telemetry of a member that is added again (C4) *)

(** C4, the claim refuted.  The host is a member of ["r"] with one
    snapshot in its history; it sends [join-room] for ["r"] again, is
    added again, and its history is empty afterwards. *)
Lemma rejoin_forgets_history :
  (exists r e,
     JsMap.get (lit "r") (rooms Scenario.st_sampled) = Some r /\
     JsMap.has Scenario.H (members r) = true /\
     JsMap.get Scenario.H (intel r) = Some e /\
     emotion_history e = [[lit "calm"]]) /\
  (exists r e,
     JsMap.get (lit "r")
       (rooms (Scenario.after (Scenario.sampled ++ [Scenario.host_rejoins])))
     = Some r /\
     JsMap.has Scenario.H (members r) = true /\
     JsMap.get Scenario.H (intel r) = Some e /\
     emotion_history e = []).
Proof.
  split; do 2 eexists; repeat split; reflexivity.
Qed.

(** C4, amended.  Adding a member installs a fresh telemetry record,
    whatever was recorded before: after a join that passes the gates
    into [members], and after an admission, the telemetry record of the
    added session has an empty current value, an empty history and
    sample time 0. *)
Theorem add_member_installs_fresh_telemetry :
  (forall now sid roomId user payload st r,
     Str.truthy roomId = true ->
     name_given user = true ->
     JsMap.get roomId (rooms st) = Some r ->
     wrong_password r payload = false ->
     not_started now (scheduledAt r) = None ->
     waitingRoom r && negb (Str.eqb sid (creatorId r)) = false ->
     exists r',
       JsMap.get roomId
         (rooms (fst (join_room now sid roomId user payload st))) = Some r' /\
       JsMap.has sid (members r') = true /\
       JsMap.get sid (intel r') = Some fresh_intel) /\
  (forall sid peerId st roomId r data,
     getRoomBySocket sid st = Some (roomId, r) ->
     creatorId r = sid ->
     JsMap.get peerId (pending r) = Some data ->
     exists r',
       JsMap.get roomId (rooms (fst (admit_peer sid peerId st))) = Some r' /\
       JsMap.has peerId (members r') = true /\
       JsMap.get peerId (intel r') = Some fresh_intel).
Proof.
  split.
  - intros now sid roomId user payload st r Hid Hname Hget Hpw Hat Hwait.
    unfold join_room. rewrite Hid, Hname, Hget. cbn [negb orb]. cbv zeta.
    rewrite wrong_password_clear, Hpw.
    destruct (clearExpiryTimer_fields r)
      as (Ec & _ & Es & _ & Ew & Em & _ & Ei & _).
    rewrite Es, Hat, Ew, Ec, Hwait.
    eexists. cbn [fst]. rewrite rooms_update_socket, get_put_room.
    split; [reflexivity|]. cbn [members intel set_intel set_members].
    split; [apply JsMapFacts.has_set_same | apply JsMapFacts.get_set_same].
  - intros sid peerId st roomId r data Hroom Hhost Hpend.
    unfold admit_peer. rewrite Hroom, Hhost, StrFacts.eqb_refl, Hpend.
    cbn [negb]. cbv zeta.
    match goal with
    | |- context [put_room roomId ?r' st] =>
        exists r'; split;
        [| split; [apply JsMapFacts.has_set_same
                  | apply JsMapFacts.get_set_same]]
    end.
    destruct (JsMap.get peerId (sockets (put_room roomId _ st))); cbn [fst].
    + rewrite rooms_update_socket. apply get_put_room.
    + apply get_put_room.
Qed.

Lemma add_member_installs_fresh_telemetry_witness :
  (exists r',
     JsMap.get (lit "r")
       (rooms (fst (join_room 6000 Scenario.H (lit "r") (Some (lit "host"))
                      (Scenario.joining [])
                      Scenario.st_sampled))) = Some r' /\
     JsMap.has Scenario.H (members r') = true /\
     JsMap.get Scenario.H (intel r') = Some fresh_intel) /\
  (exists r',
     JsMap.get (lit "r1")
       (rooms (fst (admit_peer Scenario.H Scenario.B
                      (Scenario.after (firstn 4 Scenario.admitted)))))
     = Some r' /\
     JsMap.has Scenario.B (members r') = true /\
     JsMap.get Scenario.B (intel r') = Some fresh_intel).
Proof.
  split.
  - eapply (proj1 add_member_installs_fresh_telemetry); reflexivity.
  - eapply (proj2 add_member_installs_fresh_telemetry); reflexivity.
Defined.

(** ** The gates of a join to an existing room (C5, C10) *)

Section JoinExisting.

Variables (now : Z) (sid roomId : str) (user : option str).
Variables (payload : join_payload) (st : server) (r : room).

Hypothesis Hid : Str.truthy roomId = true.
Hypothesis Hname : name_given user = true.
Hypothesis Hget : JsMap.get roomId (rooms st) = Some r.

Lemma join_wrong_password :
  wrong_password r payload = true ->
  join_room now sid roomId user payload st =
  (put_room roomId (clearExpiryTimer r) st, [socket_emit sid WrongPassword]).
Proof.
  intros Hpw. unfold join_room. rewrite Hid, Hname, Hget. cbn [negb orb].
  cbv zeta. now rewrite wrong_password_clear, Hpw.
Qed.

Lemma join_not_started t :
  wrong_password r payload = false ->
  not_started now (scheduledAt r) = Some t ->
  join_room now sid roomId user payload st =
  (put_room roomId (clearExpiryTimer r) st,
   [socket_emit sid (MeetingNotStarted t)]).
Proof.
  intros Hpw Hat. unfold join_room. rewrite Hid, Hname, Hget. cbn [negb orb].
  cbv zeta. rewrite wrong_password_clear, Hpw.
  destruct (clearExpiryTimer_fields r) as (_ & _ & -> & _).
  now rewrite Hat.
Qed.

Lemma turned_away_clear :
  turned_away roomId r st (put_room roomId (clearExpiryTimer r) st).
Proof.
  split; [reflexivity|]. split.
  - intros k Hk. now apply get_put_room_other.
  - rewrite get_put_room. f_equal. apply clearExpiryTimer_eq.
Qed.

(** When both gates are passed the requester waits for the host or is
    in the room. *)
Lemma join_admitted :
  wrong_password r payload = false ->
  not_started now (scheduledAt r) = None ->
  exists m rest,
    snd (join_room now sid roomId user payload st)
    = socket_emit sid m :: rest /\
    (m = WaitingForHost \/ exists ps h, m = RoomJoined roomId ps h sid).
Proof.
  intros Hpw Hat. unfold join_room. rewrite Hid, Hname, Hget. cbn [negb orb].
  cbv zeta. rewrite wrong_password_clear, Hpw.
  destruct (clearExpiryTimer_fields r) as (_ & _ & -> & _).
  rewrite Hat.
  destruct (waitingRoom (clearExpiryTimer r) &&
            negb (Str.eqb sid (creatorId (clearExpiryTimer r)))); cbn [snd].
  - do 2 eexists. split; [reflexivity|]. now left.
  - do 2 eexists. split; [reflexivity|]. right. eauto.
Qed.

(** In every outcome the room is still registered and has no timer. *)
Lemma join_timer_cleared :
  exists r',
    JsMap.get roomId (rooms (fst (join_room now sid roomId user payload st)))
    = Some r' /\ expiryTimer r' = None.
Proof.
  destruct (clearExpiryTimer_fields r) as (_&_&_&_&_&_&_&_& Et).
  unfold join_room. rewrite Hid, Hname, Hget. cbn [negb orb]. cbv zeta.
  destruct (wrong_password (clearExpiryTimer r) payload);
    [|destruct (not_started now (scheduledAt (clearExpiryTimer r)));
      [|destruct (waitingRoom (clearExpiryTimer r) &&
                  negb (Str.eqb sid (creatorId (clearExpiryTimer r))))]];
    cbn [fst]; rewrite ?rooms_update_socket, get_put_room;
    eexists; (split; [reflexivity | exact Et]).
Qed.

End JoinExisting.

Lemma wrong_password_spec r payload :
  wrong_password r payload = true <->
  exists pw, password r = Some pw /\ pw <> [] /\
             pw <> supplied_password payload.
Proof.
  unfold wrong_password, supplied_password.
  destruct (password r) as [pw|].
  - rewrite andb_true_iff, negb_true_iff, StrFacts.eqb_neq,
      StrFacts.truthy_nonempty.
    split.
    + intros [H1 H2]. eauto.
    + intros (pw' & [= <-] & H1 & H2). auto.
  - split; [discriminate|]. intros (pw & H & _); discriminate.
Qed.

Lemma not_started_spec now at_ t :
  not_started now at_ = Some t <-> at_ = Some t /\ t <> 0 /\ now < t.
Proof.
  unfold not_started. destruct at_ as [u|].
  - destruct (Z.eqb_spec u 0); destruct (Z.ltb_spec now u); cbn [negb andb];
      split; try discriminate.
    all: try (intros ([= ->] & H1 & H2); lia).
    + intros [= ->]. auto.
    + tauto.
  - split; [discriminate|]. intros (H & _); discriminate.
Qed.

(** C5.  A join to an existing room (by the creator or anyone else, with
    a room id and a name that pass the validation) meets the password
    gate first and the schedule gate second.  The stored password is
    non-empty and already trimmed, and it is compared with the trimmed
    supplied one: when they differ the requester gets [wrong-password]
    and nothing else happens than the timer reset, whatever the schedule
    says.  When the room has no password or the trimmed passwords are
    equal, a start that is still ahead gives [meeting-not-started] with
    the same frame, and the same request sent again once the start has
    come passes; a start that has come lets the requester wait for the
    host or enter. *)
Theorem password_gate_then_schedule_gate :
  forall st now sid roomId user payload r,
    reachable st ->
    name_given user = true ->
    JsMap.get roomId (rooms st) = Some r ->
    let res := join_room now sid roomId user payload st in
    (forall pw, password r = Some pw -> pw <> [] /\ Str.trim pw = pw) /\
    (forall pw,
       password r = Some pw -> pw <> supplied_password payload ->
       snd res = [socket_emit sid WrongPassword] /\
       turned_away roomId r st (fst res)) /\
    (password r = None \/ password r = Some (supplied_password payload) ->
     (forall t,
        scheduledAt r = Some t -> 0 <= now -> now < t ->
        snd res = [socket_emit sid (MeetingNotStarted t)] /\
        turned_away roomId r st (fst res) /\
        (forall later,
           t <= later ->
           exists m rest,
             snd (join_room later sid roomId user payload (fst res))
             = socket_emit sid m :: rest /\
             (m = WaitingForHost \/
              exists ps h, m = RoomJoined roomId ps h sid))) /\
     (not_started now (scheduledAt r) = None ->
      exists m rest,
        snd res = socket_emit sid m :: rest /\
        (m = WaitingForHost \/ exists ps h, m = RoomJoined roomId ps h sid))).
Proof.
  intros st now sid roomId user payload r Hreach Hname Hget res.
  pose proof (state_ok_get st roomId r (reachable_ok st Hreach) Hget)
    as (Hid & Hpw & _). simpl in Hid, Hpw.
  split; [|split].
  - intros pw E. rewrite E in Hpw. destruct Hpw as [Ht Hi].
    split; [now apply StrFacts.truthy_nonempty | exact Hi].
  - intros pw E Hne.
    assert (Hw : wrong_password r payload = true).
    { apply wrong_password_spec. exists pw. rewrite E in Hpw.
      destruct Hpw as [Ht _]. apply StrFacts.truthy_nonempty in Ht. auto. }
    subst res.
    rewrite (join_wrong_password now sid roomId user payload st r Hid Hname
               Hget Hw).
    split; [reflexivity | apply turned_away_clear].
  - intros Hmatch.
    assert (Hw : wrong_password r payload = false).
    { destruct (wrong_password r payload) eqn:E; auto.
      apply wrong_password_spec in E as (pw & E1 & _ & E2).
      destruct Hmatch as [Hn | Hs]; congruence. }
    split.
    + intros t Hat H0 Hlt.
      assert (Hns : not_started now (scheduledAt r) = Some t)
        by (apply not_started_spec; repeat split; auto; lia).
      subst res.
      rewrite (join_not_started now sid roomId user payload st r Hid Hname
                 Hget t Hw Hns).
      split; [reflexivity|]. split; [apply turned_away_clear|].
      intros later Hlater. cbn [fst].
      apply (join_admitted later sid roomId user payload _
               (clearExpiryTimer r) Hid Hname (get_put_room _ _ _)).
      * now rewrite wrong_password_clear.
      * destruct (clearExpiryTimer_fields r) as (_ & _ & -> & _).
        rewrite Hat. unfold not_started.
        destruct (Z.ltb_spec later t); [lia|].
        now rewrite andb_false_r.
    + intros Hns. subst res.
      now apply (join_admitted now sid roomId user payload st r).
Qed.

Lemma password_gate_then_schedule_gate_witness :
  snd (Scenario.ask_r3 500 (lit "xyz") Scenario.st_r3)
  = [socket_emit Scenario.B WrongPassword] /\
  snd (Scenario.ask_r3 500 (lit "abc ") Scenario.st_r3)
  = [socket_emit Scenario.B (MeetingNotStarted 1000)].
Proof.
  unfold Scenario.ask_r3. split.
  - edestruct (password_gate_then_schedule_gate
                 Scenario.st_r3 500 Scenario.B (lit "r3")
                 (Some (lit "bob")) (Scenario.joining (lit "xyz")))
      as (_ & Hwrong & _);
      [exists Scenario.r3; reflexivity | reflexivity | reflexivity |].
    eapply Hwrong; [reflexivity | discriminate].
  - edestruct (password_gate_then_schedule_gate
                 Scenario.st_r3 500 Scenario.B (lit "r3")
                 (Some (lit "bob")) (Scenario.joining (lit "abc ")))
      as (_ & _ & Hsched);
      [exists Scenario.r3; reflexivity | reflexivity | reflexivity |].
    eapply Hsched; [right; reflexivity | reflexivity | lia | lia].
Defined.

(** C10.  A join to an existing room (with a room id and a name that
    pass the validation) resets the expiry timer of the room first:
    whatever the gates decide, the room is registered without a timer
    afterwards.  When the join is turned away, for a wrong password or a
    start still ahead, one signal goes to the requester, the members,
    the pending entries and the telemetry of the room are as before,
    the other rooms and the connections are untouched, and a room that
    was empty is left empty with no timer: none is started in that step. *)
Theorem join_resets_expiry_timer :
  forall st now sid roomId user payload r,
    Str.truthy roomId = true ->
    name_given user = true ->
    JsMap.get roomId (rooms st) = Some r ->
    let res := join_room now sid roomId user payload st in
    (exists r',
       JsMap.get roomId (rooms (fst res)) = Some r' /\
       expiryTimer r' = None) /\
    (wrong_password r payload = true \/
     not_started now (scheduledAt r) <> None ->
     (exists m,
        snd res = [socket_emit sid m] /\
        (m = WrongPassword \/ exists t, m = MeetingNotStarted t)) /\
     turned_away roomId r st (fst res) /\
     (room_empty r = true ->
      exists r',
        JsMap.get roomId (rooms (fst res)) = Some r' /\
        room_empty r' = true /\ expiryTimer r' = None)).
Proof.
  intros st now sid roomId user payload r Hid Hname Hget res.
  split; [now apply (join_timer_cleared now sid roomId user payload st r)|].
  intros Hrej.
  assert (Hres : exists m,
    res = (put_room roomId (clearExpiryTimer r) st, [socket_emit sid m]) /\
    (m = WrongPassword \/ exists t, m = MeetingNotStarted t)).
  { subst res. destruct (wrong_password r payload) eqn:Hw.
    - exists WrongPassword. split; [now apply join_wrong_password | now left].
    - destruct Hrej as [Hrej | Hrej]; [discriminate|].
      destruct (not_started now (scheduledAt r)) as [t|] eqn:Hns;
        [|congruence].
      exists (MeetingNotStarted t).
      split; [now apply join_not_started | right; now exists t]. }
  destruct Hres as (m & -> & Hm). cbn [fst snd].
  pose proof (turned_away_clear roomId st r) as Hta.
  split; [now exists m|]. split; [exact Hta|].
  intros Hempty. destruct Hta as (_ & _ & Hg).
  exists (set_expiryTimer None r). split; [exact Hg|].
  split; [exact Hempty | reflexivity].
Qed.

Lemma join_resets_expiry_timer_witness :
  (exists r,
     JsMap.get (lit "r3") (rooms Scenario.st_r3_empty) = Some r /\
     room_empty r = true /\ expiryTimer r <> None) /\
  (exists r',
     JsMap.get (lit "r3")
       (rooms (fst (Scenario.ask_r3 4000 (lit "xyz") Scenario.st_r3_empty)))
     = Some r' /\
     room_empty r' = true /\ expiryTimer r' = None).
Proof.
  unfold Scenario.ask_r3. split.
  - eexists. repeat split; try reflexivity. discriminate.
  - edestruct (join_resets_expiry_timer
                 Scenario.st_r3_empty 4000 Scenario.B
                 (lit "r3") (Some (lit "bob"))
                 (Scenario.joining (lit "xyz")))
      as (_ & Hrej); [reflexivity | reflexivity | reflexivity |].
    destruct Hrej as (_ & _ & Hempty); [left; reflexivity|].
    apply Hempty. reflexivity.
Defined.

(** ** Host commands of a session that is not the host (C6) *)

Lemma isHost_false sid st :
  (forall roomId r,
     getRoomBySocket sid st = Some (roomId, r) -> creatorId r <> sid) ->
  isHost sid st = false.
Proof.
  intros Hnot. unfold isHost.
  destruct (getRoomBySocket sid st) as [[k r]|] eqn:E; auto.
  apply StrFacts.eqb_neq. now apply (Hnot k r).
Qed.

Lemma isHost_true sid st roomId r :
  getRoomBySocket sid st = Some (roomId, r) ->
  isHost sid st = true -> creatorId r = sid.
Proof.
  unfold isHost. intros ->. apply StrFacts.eqb_eq.
Qed.

(** A host command writes to the room of the issuer only. *)
Lemma privileged_keeps_other_rooms now sid e st roomId r :
  keys_ok st ->
  privileged e = true ->
  JsMap.get roomId (rooms st) = Some r ->
  creatorId r <> sid ->
  JsMap.get roomId (rooms (fst (step (FromSocket now sid e) st))) = Some r.
Proof.
  intros Hok Hpriv Hget Hnot.
  assert (Hother : forall k r0,
            getRoomBySocket sid st = Some (k, r0) ->
            isHost sid st = true -> roomId <> k).
  { intros k r0 Hf Hh ->.
    rewrite (getRoomBySocket_get sid st k r0 Hok Hf) in Hget.
    injection Hget as <-. now apply Hnot, (isHost_true sid st k r0). }
  destruct e; try discriminate Hpriv; unfold step;
    destruct (JsMap.get sid (sockets st)); auto.
  - unfold mute_all. destruct (getRoomBySocket sid st) as [[k r0]|]; auto.
    destruct (negb (Str.truthy k) || negb (isHost sid st)); exact Hget.
  - unfold mute_peer. destruct (getRoomBySocket sid st) as [[k r0]|]; auto.
    destruct (negb (isHost sid st)); exact Hget.
  - unfold kick.
    destruct (getRoomBySocket sid st) as [[k r0]|] eqn:Hf; auto.
    destruct (isHost sid st) eqn:Hh; cbn [negb]; auto.
    specialize (Hother k r0 eq_refl eq_refl). cbv zeta.
    destruct (JsMap.get targetId (sockets (put_room k _ st))) as [peer|];
      [destruct (in_room k peer)|];
      cbn [fst]; rewrite ?rooms_update_socket, get_put_room_other; auto.
  - unfold end_meeting.
    destruct (getRoomBySocket sid st) as [[k r0]|] eqn:Hf; auto.
    destruct (isHost sid st) eqn:Hh; cbn [negb];
      [|now rewrite orb_true_r].
    specialize (Hother k r0 eq_refl eq_refl).
    destruct (Str.truthy k); cbn [negb orb]; auto.
    cbv zeta. cbn [fst rooms set_rooms].
    rewrite JsMapFacts.get_delete_other by exact Hother.
    now rewrite get_put_room_other.
  - unfold spotlight. destruct (getRoomBySocket sid st) as [[k r0]|]; auto.
    destruct (negb (Str.truthy k) || negb (isHost sid st)); exact Hget.
Qed.

(** C6.  A privileged command (mute-all, mute-peer, kick, end-meeting,
    spotlight) of a session that is not the creator of its room, the room
    [getRoomBySocket] resolves for it, or that is a member of no room,
    does nothing: the whole state (registry, members, pending,
    telemetry, timers, connections) is the same and nothing is emitted,
    to the issuer or to anyone.  And whatever rooms the issuer is in, in
    a reachable state a privileged command leaves every room that the
    issuer did not create exactly as it was. *)
Theorem non_host_command_is_noop :
  (forall now sid e st,
     privileged e = true ->
     (forall roomId r,
        getRoomBySocket sid st = Some (roomId, r) -> creatorId r <> sid) ->
     step (FromSocket now sid e) st = (st, [])) /\
  (forall now sid e st roomId r,
     reachable st ->
     privileged e = true ->
     JsMap.get roomId (rooms st) = Some r ->
     creatorId r <> sid ->
     JsMap.get roomId (rooms (fst (step (FromSocket now sid e) st)))
     = Some r).
Proof.
  split.
  - intros now sid e st Hpriv Hnot.
    pose proof (isHost_false sid st Hnot) as Hh.
    destruct e; try discriminate Hpriv; unfold step;
      destruct (JsMap.get sid (sockets st)); auto.
    + unfold mute_all. destruct (getRoomBySocket sid st) as [[k r]|]; auto.
      now rewrite Hh, orb_true_r.
    + unfold mute_peer. destruct (getRoomBySocket sid st) as [[k r]|]; auto.
      now rewrite Hh.
    + unfold kick. destruct (getRoomBySocket sid st) as [[k r]|]; auto.
      now rewrite Hh.
    + unfold end_meeting. destruct (getRoomBySocket sid st) as [[k r]|]; auto.
      now rewrite Hh, orb_true_r.
    + unfold spotlight. destruct (getRoomBySocket sid st) as [[k r]|]; auto.
      now rewrite Hh, orb_true_r.
  - intros now sid e st roomId r Hreach.
    apply privileged_keeps_other_rooms. now apply reachable_keys_ok.
Qed.

Lemma non_host_command_is_noop_witness :
  step (FromSocket 9 Scenario.B (Kick Scenario.H)) Scenario.st_admitted
  = (Scenario.st_admitted, []) /\
  step (FromSocket 9 Scenario.B EndMeeting) Scenario.st_admitted
  = (Scenario.st_admitted, []) /\
  JsMap.get (lit "r1")
    (rooms (fst (step (FromSocket 9 Scenario.B EndMeeting)
                   Scenario.st_admitted)))
  = JsMap.get (lit "r1") (rooms Scenario.st_admitted).
Proof.
  assert (Hnot : forall roomId r,
            getRoomBySocket Scenario.B Scenario.st_admitted
            = Some (roomId, r) -> creatorId r <> Scenario.B).
  { intros roomId r Hr. vm_compute in Hr. inversion Hr. discriminate. }
  split; [|split].
  - apply (proj1 non_host_command_is_noop); auto.
  - apply (proj1 non_host_command_is_noop); auto.
  - erewrite (proj2 non_host_command_is_noop 9 Scenario.B EndMeeting
                Scenario.st_admitted (lit "r1"));
      [reflexivity | exists Scenario.admitted; reflexivity | reflexivity
      | reflexivity | discriminate].
Defined.

(** ** The relay (C7) *)

Lemma subscribers_spec ch st c :
  In c (subscribers ch st) <->
  exists s, In (c, s) (sockets st) /\ subscribed ch s = true.
Proof.
  unfold subscribers. rewrite in_map_iff. split.
  - intros ([c' s] & <- & Hin). apply filter_In in Hin as [Hin Hs].
    exists s. auto.
  - intros (s & Hin & Hs). exists (c, s). split; auto.
    apply filter_In. auto.
Qed.

Lemma subscribers_none ch st :
  (forall c s, In (c, s) (sockets st) -> subscribed ch s = false) ->
  subscribers ch st = [].
Proof.
  intros Hno. destruct (subscribers ch st) as [|c l] eqn:E; auto.
  assert (Hin : In c (subscribers ch st)) by (rewrite E; now left).
  apply subscribers_spec in Hin as (s & Hin & Hs).
  rewrite (Hno c s Hin) in Hs. discriminate.
Qed.

Lemma subscribers_only ch st x :
  (forall c s, In (c, s) (sockets st) -> subscribed ch s = true -> c = x) ->
  Forall (eq x) (subscribers ch st).
Proof.
  intros Honly. apply Forall_forall. intros c Hin.
  apply subscribers_spec in Hin as (s & Hin & Hs).
  symmetry. eauto.
Qed.

(** What the relay does.  A negotiation message (offer, answer,
    ice-candidate) with target [targetId] is emitted once, as the sender's
    id and the payload unmodified, to the channel named [targetId]: it
    reaches exactly the live connections subscribed to that channel, the
    state is unchanged and nothing else is emitted.  So it is dropped
    when no live connection is subscribed to the channel, it reaches the
    target when the target is live and subscribed to its own id, and it
    reaches nobody else when nobody else has joined a room of that name. *)
Lemma relay_reaches_the_target_channel :
  forall now sid e st sock targetId m,
    JsMap.get sid (sockets st) = Some sock ->
    relay_of sid e = Some (targetId, m) ->
    step (FromSocket now sid e) st =
      (st, [ {| rcpt := subscribers targetId st; what := m |} ]) /\
    (forall c,
       In c (subscribers targetId st) <->
       exists s, In (c, s) (sockets st) /\ subscribed targetId s = true) /\
    ((forall c s, In (c, s) (sockets st) -> subscribed targetId s = false) ->
     subscribers targetId st = []) /\
    (forall s,
       JsMap.get targetId (sockets st) = Some s ->
       subscribed targetId s = true ->
       In targetId (subscribers targetId st)) /\
    ((forall c s,
        In (c, s) (sockets st) -> subscribed targetId s = true ->
        c = targetId) ->
     Forall (eq targetId) (subscribers targetId st)).
Proof.
  intros now sid e st sock targetId m Hs Hrel.
  split; [|split; [|split; [|split]]].
  - destruct e; try discriminate Hrel; injection Hrel as <- <-;
      unfold step; rewrite Hs; reflexivity.
  - intros c. apply subscribers_spec.
  - apply subscribers_none.
  - intros s Hg Hsub. apply subscribers_spec. exists s.
    split; [now apply JsMapFacts.get_In | exact Hsub].
  - apply subscribers_only.
Qed.

Example relay_to_a_peer :
  step (FromSocket 9 Scenario.A (SendOffer Scenario.B (lit "sdp")))
    Scenario.st_r4 =
  (Scenario.st_r4,
   [ {| rcpt := subscribers Scenario.B Scenario.st_r4;
        what := Offer Scenario.A (lit "sdp") |} ]) /\
  In Scenario.B (subscribers Scenario.B Scenario.st_r4) /\
  Forall (eq Scenario.B) (subscribers Scenario.B Scenario.st_r4).
Proof.
  edestruct (relay_reaches_the_target_channel 9 Scenario.A
               (SendOffer Scenario.B (lit "sdp")) Scenario.st_r4)
    as (Hstep & _ & _ & Hin & Honly); [reflexivity | reflexivity |].
  split; [exact Hstep|]. split.
  - eapply Hin; reflexivity.
  - apply Honly. intros c s Hc Hsub. vm_compute in Hc.
    destruct Hc as [Hc | [Hc | []]]; inversion Hc; subst; auto.
    vm_compute in Hsub. discriminate.
Qed.

(** C7. The claim: a relayed message whose target is no live connection
    is dropped, and no event is delivered to anyone.
    The relay addresses the target with [io.to(targetId)], that is as a
    channel, and the ids of the rooms are channels too.  [A] and [B] are
    in the room ["r4"]; no live connection has the id ["r4"], and an ICE
    candidate that [A] sends to the target ["r4"] is delivered to both
    of them. *)
Theorem relay_to_room_id_is_delivered :
  JsMap.get (lit "r4") (sockets Scenario.st_r4) = None /\
  step (FromSocket 9 Scenario.A (SendIceCandidate (lit "r4") (lit "c")))
    Scenario.st_r4 =
  (Scenario.st_r4,
   [ {| rcpt := [Scenario.A; Scenario.B];
        what := IceCandidate Scenario.A (lit "c") |} ]).
Proof. split; reflexivity. Qed.

(** ** Sampling of the telemetry history (C8) *)

Lemma intel_metrics_samples now sid d st roomId r :
  getRoomBySocket sid st = Some (roomId, r) ->
  Str.truthy roomId = true ->
  exists r',
    JsMap.get roomId (rooms (fst (intel_metrics now sid d st))) = Some r' /\
    creatorId r' = creatorId r /\ members r' = members r /\
    intel r' =
      JsMap.set sid
        (intel_sample now (snapshot_of d)
           (match JsMap.get sid (intel r) with
            | Some e => e
            | None => fresh_intel
            end)) (intel r) /\
    snd (intel_metrics now sid d st) =
      if Str.truthy (creatorId r)
      then [ {| rcpt := subscribers (creatorId r) st;
                what := IntelDashboard (dashboard r') |} ]
      else [].
Proof.
  intros Hroom Hid. unfold intel_metrics. rewrite Hroom, Hid. cbn [negb].
  cbv zeta.
  match goal with
  | |- context [put_room roomId ?r' st] => exists r'
  end.
  cbn [creatorId set_intel].
  split; [|split; [|split; [|split]]].
  2-4: reflexivity.
  - destruct (Str.truthy (creatorId r)); cbn [negb fst]; apply get_put_room.
  - destruct (Str.truthy (creatorId r)); reflexivity.
Qed.

(** C8.  A snapshot received from a member overwrites the current value
    of its telemetry record, which is updated by [intel_sample], where
    the seconds and their difference are binary64 as in the program.
    After any sequence of receptions on a record: the current value is
    the last one received; when the readings of the clock are time
    values, the readings at which a snapshot was appended are 1000 ms
    apart or more (the first one 1000 ms or more from 0, the sample
    time of a fresh record); the history has 86,400 entries at most,
    and it is the last 86,400 of the appended snapshots, in order: the
    oldest are the ones dropped.  And in every state the server can
    reach, every telemetry record of every room has 86,400 history
    entries at most. *)
Theorem telemetry_history_sampled_and_capped :
  (forall now sid d st roomId r,
     getRoomBySocket sid st = Some (roomId, r) ->
     Str.truthy roomId = true ->
     exists r' e',
       JsMap.get roomId (rooms (fst (intel_metrics now sid d st))) = Some r' /\
       JsMap.get sid (intel r') = Some e' /\
       e' = intel_sample now (snapshot_of d)
              (match JsMap.get sid (intel r) with
               | Some e => e
               | None => fresh_intel
               end) /\
       latest_emotion_data e' = snapshot_of d) /\
  (forall snapshots,
     let e := receive_all snapshots fresh_intel in
     let log := appended snapshots fresh_intel in
     (forall earlier now d,
        snapshots = earlier ++ [(now, d)] -> latest_emotion_data e = d) /\
     (Forall (fun s => time_value (fst s)) snapshots ->
      spaced 0 (List.map fst log)) /\
     Z.of_nat (List.length (emotion_history e)) <= 86400 /\
     Z.of_nat cap = 86400 /\
     emotion_history e = keep_last cap (List.map snd log)) /\
  (forall st roomId r sid e,
     reachable st ->
     JsMap.get roomId (rooms st) = Some r ->
     JsMap.get sid (intel r) = Some e ->
     Z.of_nat (List.length (emotion_history e)) <= 86400).
Proof.
  split; [|split].
  3: { intros st roomId r sid e Hreach Hr He.
       pose proof (state_ok_get st roomId r (reachable_ok st Hreach) Hr)
         as Hok.
       pose proof (intel_ok_get sid e _ (room_ok_intel roomId r Hok) He).
       pose proof cap_Z. lia. }
  - intros now sid d st roomId r Hroom Hid.
    destruct (intel_metrics_samples now sid d st roomId r Hroom Hid)
      as (r' & Hg & _ & _ & Hi & _).
    exists r'. eexists. split; [exact Hg|]. split; [|split].
    + rewrite Hi. apply JsMapFacts.get_set_same.
    + reflexivity.
    + unfold intel_sample. destruct (sample_due _ _); reflexivity.
  - intros snapshots e log.
    assert (H0 : (List.length (emotion_history fresh_intel) <= cap)%nat)
      by (simpl; lia).
    split; [|split; [|split; [|split]]].
    + intros earlier now d ->. subst e.
      clear. generalize fresh_intel.
      induction earlier as [|[n' d'] rest IH]; intros e0; simpl.
      * unfold intel_sample. destruct (sample_due now e0); reflexivity.
      * apply IH.
    + intros Hall.
      apply (appended_spaced snapshots fresh_intel 0);
        [vm_compute; discriminate | vm_compute; discriminate | exact Hall].
    + pose proof (receive_all_length snapshots fresh_intel H0) as Hl.
      pose proof cap_Z. subst e. lia.
    + exact cap_Z.
    + subst e log. now rewrite receive_all_history.
Qed.

Lemma telemetry_history_sampled_and_capped_witness :
  (exists r' e',
     JsMap.get (lit "r")
       (rooms (fst (intel_metrics 5000 Scenario.H (Some [lit "calm"])
                      (Scenario.after (Scenario.alone 30))))) = Some r' /\
     JsMap.get Scenario.H (intel r') = Some e' /\
     latest_emotion_data e' = [lit "calm"] /\
     emotion_history e' = [[lit "calm"]]) /\
  latest_emotion_data
    (receive_all [(1002, [lit "a"]); (2002, [lit "b"]); (2003, [lit "c"])]
       fresh_intel) = [lit "c"] /\
  List.map fst
    (appended [(1002, [lit "a"]); (2002, [lit "b"]); (2003, [lit "c"])]
       fresh_intel) = [1002; 2003] /\
  spaced 0
    (List.map fst
       (appended [(1002, [lit "a"]); (2002, [lit "b"]); (2003, [lit "c"])]
          fresh_intel)) /\
  Z.of_nat (List.length (emotion_history
                           {| latest_emotion_data := [lit "calm"];
                              emotion_history := [[lit "calm"]];
                              last_history_sample_time := seconds 5000 |}))
  <= 86400.
Proof.
  split; [|split; [|split; [|split]]].
  5: { eapply (proj2 (proj2 telemetry_history_sampled_and_capped)
                 Scenario.st_sampled (lit "r"));
         [exists Scenario.sampled; reflexivity | reflexivity |].
       instantiate (1 := Scenario.H). reflexivity. }
  - edestruct (proj1 telemetry_history_sampled_and_capped 5000 Scenario.H
                 (Some [lit "calm"]) (Scenario.after (Scenario.alone 30)))
      as (r' & e' & Hg & He & Hs & Hl); [reflexivity | reflexivity |].
    exists r', e'. split; [exact Hg|]. split; [exact He|].
    split; [exact Hl|]. rewrite Hs. reflexivity.
  - apply (proj1 (proj1 (proj2 telemetry_history_sampled_and_capped)
                    [(1002, [lit "a"]); (2002, [lit "b"]); (2003, [lit "c"])])
             [(1002, [lit "a"]); (2002, [lit "b"])] 2003 [lit "c"]).
    reflexivity.
  - reflexivity.
  - apply (proj1 (proj2 (proj1 (proj2 telemetry_history_sampled_and_capped)
                           [(1002, [lit "a"]); (2002, [lit "b"]);
                            (2003, [lit "c"])]))).
    repeat constructor; unfold TIME_MAX; cbn; lia.
Defined.

(** A second to the millisecond.  The seconds of the readings 1002 and
    2002 are the binary64 nearest to 1.002 and to 2.002, and their
    difference is below 1: a snapshot received 1000 ms after the last
    sample is not appended; it is at 1001 ms. *)
Example second_to_the_millisecond :
  sample_due 2002 (intel_sample 1002 [lit "a"] fresh_intel) = false /\
  sample_due 2003 (intel_sample 1002 [lit "a"] fresh_intel) = true /\
  emotion_history
    (receive_all [(1002, [lit "a"]); (2002, [lit "b"])] fresh_intel)
  = [[lit "a"]].
Proof. repeat split; vm_compute; reflexivity. Qed.

(** ** Who receives the dashboard (C9) *)

Ltac emitted_cases H :=
  cbv zeta in H;
  repeat match type of H with
         | In _ (snd (if ?b then _ else _)) => destruct b
         | In _ (snd (match ?x with _ => _ end)) => destruct x
         | In _ (snd (_, _)) => cbn [snd] in H
         | In _ (_ ++ _) => apply in_app_or in H; destruct H as [H | H]
         | In _ (if ?b then _ else _) => destruct b
         | In _ (_ :: _) => destruct H as [H | H]
         | In _ [] => destruct H
         end.

Ltac not_dashboard H Hw :=
  emitted_cases H; try (subst; cbn in Hw; discriminate Hw).

Lemma dashboard_only_from_intel_metrics i st em rows :
  In em (snd (step i st)) ->
  what em = IntelDashboard rows ->
  exists roomId r,
    In (roomId, r) (rooms st) /\ rcpt em = subscribers (creatorId r) st.
Proof.
  intros Hin Hw. destruct i as [now sid e | now roomId].
  - unfold step in Hin. destruct e.
    1: solve [not_dashboard Hin Hw].
    all: destruct (JsMap.get sid (sockets st)) as [sock|] eqn:Hs;
      [|destruct Hin].
    1: unfold join_room in Hin; solve [not_dashboard Hin Hw].
    1: unfold admit_peer in Hin; solve [not_dashboard Hin Hw].
    1: unfold reject in Hin; solve [not_dashboard Hin Hw].
    1: unfold offer in Hin; solve [not_dashboard Hin Hw].
    1: unfold answer in Hin; solve [not_dashboard Hin Hw].
    1: unfold ice_candidate in Hin; solve [not_dashboard Hin Hw].
    1: unfold chat_message in Hin; solve [not_dashboard Hin Hw].
    1: unfold mute_all in Hin; solve [not_dashboard Hin Hw].
    1: unfold mute_peer in Hin; solve [not_dashboard Hin Hw].
    1: unfold kick in Hin; solve [not_dashboard Hin Hw].
    1: unfold end_meeting in Hin; solve [not_dashboard Hin Hw].
    1: unfold raise_hand in Hin; solve [not_dashboard Hin Hw].
    1: unfold reaction in Hin; solve [not_dashboard Hin Hw].
    1: unfold spotlight in Hin; solve [not_dashboard Hin Hw].
    2: unfold disconnect in Hin; solve [not_dashboard Hin Hw].
    destruct (getRoomBySocket sid st) as [[roomId r]|] eqn:Hroom;
      [|unfold intel_metrics in Hin; rewrite Hroom in Hin; destruct Hin].
    destruct (Str.truthy roomId) eqn:Hid;
      [|unfold intel_metrics in Hin; rewrite Hroom, Hid in Hin;
        destruct Hin].
    destruct (intel_metrics_samples now sid emotion_data st roomId r Hroom Hid)
      as (r' & _ & _ & _ & _ & Hout).
    rewrite Hout in Hin. exists roomId, r.
    split; [apply (getRoomBySocket_registered sid st roomId r Hroom)|].
    destruct (Str.truthy (creatorId r)); [|destruct Hin].
    destruct Hin as [<- | []]. reflexivity.
  - unfold step, timer_fires in Hin. not_dashboard Hin Hw.
Qed.

(** Who the dashboard goes to.  After a telemetry snapshot of a member
    of a room whose creator id is set, one dashboard is emitted, with
    one row per entry of the room's telemetry (the id, the member's name
    or else the first eight code units of the id, the current value, the
    history), to the channel named by the creator's session id.  No
    handler emits a dashboard otherwise, so a dashboard only ever reaches
    connections subscribed to the channel of a creator: the creator's
    connection, and any connection that has joined a room whose id is
    the creator's session id; when there is no such room, the creator
    alone. *)
Lemma dashboard_goes_to_the_creator_channel :
  (forall now sid d st roomId r,
     getRoomBySocket sid st = Some (roomId, r) ->
     Str.truthy roomId = true ->
     Str.truthy (creatorId r) = true ->
     exists r',
       JsMap.get roomId (rooms (fst (intel_metrics now sid d st))) = Some r' /\
       snd (intel_metrics now sid d st) =
         [ {| rcpt := subscribers (creatorId r) st;
              what := IntelDashboard (dashboard r') |} ] /\
       (forall row,
          In row (dashboard r') <->
          exists id e,
            In (id, e) (intel r') /\
            row = {| participant_id := id;
                     name := display_name r id;
                     current := latest_emotion_data e;
                     history := emotion_history e |})) /\
  (forall i st em rows,
     In em (snd (step i st)) ->
     what em = IntelDashboard rows ->
     exists roomId r,
       In (roomId, r) (rooms st) /\
       rcpt em = subscribers (creatorId r) st /\
       (forall c,
          In c (rcpt em) <->
          exists s, In (c, s) (sockets st) /\
                    subscribed (creatorId r) s = true) /\
       ((forall c s,
           In (c, s) (sockets st) -> subscribed (creatorId r) s = true ->
           c = creatorId r) ->
        Forall (eq (creatorId r)) (rcpt em))).
Proof.
  split.
  - intros now sid d st roomId r Hroom Hid Hc.
    destruct (intel_metrics_samples now sid d st roomId r Hroom Hid)
      as (r' & Hg & _ & Hm & _ & Hout).
    exists r'. split; [exact Hg|]. split; [now rewrite Hout, Hc|].
    intros row. unfold dashboard, display_name. rewrite in_map_iff, Hm.
    split.
    + intros ([id e] & <- & Hin). exists id, e. auto.
    + intros (id & e & Hin & ->). exists (id, e). auto.
  - intros i st em rows Hin Hw.
    destruct (dashboard_only_from_intel_metrics i st em rows Hin Hw)
      as (roomId & r & Hr & Hrc).
    exists roomId, r. split; [exact Hr|]. split; [exact Hrc|].
    rewrite Hrc. split; [intros c; apply subscribers_spec|].
    apply subscribers_only.
Qed.

Example dashboard_to_the_creator :
  (exists r',
     snd (intel_metrics 5000 Scenario.B (Some [lit "calm"]) Scenario.st_r4) =
       [ {| rcpt := [Scenario.A]; what := IntelDashboard (dashboard r') |} ] /\
     List.map name (dashboard r') = [lit "ann"; lit "bob"]) /\
  (exists roomId r,
     In (roomId, r) (rooms Scenario.st_r4) /\
     [Scenario.A] = subscribers (creatorId r) Scenario.st_r4).
Proof.
  split.
  - edestruct (proj1 dashboard_goes_to_the_creator_channel 5000 Scenario.B
                 (Some [lit "calm"]) Scenario.st_r4)
      as (r' & Hg & Hout & _); [reflexivity | reflexivity | reflexivity |].
    exists r'. split; [exact Hout|].
    vm_compute in Hg. injection Hg as <-. reflexivity.
  - edestruct (proj2 dashboard_goes_to_the_creator_channel
                 (FromSocket 5000 Scenario.B (IntelMetrics (Some [lit "calm"])))
                 Scenario.st_r4)
      as (roomId & r & Hr & Hrc & _);
      [left; reflexivity | reflexivity |].
    exists roomId, r. split; [exact Hr | exact Hrc].
Qed.

(** C9. The claim: the dashboard is delivered to the creator's
    connection only, and a session that is not the creator never gets
    the telemetry of another participant.
    The dashboard is emitted with [io.to(creatorId)], that is to a
    channel, and the ids of the rooms are channels too.  [H] is the
    creator of the room ["r"] and [X] a participant of it; [X] has also
    created a room whose id is the session id of [H], and is thereby
    subscribed to the channel of that name.  The dashboard, with the
    telemetry of [H], is delivered to [X] as well. *)
Theorem dashboard_reaches_squatter :
  (exists r,
     JsMap.get (lit "r") (rooms Scenario.st_squatter) = Some r /\
     creatorId r = Scenario.H /\
     JsMap.has Scenario.X (members r) = true) /\
  snd (step (FromSocket 5000 Scenario.H (IntelMetrics (Some [lit "calm"])))
         Scenario.st_squatter)
  = [ {| rcpt := [Scenario.H; Scenario.X];
         what := IntelDashboard
                   [ {| participant_id := Scenario.H;
                        name := lit "host";
                        current := [lit "calm"];
                        history := [[lit "calm"]] |};
                     {| participant_id := Scenario.X;
                        name := lit "eve";
                        current := [];
                        history := [] |} ] |} ].
Proof.
  split; [eexists; repeat split; reflexivity | reflexivity].
Qed.

(** * Further properties of the server *)

(** ** More facts about maps *)

Module JsMapMore.

Section Facts.
Context {V : Type}.
Implicit Types (m : JsMap.t V) (k x : str) (v : V).

Lemma get_delete k x m :
  JsMap.get k (JsMap.delete x m) =
  if Str.eqb k x then None else JsMap.get k m.
Proof.
  induction m as [|[k0 v0] r IH]; simpl.
  - now destruct (Str.eqb k x).
  - destruct (Str.eqb x k0) eqn:E; simpl.
    + apply StrFacts.eqb_eq in E; subst k0. rewrite IH.
      now destruct (Str.eqb k x).
    + destruct (Str.eqb k k0) eqn:E1; [|exact IH].
      apply StrFacts.eqb_eq in E1; subst k0.
      destruct (Str.eqb k x) eqn:E2; auto.
      apply StrFacts.eqb_eq in E2; subst x.
      now rewrite StrFacts.eqb_refl in E.
Qed.

Lemma has_delete k x m :
  JsMap.has k (JsMap.delete x m) = negb (Str.eqb k x) && JsMap.has k m.
Proof.
  unfold JsMap.has. rewrite get_delete. now destruct (Str.eqb k x).
Qed.

Lemma get_set k x v m :
  JsMap.get k (JsMap.set x v m) =
  if Str.eqb k x then Some v else JsMap.get k m.
Proof.
  destruct (Str.eqb k x) eqn:E.
  - apply StrFacts.eqb_eq in E; subst. apply JsMapFacts.get_set_same.
  - apply StrFacts.eqb_neq in E. now apply JsMapFacts.get_set_other.
Qed.

Lemma has_set k x v m :
  JsMap.has k (JsMap.set x v m) = Str.eqb k x || JsMap.has k m.
Proof.
  unfold JsMap.has. rewrite get_set. now destruct (Str.eqb k x).
Qed.

Lemma has_nil m k : JsMap.has k m = true -> m <> [].
Proof. intros H ->. discriminate. Qed.

(** A key that is new goes last. *)
Lemma set_new k v m :
  JsMap.has k m = false -> JsMap.set k v m = m ++ [(k, v)].
Proof.
  unfold JsMap.has. induction m as [|[k0 v0] r IH]; simpl; auto.
  destruct (Str.eqb k k0); [discriminate|]. intros H. now rewrite IH.
Qed.

(** A key that is there keeps its place. *)
Lemma keys_set_old k v m :
  JsMap.has k m = true -> JsMap.keys (JsMap.set k v m) = JsMap.keys m.
Proof.
  unfold JsMap.has. induction m as [|[k0 v0] r IH]; simpl; [discriminate|].
  destruct (Str.eqb k k0); simpl; auto. intros H.
  f_equal. now apply IH.
Qed.

Lemma delete_only k m : only_key k m -> JsMap.delete k m = [].
Proof.
  induction 1 as [|[k0 v0] r Hk Hr IH]; simpl; auto.
  simpl in Hk; subst k0. now rewrite StrFacts.eqb_refl.
Qed.

Lemma size_zero m : (JsMap.size m =? 0)%nat = true -> m = [].
Proof. destruct m; simpl; [reflexivity | discriminate]. Qed.

Lemma Forall_set_key (P : str * V -> Prop) k v m :
  P (k, v) -> Forall P m -> Forall P (JsMap.set k v m).
Proof.
  intros Hv. induction 1 as [|[k' v'] r Hx Hr IH]; simpl.
  - constructor; auto.
  - destruct (Str.eqb k k') eqn:E; constructor; auto.
    apply StrFacts.eqb_eq in E; subst; exact Hv.
Qed.

Lemma Forall_get (P : str * V -> Prop) k v m :
  Forall P m -> JsMap.get k m = Some v -> P (k, v).
Proof.
  intros Hall Hg. apply JsMapFacts.get_In in Hg.
  exact (proj1 (Forall_forall _ _) Hall _ Hg).
Qed.

End Facts.

End JsMapMore.

(** ** The name the join handler stores *)

Lemma firstn_clean n s : Str.clean s -> Str.clean (firstn n s).
Proof. destruct n, s; simpl; auto. Qed.

Lemma stored_name_ok user :
  name_given user = true -> name_ok (stored_name user).
Proof.
  unfold name_given, stored_name, Str.slice0, or_empty.
  destruct user as [u|]; [|discriminate]. intros Ht.
  split; [|split].
  - destruct (Str.trim u); [discriminate | simpl; discriminate].
  - rewrite length_firstn. lia.
  - apply firstn_clean, StrFacts.trim_clean.
Qed.

Lemma names_ok_set k n m :
  name_ok n -> names_ok m -> names_ok (JsMap.set k {| userName := n |} m).
Proof. intros Hn. apply JsMapFacts.Forall_set. intros k'. exact Hn. Qed.

Lemma names_ok_delete k m : names_ok m -> names_ok (JsMap.delete k m).
Proof. apply JsMapFacts.Forall_delete. Qed.

(** ** What the handlers keep of every room *)

Lemma rooms_inv_put st k r :
  Forall room_inv (rooms st) -> room_inv (k, r) ->
  Forall room_inv (rooms (put_room k r st)).
Proof. intros Hall Hr. now apply JsMapMore.Forall_set_key. Qed.

Lemma rooms_inv_find st sid k r :
  Forall room_inv (rooms st) ->
  getRoomBySocket sid st = Some (k, r) ->
  room_inv (k, r) /\ JsMap.has sid (members r) = true.
Proof.
  intros Hall Hf. apply getRoomBySocket_registered in Hf as [Hin Hm].
  split; [exact (proj1 (Forall_forall _ _) Hall _ Hin) | exact Hm].
Qed.

Lemma sockets_ok_update sid f st :
  sockets_ok st -> sockets_ok (update_socket sid f st).
Proof.
  intros Hok. unfold update_socket.
  destruct (JsMap.get sid (sockets st)) as [s|] eqn:E; [|exact Hok].
  apply JsMapMore.Forall_set_key; [|exact Hok].
  exact (JsMapMore.Forall_get _ sid s _ Hok E).
Qed.

Lemma timer_ok_none k r : expiryTimer r = None -> timer_ok k r.
Proof. intros E t Ht. congruence. Qed.

(** A room that has a member has no timer. *)
Lemma member_no_timer k r sid :
  timer_ok k r -> JsMap.has sid (members r) = true -> expiryTimer r = None.
Proof.
  intros Ht Hm. destruct (expiryTimer r) as [t|] eqn:E; auto.
  destruct (Ht t E) as (_ & Hnil & _).
  rewrite Hnil in Hm. discriminate.
Qed.

Ltac fields :=
  cbn [fst snd creatorId password scheduledAt expiryMinutes waitingRoom
       members pending expiryTimer intel
       set_members set_pending set_intel set_expiryTimer] in *.

Ltac inv_split :=
  refine (conj _ (conj _ (conj _ (conj _ (conj _ _)))));
  unfold telemetry_covers, pending_ok; fields.

Lemma room_inv_clear k r : room_inv (k, r) -> room_inv (k, clearExpiryTimer r).
Proof.
  intros (Hm & Hp & Ht & Hc & Hq & Hcr). rewrite clearExpiryTimer_eq.
  inv_split; auto. now apply timer_ok_none.
Qed.

Lemma eqb_swap a b : Str.eqb a b = Str.eqb b a.
Proof.
  destruct (Str.eqb b a) eqn:E.
  - apply StrFacts.eqb_eq in E; subst; apply StrFacts.eqb_refl.
  - apply StrFacts.eqb_neq in E; apply StrFacts.eqb_neq; congruence.
Qed.

Lemma join_room_inv now sid roomId user payload st sock :
  JsMap.get sid (sockets st) = Some sock ->
  state_inv st ->
  state_inv (fst (join_room now sid roomId user payload st)).
Proof.
  intros Hs [Hrooms Hsock].
  assert (Hsid : Str.truthy sid = true)
    by exact (JsMapMore.Forall_get _ sid sock _ Hsock Hs).
  unfold join_room.
  destruct (negb (Str.truthy roomId) || negb (name_given user)) eqn:Hv;
    [split; assumption|].
  apply orb_false_elim in Hv as [_ Hname]. apply negb_false_iff in Hname.
  pose proof (stored_name_ok user Hname) as Hn.
  unfold stored_name, or_empty in Hn. cbv zeta.
  destruct (JsMap.get roomId (rooms st)) as [r|] eqn:Hget.
  - pose proof (room_inv_clear roomId r
                  (JsMapMore.Forall_get _ roomId r _ Hrooms Hget)) as Hb.
    assert (Hnone : expiryTimer (clearExpiryTimer r) = None)
      by apply clearExpiryTimer_fields.
    revert Hb Hnone. generalize (clearExpiryTimer r). intros rb Hb Hnone.
    assert (H1 : Forall room_inv (rooms (put_room roomId rb st)))
      by now apply rooms_inv_put.
    destruct (wrong_password rb payload); [split; assumption|].
    destruct (not_started now (scheduledAt rb)); [split; assumption|].
    destruct Hb as (Hm & Hp & Ht & Hc & [Hq1 Hq2] & Hcr). fields.
    destruct (waitingRoom rb && negb (Str.eqb sid (creatorId rb))) eqn:Hw;
      cbn [fst]; split; try (apply sockets_ok_update; exact Hsock);
      rewrite rooms_update_socket; apply rooms_inv_put; auto.
    + apply andb_prop in Hw as [Hw1 Hw2]. apply negb_true_iff in Hw2.
      inv_split; auto.
      * now apply names_ok_set.
      * now apply timer_ok_none.
      * split; [congruence|].
        now rewrite JsMapMore.has_set, eqb_swap, Hw2.
    + inv_split; auto.
      * now apply names_ok_set.
      * now apply timer_ok_none.
      * intros k. rewrite !JsMapMore.has_set.
        destruct (Str.eqb k sid); simpl; auto.
  - destruct (isCreator payload); [|split; assumption].
    destruct (roomOptions payload) as [opts|]; [|split; assumption].
    destruct (not_started now (o_scheduledAt opts)); [split; assumption|].
    cbn [fst]. split; [|apply sockets_ok_update; exact Hsock].
    rewrite rooms_update_socket. apply rooms_inv_put; auto.
    inv_split; auto.
    + constructor; [exact Hn | constructor].
    + constructor.
    + now apply timer_ok_none.
    + intros k. unfold JsMap.has. simpl. now destruct (Str.eqb k sid).
Qed.

Lemma admit_inv sid peerId st :
  state_inv st -> state_inv (fst (admit_peer sid peerId st)).
Proof.
  intros [Hrooms Hsock]. unfold admit_peer.
  destruct (getRoomBySocket sid st) as [[k r]|] eqn:Hf; [|split; assumption].
  destruct (rooms_inv_find st sid k r Hrooms Hf)
    as [(Hm & Hp & Ht & Hc & [Hq1 Hq2] & Hcr) Hmem]. fields.
  destruct (negb (Str.eqb (creatorId r) sid)); [split; assumption|].
  destruct (JsMap.get peerId (pending r)) as [data|] eqn:Hd;
    [|split; assumption].
  cbv zeta.
  assert (Hr : room_inv
    (k, set_intel
          (JsMap.set peerId fresh_intel
             (intel
                (set_members
                   (JsMap.set peerId data
                      (members
                         (set_pending (JsMap.delete peerId (pending r)) r)))
                   (set_pending (JsMap.delete peerId (pending r)) r))))
          (set_members
             (JsMap.set peerId data
                (members (set_pending (JsMap.delete peerId (pending r)) r)))
             (set_pending (JsMap.delete peerId (pending r)) r)))).
  { inv_split; auto.
    - apply JsMapFacts.Forall_set; [|exact Hm]. intros k'.
      exact (JsMapMore.Forall_get _ peerId data _ Hp Hd).
    - now apply names_ok_delete.
    - apply timer_ok_none. fields.
      exact (member_no_timer k r sid Ht Hmem).
    - intros x. rewrite !JsMapMore.has_set.
      destruct (Str.eqb x peerId); simpl; auto.
    - split.
      + intros Hw. now rewrite (Hq1 Hw).
      + now rewrite JsMapMore.has_delete, Hq2, andb_false_r. }
  destruct (JsMap.get peerId (sockets (put_room k _ st))); cbn [fst]; split;
    try (apply sockets_ok_update; exact Hsock); try exact Hsock;
    rewrite ?rooms_update_socket; now apply rooms_inv_put.
Qed.

Lemma reject_inv sid peerId st :
  state_inv st -> state_inv (fst (reject sid peerId st)).
Proof.
  intros [Hrooms Hsock]. unfold reject.
  destruct (getRoomBySocket sid st) as [[k r]|] eqn:Hf; [|split; assumption].
  destruct (rooms_inv_find st sid k r Hrooms Hf)
    as [(Hm & Hp & Ht & Hc & [Hq1 Hq2] & Hcr) Hmem]. fields.
  destruct (negb (Str.eqb (creatorId r) sid)); [split; assumption|].
  cbv zeta. cbn [fst]. split; [|exact Hsock].
  apply rooms_inv_put; auto. inv_split; auto.
  - now apply names_ok_delete.
  - apply timer_ok_none. fields.
    exact (member_no_timer k r sid Ht Hmem).
  - split.
    + intros Hw. now rewrite (Hq1 Hw).
    + now rewrite JsMapMore.has_delete, Hq2, andb_false_r.
Qed.

Lemma kick_inv sid targetId st :
  state_inv st -> state_inv (fst (kick sid targetId st)).
Proof.
  intros [Hrooms Hsock]. unfold kick.
  destruct (getRoomBySocket sid st) as [[k r]|] eqn:Hf; [|split; assumption].
  destruct (rooms_inv_find st sid k r Hrooms Hf)
    as [(Hm & Hp & Ht & Hc & [Hq1 Hq2] & Hcr) Hmem]. fields.
  destruct (negb (isHost sid st)); [split; assumption|].
  cbv zeta.
  assert (Hr : room_inv
    (k, set_pending
          (JsMap.delete targetId
             (pending (set_members (JsMap.delete targetId (members r)) r)))
          (set_members (JsMap.delete targetId (members r)) r))).
  { inv_split; auto.
    - now apply names_ok_delete.
    - now apply names_ok_delete.
    - apply timer_ok_none. fields.
      exact (member_no_timer k r sid Ht Hmem).
    - intros x. rewrite JsMapMore.has_delete.
      intros Hx. apply andb_prop in Hx as [_ Hx]. auto.
    - split.
      + intros Hw. now rewrite (Hq1 Hw).
      + now rewrite JsMapMore.has_delete, Hq2, andb_false_r. }
  destruct (JsMap.get targetId (sockets (put_room k _ st))) as [peer|];
    [destruct (in_room k peer)|];
    cbn [fst]; split;
    try (apply sockets_ok_update; exact Hsock); try exact Hsock;
    rewrite ?rooms_update_socket; now apply rooms_inv_put.
Qed.

Lemma end_meeting_inv sid st :
  state_inv st -> state_inv (fst (end_meeting sid st)).
Proof.
  intros [Hrooms Hsock]. unfold end_meeting.
  destruct (getRoomBySocket sid st) as [[k r]|] eqn:Hf; [|split; assumption].
  destruct (rooms_inv_find st sid k r Hrooms Hf) as [Hr _].
  destruct (negb (Str.truthy k) || negb (isHost sid st)); [split; assumption|].
  cbv zeta. cbn [fst]. split; [|exact Hsock].
  cbn [rooms set_rooms]. apply JsMapFacts.Forall_delete.
  apply rooms_inv_put; auto. now apply room_inv_clear.
Qed.

Lemma intel_metrics_inv now sid d st :
  state_inv st -> state_inv (fst (intel_metrics now sid d st)).
Proof.
  intros [Hrooms Hsock]. unfold intel_metrics.
  destruct (getRoomBySocket sid st) as [[k r]|] eqn:Hf; [|split; assumption].
  destruct (rooms_inv_find st sid k r Hrooms Hf)
    as [(Hm & Hp & Ht & Hc & Hq & Hcr) Hmem]. fields.
  destruct (negb (Str.truthy k)); [split; assumption|].
  cbv zeta. cbn [creatorId set_intel].
  assert (Hr : forall e,
            room_inv (k, set_intel (JsMap.set sid e (intel r)) r)).
  { intros e. inv_split; auto.
    intros x Hx. rewrite JsMapMore.has_set, (Hc x Hx). apply orb_true_r. }
  destruct (negb (Str.truthy (creatorId r))); cbn [fst]; split;
    try exact Hsock; apply rooms_inv_put; auto.
Qed.

Lemma disconnect_inv now sid sock st :
  state_inv st -> state_inv (fst (disconnect now sid sock st)).
Proof.
  intros [Hrooms Hsock]. unfold disconnect.
  destruct (s_roomId sock) as [roomId|]; [|split; assumption].
  destruct (negb (Str.truthy roomId)); [split; assumption|].
  destruct (JsMap.get roomId (rooms st)) as [r|] eqn:Hget;
    [|split; assumption].
  destruct (JsMapMore.Forall_get _ roomId r _ Hrooms Hget)
    as (Hm & Hp & Ht & Hc & [Hq1 Hq2] & Hcr). fields.
  cbv zeta. fields.
  assert (Hr : room_inv
    (roomId,
     set_intel (JsMap.delete sid (intel r))
       (set_pending (JsMap.delete sid (pending r))
          (set_members (JsMap.delete sid (members r)) r)))).
  { inv_split; auto.
    - now apply names_ok_delete.
    - now apply names_ok_delete.
    - intros t E. destruct (Ht t E) as (H1 & H2 & H3 & H4).
      rewrite H2, H3. auto.
    - intros x. rewrite !JsMapMore.has_delete.
      intros Hx. apply andb_prop in Hx as [Hx1 Hx2].
      now rewrite Hx1, (Hc x Hx2).
    - split.
      + intros Hw. now rewrite (Hq1 Hw).
      + now rewrite JsMapMore.has_delete, Hq2, andb_false_r. }
  set (r1 := set_intel (JsMap.delete sid (intel r))
               (set_pending (JsMap.delete sid (pending r))
                  (set_members (JsMap.delete sid (members r)) r))) in *.
  assert (H1 : Forall room_inv (rooms (put_room roomId r1 st)))
    by now apply rooms_inv_put.
  destruct ((JsMap.size (JsMap.delete sid (members r)) =? 0)%nat
            && (JsMap.size (JsMap.delete sid (pending r)) =? 0)%nat)
    eqn:Hempty; [|split; assumption].
  apply andb_prop in Hempty as [He1 He2].
  apply JsMapMore.size_zero in He1, He2.
  assert (Hr2 : room_inv
            (roomId,
             scheduleRoomExpiry now roomId (clearExpiryTimer r1))).
  { pose proof (room_inv_clear roomId r1 Hr) as Hb.
    unfold scheduleRoomExpiry. cbv zeta.
    rewrite !clearExpiryTimer_eq in *.
    destruct (Z.leb_spec (expiryMinutes (set_expiryTimer None
                                           (set_expiryTimer None r1))) 0)
      as [Hle | Hgt].
    - destruct Hb as (Hm' & Hp' & Ht' & Hc' & Hq' & Hcr').
      inv_split; auto.
    - destruct Hb as (Hm' & Hp' & Ht' & Hc' & Hq' & Hcr').
      inv_split; auto.
      intros t [= <-]. cbn [t_roomId]. subst r1. fields. auto. }
  destruct (expiryTimer (scheduleRoomExpiry now roomId (clearExpiryTimer r1)));
    cbn [fst]; split; try exact Hsock.
  - now apply rooms_inv_put.
  - cbn [rooms set_rooms]. apply JsMapFacts.Forall_delete.
    now apply rooms_inv_put.
Qed.

Lemma timer_fires_inv now roomId st :
  state_inv st -> state_inv (fst (timer_fires now roomId st)).
Proof.
  intros [Hrooms Hsock]. unfold timer_fires.
  destruct (JsMap.get roomId (rooms st)) as [r|]; [|split; assumption].
  destruct (expiryTimer r) as [t|]; [|split; assumption].
  destruct (t_due t <=? now); [|split; assumption].
  cbn [fst]. split; [|exact Hsock]. now apply JsMapFacts.Forall_delete.
Qed.

(** The relaying and broadcasting handlers leave the state as it is. *)
Lemma stateless_keeps_state now sid e st :
  stateless e = true -> fst (step (FromSocket now sid e) st) = st.
Proof.
  intros He. destruct e; try discriminate He; unfold step;
    destruct (JsMap.get sid (sockets st)); auto.
  - unfold chat_message.
    destruct (getRoomBySocket sid st) as [[k r]|]; auto.
    destruct text; auto. now destruct (_ || _).
  - unfold mute_all. destruct (getRoomBySocket sid st) as [[k r]|]; auto.
    now destruct (_ || _).
  - unfold mute_peer. destruct (getRoomBySocket sid st) as [[k r]|]; auto.
    now destruct (negb _).
  - unfold raise_hand. destruct (getRoomBySocket sid st) as [[k r]|]; auto.
    now destruct (negb _).
  - unfold reaction. destruct (getRoomBySocket sid st) as [[k r]|]; auto.
    now destruct (_ || _).
  - unfold spotlight. destruct (getRoomBySocket sid st) as [[k r]|]; auto.
    now destruct (_ || _).
Qed.

Lemma step_inv i st : state_inv st -> state_inv (fst (step i st)).
Proof.
  intros Hinv. destruct i as [now sid e | now roomId];
    [|now apply timer_fires_inv].
  destruct (stateless e) eqn:Hst;
    [now rewrite stateless_keeps_state|].
  destruct e; try discriminate Hst; unfold step.
  - destruct (Str.truthy sid && negb (JsMap.has sid (sockets st))) eqn:Hc;
      [|exact Hinv].
    apply andb_prop in Hc as [Hc _]. destruct Hinv as [Hrooms Hsock].
    cbn [fst]. split; [exact Hrooms|].
    now apply JsMapMore.Forall_set_key.
  - destruct (JsMap.get sid (sockets st)) as [sock|] eqn:Hs; [|exact Hinv].
    now apply (join_room_inv now sid roomId user payload st sock).
  - destruct (JsMap.get sid (sockets st)); [|exact Hinv].
    now apply admit_inv.
  - destruct (JsMap.get sid (sockets st)); [|exact Hinv].
    now apply reject_inv.
  - destruct (JsMap.get sid (sockets st)); [|exact Hinv].
    now apply kick_inv.
  - destruct (JsMap.get sid (sockets st)); [|exact Hinv].
    now apply end_meeting_inv.
  - destruct (JsMap.get sid (sockets st)); [|exact Hinv].
    now apply intel_metrics_inv.
  - destruct (JsMap.get sid (sockets st)); [|exact Hinv].
    apply disconnect_inv. destruct Hinv as [Hrooms Hsock].
    split; [exact Hrooms|]. now apply JsMapFacts.Forall_delete.
Qed.

Lemma run_step inputs : forall i st,
  fst (run (inputs ++ [i]) st) = fst (step i (fst (run inputs st))).
Proof.
  induction inputs as [|j rest IH]; intros i st; simpl.
  - now destruct (step i st).
  - destruct (step j st) as [st1 out1]. specialize (IH i st1).
    destruct (run (rest ++ [i]) st1), (run rest st1). exact IH.
Qed.

(** A step from a reachable state gives a reachable state. *)
Lemma reachable_step i st : reachable st -> reachable (fst (step i st)).
Proof.
  intros [inputs ->]. exists (inputs ++ [i]). symmetry. apply run_step.
Qed.

(** Every reachable state keeps the rooms and the connections in order. *)
Lemma reachable_inv st : reachable st -> state_inv st.
Proof.
  intros [inputs ->].
  assert (H0 : state_inv init) by (split; constructor).
  revert H0. generalize init.
  induction inputs as [|i rest IH]; intros st Hok; simpl; auto.
  pose proof (step_inv i st Hok) as H1.
  destruct (step i st) as [st1 out1]. simpl in H1.
  specialize (IH st1 H1). destruct (run rest st1) as [st2 out2]. exact IH.
Qed.

(** ** Display names *)

(** X1.  In every state the server can reach, the display name of every
    member and of everyone pending is what the join handler made of the
    name it was given: not empty, fifty code units at most, and without
    white space in front (the cut to fifty may leave some at the end). *)
Theorem display_names_bounded :
  forall st roomId r sid m,
    reachable st ->
    JsMap.get roomId (rooms st) = Some r ->
    JsMap.get sid (members r) = Some m \/ JsMap.get sid (pending r) = Some m ->
    userName m <> [] /\
    (List.length (userName m) <= 50)%nat /\
    Str.clean (userName m).
Proof.
  intros st roomId r sid m Hreach Hget Hm.
  destruct (reachable_inv st Hreach) as [Hrooms _].
  destruct (JsMapMore.Forall_get _ roomId r _ Hrooms Hget)
    as (Hmem & Hpend & _). fields.
  destruct Hm as [Hm | Hm].
  - exact (JsMapMore.Forall_get _ sid m _ Hmem Hm).
  - exact (JsMapMore.Forall_get _ sid m _ Hpend Hm).
Qed.

Lemma display_names_bounded_witness :
  exists r m,
    JsMap.get (lit "r") (rooms Scenario2.st_two_in_r) = Some r /\
    JsMap.get Scenario.B (members r) = Some m /\
    userName m = lit "bob" /\
    (List.length (userName m) <= 50)%nat.
Proof.
  do 2 eexists. split; [reflexivity|]. split; [reflexivity|].
  split; [reflexivity|].
  eapply (display_names_bounded Scenario2.st_two_in_r (lit "r") _
            Scenario.B);
    [exists Scenario2.two_in_r; reflexivity | reflexivity
    | left; reflexivity].
Defined.

(** ** The expiry timer *)

(** X2.  In every state the server can reach, a room that has a pending
    expiry timer has no member and nobody pending, expires after a
    positive number of minutes, and the callback of its timer deletes
    that very room.  So when a timer fires, the only room that leaves
    the registry is the room of the timer, it is empty, and the timer
    was due. *)
Theorem expiry_deletes_only_empty_rooms :
  (forall st roomId r t,
     reachable st ->
     JsMap.get roomId (rooms st) = Some r ->
     expiryTimer r = Some t ->
     t_roomId t = roomId /\ room_empty r = true /\ 0 < expiryMinutes r) /\
  (forall st now roomId k r,
     reachable st ->
     JsMap.get k (rooms st) = Some r ->
     JsMap.get k (rooms (fst (step (TimerFires now roomId) st))) = None ->
     k = roomId /\ room_empty r = true /\
     exists t, expiryTimer r = Some t /\ t_due t <= now).
Proof.
  assert (HA : forall st roomId r t,
     reachable st ->
     JsMap.get roomId (rooms st) = Some r ->
     expiryTimer r = Some t ->
     t_roomId t = roomId /\ room_empty r = true /\ 0 < expiryMinutes r).
  { intros st roomId r t Hreach Hget Ht.
    destruct (reachable_inv st Hreach) as [Hrooms _].
    destruct (JsMapMore.Forall_get _ roomId r _ Hrooms Hget)
      as (_ & _ & Htimer & _). fields.
    destruct (Htimer t Ht) as (H1 & H2 & H3 & H4).
    unfold room_empty. rewrite H2, H3. auto. }
  split; [exact HA|].
  intros st now roomId k r Hreach Hget Hgone.
  unfold step, timer_fires in Hgone.
  destruct (JsMap.get roomId (rooms st)) as [r0|] eqn:H0;
    [|cbn [fst] in Hgone; congruence].
  destruct (expiryTimer r0) as [t|] eqn:Ht;
    [|cbn [fst] in Hgone; congruence].
  destruct (Z.leb_spec (t_due t) now) as [Hdue | Hdue];
    [|cbn [fst] in Hgone; congruence].
  cbn [fst rooms set_rooms] in Hgone.
  destruct (HA st roomId r0 t Hreach H0 Ht) as (Hk & Hempty & _).
  rewrite Hk, JsMapMore.get_delete in Hgone.
  destruct (Str.eqb k roomId) eqn:E; [|congruence].
  apply StrFacts.eqb_eq in E; subst k.
  rewrite H0 in Hget. injection Hget as <-.
  split; [reflexivity|]. split; [exact Hempty|]. now exists t.
Qed.

Lemma expiry_deletes_only_empty_rooms_witness :
  exists r,
    JsMap.get (lit "r") (rooms Scenario2.st_expiring) = Some r /\
    rooms (fst (step (TimerFires 1800003 (lit "r")) Scenario2.st_expiring))
    = [] /\
    room_empty r = true.
Proof.
  eexists. split; [reflexivity|]. split; [reflexivity|].
  eapply (proj2 expiry_deletes_only_empty_rooms Scenario2.st_expiring
            1800003 (lit "r") (lit "r"));
    [exists Scenario2.expiring; reflexivity | reflexivity | reflexivity].
Defined.

(** X3.  In every state the server can reach, every member of a room has
    a telemetry record in that room. *)
Theorem members_have_telemetry :
  forall st roomId r sid,
    reachable st ->
    JsMap.get roomId (rooms st) = Some r ->
    JsMap.has sid (members r) = true ->
    exists e, JsMap.get sid (intel r) = Some e.
Proof.
  intros st roomId r sid Hreach Hget Hm.
  destruct (reachable_inv st Hreach) as [Hrooms _].
  destruct (JsMapMore.Forall_get _ roomId r _ Hrooms Hget)
    as (_ & _ & _ & Hc & _). fields.
  specialize (Hc sid Hm). unfold JsMap.has in Hc.
  destruct (JsMap.get sid (intel r)) as [e|]; [eauto | discriminate].
Qed.

Lemma members_have_telemetry_witness :
  exists r,
    JsMap.get (lit "r") (rooms Scenario2.st_two_in_r) = Some r /\
    exists e, JsMap.get Scenario.B (intel r) = Some e.
Proof.
  eexists. split; [reflexivity|].
  eapply (members_have_telemetry Scenario2.st_two_in_r (lit "r") _
            Scenario.B);
    [exists Scenario2.two_in_r; reflexivity | reflexivity | reflexivity].
Defined.

(** X4.  In every state the server can reach, a room without a waiting
    room has nobody pending, and the creator of a room is never pending
    in it. *)
Theorem pending_needs_waiting_room :
  forall st roomId r,
    reachable st ->
    JsMap.get roomId (rooms st) = Some r ->
    (waitingRoom r = false -> pending r = []) /\
    JsMap.has (creatorId r) (pending r) = false.
Proof.
  intros st roomId r Hreach Hget.
  destruct (reachable_inv st Hreach) as [Hrooms _].
  now destruct (JsMapMore.Forall_get _ roomId r _ Hrooms Hget)
    as (_ & _ & _ & _ & Hq & _).
Qed.

Lemma pending_needs_waiting_room_witness :
  exists r,
    JsMap.get (lit "r1") (rooms Scenario2.st_waiting) = Some r /\
    JsMap.has Scenario.B (pending r) = true /\
    JsMap.has (creatorId r) (pending r) = false.
Proof.
  eexists. split; [reflexivity|]. split; [reflexivity|].
  eapply (pending_needs_waiting_room Scenario2.st_waiting (lit "r1"));
    [exists Scenario2.waiting; reflexivity | reflexivity].
Defined.

(** ** The last participant leaves *)

Lemma only_key_size {V : Type} (k : str) (m : JsMap.t V) :
  only_key k m -> (JsMap.size (JsMap.delete k m) =? 0)%nat = true.
Proof. intros H. now rewrite JsMapMore.delete_only. Qed.

(** X5.  When the connection that leaves is the last one of its room
    (nobody else is a member or pending), the room is deleted at once if
    its expiry is zero minutes or less; otherwise it stays registered,
    empty, with a timer that is due after the delay of the expiry
    minutes.  No other room changes. *)
Theorem last_leaver_deletes_or_schedules :
  forall now sid sock roomId r st,
    JsMap.get sid (sockets st) = Some sock ->
    s_roomId sock = Some roomId ->
    Str.truthy roomId = true ->
    JsMap.get roomId (rooms st) = Some r ->
    only_key sid (members r) ->
    only_key sid (pending r) ->
    (expiryMinutes r <= 0 ->
     JsMap.get roomId
       (rooms (fst (step (FromSocket now sid Disconnect) st))) = None) /\
    (0 < expiryMinutes r ->
     exists r',
       JsMap.get roomId
         (rooms (fst (step (FromSocket now sid Disconnect) st))) = Some r' /\
       members r' = [] /\ pending r' = [] /\
       JsMap.has sid (intel r') = false /\
       expiryTimer r' =
         Some {| t_roomId := roomId;
                 t_due := now
                          + timeout_delay (expiryMinutes r * 60 * 1000) |}) /\
    (forall k,
       k <> roomId ->
       JsMap.get k (rooms (fst (step (FromSocket now sid Disconnect) st)))
       = JsMap.get k (rooms st)).
Proof.
  intros now sid sock roomId r st Hs Hroom Hid Hget Hm Hp.
  unfold step. rewrite Hs. unfold disconnect. rewrite Hroom, Hid.
  cbn [negb]. cbn [rooms set_sockets]. rewrite Hget. cbv zeta. fields.
  rewrite (only_key_size sid _ Hm), (only_key_size sid _ Hp). cbn [andb].
  rewrite (JsMapMore.delete_only sid (members r) Hm),
    (JsMapMore.delete_only sid (pending r) Hp).
  unfold scheduleRoomExpiry. rewrite !clearExpiryTimer_eq. fields.
  destruct (Z.leb_spec (expiryMinutes r) 0) as [Hle | Hgt]; fields.
  - split; [|split].
    + intros _. cbn [fst rooms set_rooms put_room].
      rewrite JsMapMore.get_delete. now rewrite StrFacts.eqb_refl.
    + lia.
    + intros k Hk. cbn [fst rooms set_rooms put_room set_sockets].
      rewrite JsMapMore.get_delete.
      apply StrFacts.eqb_neq in Hk. rewrite Hk.
      apply StrFacts.eqb_neq in Hk.
      now rewrite !JsMapFacts.get_set_other.
  - split; [|split].
    + lia.
    + intros _. eexists. cbn [fst rooms set_rooms put_room set_sockets].
      rewrite JsMapFacts.get_set_same. split; [reflexivity|]. fields.
      repeat split. unfold JsMap.has.
      rewrite JsMapMore.get_delete. now rewrite StrFacts.eqb_refl.
    + intros k Hk. cbn [fst rooms set_rooms put_room set_sockets].
      now rewrite !JsMapFacts.get_set_other.
Qed.

Lemma last_leaver_deletes_or_schedules_witness :
  exists r',
    JsMap.get (lit "r")
      (rooms (fst (step (FromSocket 3 Scenario.H Disconnect)
                     Scenario2.st_alone))) = Some r' /\
    members r' = [] /\ pending r' = [] /\
    JsMap.has Scenario.H (intel r') = false /\
    expiryTimer r' = Some {| t_roomId := lit "r"; t_due := 1800003 |}.
Proof.
  edestruct last_leaver_deletes_or_schedules
    with (now := 3) (sid := Scenario.H) (roomId := lit "r")
         (st := Scenario2.st_alone) as (_ & Hs & _);
    [reflexivity | reflexivity | reflexivity | reflexivity
    | repeat constructor | constructor |].
  apply Hs. reflexivity.
Defined.

(** ** The delay of the expiry timer *)

(** X6.  What [scheduleRoomExpiry] leaves on a room: no timer when the
    expiry is zero minutes or less; a timer due after exactly that many
    minutes for 1 to 35791 minutes; and for 35792 minutes or more, where
    the delay in milliseconds is beyond what a timer takes, a timer due
    after one millisecond. *)
Theorem expiry_timer_delay :
  forall now roomId r,
    (expiryMinutes r <= 0 ->
     expiryTimer (scheduleRoomExpiry now roomId r) = None) /\
    (1 <= expiryMinutes r <= 35791 ->
     expiryTimer (scheduleRoomExpiry now roomId r) =
       Some {| t_roomId := roomId;
               t_due := now + expiryMinutes r * 60000 |}) /\
    (35791 < expiryMinutes r ->
     expiryTimer (scheduleRoomExpiry now roomId r) =
       Some {| t_roomId := roomId; t_due := now + 1 |}).
Proof.
  intros now roomId r. unfold scheduleRoomExpiry.
  rewrite clearExpiryTimer_eq. fields.
  unfold timeout_delay, TIMEOUT_MAX.
  split; [|split]; intros Hm.
  - destruct (Z.leb_spec (expiryMinutes r) 0); [reflexivity | lia].
  - destruct (Z.leb_spec (expiryMinutes r) 0); [lia|]. fields.
    destruct (Z.leb_spec 1 (expiryMinutes r * 60 * 1000)); [|lia].
    destruct (Z.leb_spec (expiryMinutes r * 60 * 1000) 2147483647); [|lia].
    cbn [andb]. do 3 f_equal. lia.
  - destruct (Z.leb_spec (expiryMinutes r) 0); [lia|]. fields.
    destruct (Z.leb_spec 1 (expiryMinutes r * 60 * 1000)); [|lia].
    destruct (Z.leb_spec (expiryMinutes r * 60 * 1000) 2147483647); [lia|].
    reflexivity.
Qed.

Lemma expiry_timer_delay_witness :
  expiryTimer (scheduleRoomExpiry 0 (lit "r") (Scenario3.bare 30)) =
    Some {| t_roomId := lit "r"; t_due := 1800000 |} /\
  expiryTimer (scheduleRoomExpiry 0 (lit "r") (Scenario3.bare 35792)) =
    Some {| t_roomId := lit "r"; t_due := 1 |}.
Proof.
  split.
  - apply (expiry_timer_delay 0 (lit "r") (Scenario3.bare 30)). simpl; lia.
  - apply (expiry_timer_delay 0 (lit "r") (Scenario3.bare 35792)).
    simpl; lia.
Defined.

(** ** Handlers that only relay or broadcast *)

(** X7.  The handlers of offer, answer, ice-candidate, chat-message,
    mute-all, mute-peer, raise-hand, reaction and spotlight never change
    the state of the server, and emit one event at most. *)
Theorem relays_and_broadcasts_keep_state :
  forall now sid e st,
    stateless e = true ->
    fst (step (FromSocket now sid e) st) = st /\
    (List.length (snd (step (FromSocket now sid e) st)) <= 1)%nat.
Proof.
  intros now sid e st He. split; [now apply stateless_keeps_state|].
  destruct e; try discriminate He; unfold step;
    destruct (JsMap.get sid (sockets st)); cbn [snd List.length]; auto;
    unfold offer, answer, ice_candidate, chat_message, mute_all, mute_peer,
      raise_hand, reaction, spotlight;
    repeat match goal with
           | |- context [match ?x with _ => _ end] => destruct x
           end; cbn [snd List.length]; auto.
Qed.

Lemma relays_and_broadcasts_keep_state_witness :
  fst (step (FromSocket 9 Scenario.A (SendReaction (VString (lit "wave"))))
         Scenario.st_r4) = Scenario.st_r4 /\
  (List.length
     (snd (step (FromSocket 9 Scenario.A (SendReaction (VString (lit "wave"))))
             Scenario.st_r4)) <= 1)%nat.
Proof.
  apply (relays_and_broadcasts_keep_state 9 Scenario.A
           (SendReaction (VString (lit "wave"))) Scenario.st_r4).
  reflexivity.
Defined.

(** ** The credential endpoint *)

(** X8.  What [POST /livekit/token] answers.  A server error means that
    the key or the secret is not configured, whatever the request; a
    bad request means that they are and that the room or the identity is
    blank; and a token is issued only when the key and the secret are
    configured and neither the room nor the identity is blank.  The
    token is for the trimmed room and identity, grants joining,
    publishing, subscribing and data, is never without a name (the
    identity stands in for a blank name), and comes with a URL that is
    not empty. *)
Theorem token_only_when_configured_and_named :
  forall env body,
    match livekit_token env body with
    | ServerError _ =>
        or_empty (LIVEKIT_API_KEY env) = [] \/
        or_empty (LIVEKIT_API_SECRET env) = []
    | BadRequest _ =>
        or_empty (LIVEKIT_API_KEY env) <> [] /\
        or_empty (LIVEKIT_API_SECRET env) <> [] /\
        (Str.trim (or_empty (q_room body)) = [] \/
         Str.trim (or_empty (q_identity body)) = [])
    | Issued tok u =>
        at_key tok = or_empty (LIVEKIT_API_KEY env) /\ at_key tok <> [] /\
        at_secret tok = or_empty (LIVEKIT_API_SECRET env) /\
        at_secret tok <> [] /\
        at_identity tok = Str.trim (or_empty (q_identity body)) /\
        at_identity tok <> [] /\
        g_room (at_grant tok) = Str.trim (or_empty (q_room body)) /\
        g_room (at_grant tok) <> [] /\
        at_name tok <> [] /\
        (Str.trim (or_empty (q_name body)) = [] ->
         at_name tok = at_identity tok) /\
        (Str.trim (or_empty (q_name body)) <> [] ->
         at_name tok = Str.trim (or_empty (q_name body))) /\
        roomJoin (at_grant tok) = true /\
        canPublish (at_grant tok) = true /\
        canSubscribe (at_grant tok) = true /\
        canPublishData (at_grant tok) = true /\
        u <> [] /\
        (or_empty (LIVEKIT_URL env) = [] -> u = lit "ws://localhost:7880") /\
        (or_empty (LIVEKIT_URL env) <> [] -> u = or_empty (LIVEKIT_URL env))
    end.
Proof.
  intros env body. unfold livekit_token, requireLiveKitEnv.
  destruct (or_empty (LIVEKIT_API_KEY env)) as [|k0 k] eqn:Ek;
    [cbn; now left|].
  destruct (or_empty (LIVEKIT_API_SECRET env)) as [|s0 s] eqn:Es;
    [cbn; now right|].
  cbn [Str.truthy negb orb]. cbv zeta.
  destruct (Str.trim (or_empty (q_room body))) as [|c0 c] eqn:Er;
    [cbn; repeat split; try discriminate; now left|].
  destruct (Str.trim (or_empty (q_identity body))) as [|i0 i] eqn:Ei;
    [cbn; repeat split; try discriminate; now right|].
  cbn [Str.truthy negb orb].
  cbn [at_key at_secret at_identity at_name at_grant g_room roomJoin
       canPublish canSubscribe canPublishData apiKey apiSecret url].
  repeat split; try discriminate.
  - destruct (Str.trim (or_empty (q_name body))); discriminate.
  - now intros ->.
  - destruct (Str.trim (or_empty (q_name body))); [congruence | reflexivity].
  - destruct (or_empty (LIVEKIT_URL env)); discriminate.
  - now intros ->.
  - destruct (or_empty (LIVEKIT_URL env)); [congruence | reflexivity].
Qed.

Lemma token_only_when_configured_and_named_witness :
  exists tok u,
    livekit_token Scenario2.env_ok Scenario2.ask_token = Issued tok u /\
    at_name tok = at_identity tok /\ u = lit "ws://localhost:7880".
Proof.
  do 2 eexists. split; [reflexivity|].
  destruct (token_only_when_configured_and_named Scenario2.env_ok
              Scenario2.ask_token)
    as (_ & _ & _ & _ & _ & _ & _ & _ & _ & Hn & _ & _ & _ & _ & _ & _
        & Hu & _).
  split; [apply Hn; reflexivity | apply Hu; reflexivity].
Defined.

(** ** Who is subscribed after a write to a connection *)

Lemma subscribed_channels ch s s' :
  s_channels s' = s_channels s -> subscribed ch s' = subscribed ch s.
Proof. unfold subscribed. now intros ->. Qed.

(** A write that keeps the channels of the connection keeps the
    subscribers of every channel. *)
Lemma subscribers_update ch sid f st :
  (forall s, s_channels (f s) = s_channels s) ->
  subscribers ch (update_socket sid f st) = subscribers ch st.
Proof.
  intros Hf. unfold update_socket, subscribers.
  destruct (JsMap.get sid (sockets st)) as [s|] eqn:E; [|reflexivity].
  cbn [sockets set_sockets]. revert E.
  induction (sockets st) as [|[k v] m IH]; [cbn; discriminate|].
  cbn [JsMap.get JsMap.set]. destruct (Str.eqb sid k).
  - intros [= ->]. cbn [filter snd].
    rewrite (subscribed_channels ch s (f s) (Hf s)).
    now destruct (subscribed ch s).
  - intros E. cbn [filter snd].
    destruct (subscribed ch v); cbn [List.map]; now rewrite (IH E).
Qed.

Lemma subscribers_except_spec ex ch st c :
  In c (subscribers_except ex ch st) <->
  exists s,
    In (c, s) (sockets st) /\
    subscribed ch s = true /\ subscribed ex s = false.
Proof.
  unfold subscribers_except. rewrite in_map_iff. split.
  - intros ([c' s] & <- & Hin). apply filter_In in Hin as [Hin Hs].
    apply andb_prop in Hs as [H1 H2]. apply negb_true_iff in H2.
    exists s. auto.
  - intros (s & Hin & H1 & H2). exists (c, s). split; auto.
    apply filter_In. split; auto. cbn [snd]. now rewrite H1, H2.
Qed.

(** A write to the entry of [k] leaves the entries of the other keys. *)
Lemma In_set_other {V : Type} k (v : V) m c x :
  c <> k -> In (c, x) (JsMap.set k v m) <-> In (c, x) m.
Proof.
  intros Hne. induction m as [|[k0 v0] m IH]; cbn [JsMap.set].
  - split; [intros [H | []]; congruence | intros []].
  - destruct (Str.eqb k k0) eqn:E.
    + apply StrFacts.eqb_eq in E. subst k0. cbn [In].
      split; (intros [H | H]; [congruence | now right]).
    + cbn [In]. rewrite IH. tauto.
Qed.

Lemma In_update_other sid f st c s :
  c <> sid ->
  In (c, s) (sockets (update_socket sid f st)) <-> In (c, s) (sockets st).
Proof.
  intros Hne. unfold update_socket.
  destruct (JsMap.get sid (sockets st)); [|tauto].
  cbn [sockets set_sockets]. now apply In_set_other.
Qed.

Lemma subscribed_join ch x s :
  subscribed ch (join x s) = subscribed ch s || Str.eqb ch x.
Proof.
  unfold join. unfold subscribed at 1. cbn [s_channels].
  destruct (subscribed x s) eqn:Ex.
  - fold (subscribed ch s). destruct (Str.eqb ch x) eqn:E.
    + apply StrFacts.eqb_eq in E. subst. now rewrite Ex.
    + now rewrite orb_false_r.
  - rewrite existsb_app. cbn [existsb]. now rewrite orb_false_r.
Qed.

(** ** One entry per connection *)

Lemma conns_ok_update st sid f :
  conns_ok st -> conns_ok (update_socket sid f st).
Proof.
  intros Hok. unfold update_socket, conns_ok.
  destruct (JsMap.get sid (sockets st)); [|exact Hok].
  now apply JsMapFacts.NoDup_set.
Qed.

Ltac conns_ok_tac :=
  repeat first
    [ assumption
    | progress cbn [fst]
    | apply conns_ok_update
    | match goal with
      | |- conns_ok (put_room _ _ ?st) => change (conns_ok st)
      | |- conns_ok (set_rooms _ ?st) => change (conns_ok st)
      | |- conns_ok (fst (if ?b then _ else _)) => destruct b
      | |- conns_ok (fst (match ?x with _ => _ end)) => destruct x
      end ].

Lemma step_conns_ok i st : conns_ok st -> conns_ok (fst (step i st)).
Proof.
  intros Hok. destruct i as [now sid e | now roomId].
  - unfold step.
    destruct e; try (destruct (JsMap.get sid (sockets st)) as [sock|];
                     [|exact Hok]).
    + destruct (Str.truthy sid && negb (JsMap.has sid (sockets st)));
        [|exact Hok].
      cbn [fst]. now apply JsMapFacts.NoDup_set.
    + unfold join_room. cbv zeta. conns_ok_tac.
    + unfold admit_peer. cbv zeta. conns_ok_tac.
    + unfold reject. cbv zeta. conns_ok_tac.
    + exact Hok.
    + exact Hok.
    + exact Hok.
    + unfold chat_message. conns_ok_tac.
    + unfold mute_all. conns_ok_tac.
    + unfold mute_peer. conns_ok_tac.
    + unfold kick. cbv zeta. conns_ok_tac.
    + unfold end_meeting. cbv zeta. conns_ok_tac.
    + unfold raise_hand. conns_ok_tac.
    + unfold reaction. conns_ok_tac.
    + unfold spotlight. conns_ok_tac.
    + unfold intel_metrics. cbv zeta. conns_ok_tac.
    + assert (H0 : conns_ok (set_sockets (JsMap.delete sid (sockets st)) st))
        by now apply JsMapFacts.NoDup_delete.
      revert H0. generalize (set_sockets (JsMap.delete sid (sockets st)) st).
      intros st0 H0. unfold disconnect. cbv zeta. conns_ok_tac.
  - unfold step, timer_fires. conns_ok_tac.
Qed.

(** Every reachable state has one connection per session id. *)
Lemma reachable_conns_ok st : reachable st -> conns_ok st.
Proof.
  intros [inputs ->].
  assert (H0 : conns_ok init) by constructor.
  revert H0. generalize init.
  induction inputs as [|i rest IH]; intros st Hok; simpl; auto.
  pose proof (step_conns_ok i st Hok) as H1.
  destruct (step i st) as [st1 out1]. simpl in H1.
  specialize (IH st1 H1). destruct (run rest st1) as [st2 out2]. exact IH.
Qed.

(** With one entry per connection, the connection [c] is reached by a
    broadcast exactly when its own entry is subscribed as required. *)
Lemma subscribers_except_get ex ch st c s :
  conns_ok st ->
  JsMap.get c (sockets st) = Some s ->
  In c (subscribers_except ex ch st) <->
  subscribed ch s = true /\ subscribed ex s = false.
Proof.
  intros Hok Hget. rewrite subscribers_except_spec. split.
  - intros (s' & Hin & H1 & H2).
    rewrite (JsMapFacts.NoDup_get c s' _ Hok Hin) in Hget.
    injection Hget as <-. auto.
  - intros [H1 H2]. exists s. split; [|auto].
    now apply JsMapFacts.get_In.
Qed.

Lemma get_update_socket sid f st s :
  JsMap.get sid (sockets st) = Some s ->
  JsMap.get sid (sockets (update_socket sid f st)) = Some (f s).
Proof.
  intros E. unfold update_socket. rewrite E. cbn [sockets set_sockets].
  apply JsMapFacts.get_set_same.
Qed.

Lemma In_set {V : Type} k (v : V) m : In (k, v) (JsMap.set k v m).
Proof.
  induction m as [|[k0 v0] m IH]; cbn [JsMap.set]; [now left|].
  destruct (Str.eqb k k0) eqn:E.
  - apply StrFacts.eqb_eq in E; subst. now left.
  - now right.
Qed.

(** ** Joins that are refused with an error *)

(** X9.  A join that is answered with [error] changes nothing, and the
    requester gets nothing else.  The error is "Room ID and name
    required" exactly for an empty room id or a blank name, and "Room
    not found" exactly for a room that is not registered when the
    request is not a creation with options. *)
Theorem join_error_changes_nothing :
  forall now sid roomId user payload st em msg,
    In em (snd (join_room now sid roomId user payload st)) ->
    what em = Error msg ->
    join_room now sid roomId user payload st =
      (st, [socket_emit sid (Error msg)]) /\
    (msg = lit "Room ID and name required" /\
     (roomId = [] \/ name_given user = false) \/
     msg = lit "Room not found" /\
     roomId <> [] /\ name_given user = true /\
     JsMap.get roomId (rooms st) = None /\
     (isCreator payload = false \/ roomOptions payload = None)).
Proof.
  intros now sid roomId user payload st em msg Hin Hw.
  unfold join_room in *.
  destruct (Str.truthy roomId) eqn:Hid; cbn [negb orb] in *.
  2:{ destruct Hin as [<- | []]. cbn in Hw. injection Hw as <-.
      split; [reflexivity|]. left. split; [reflexivity|]. left.
      now destruct roomId. }
  destruct (name_given user) eqn:Hname; cbn [negb] in *.
  2:{ destruct Hin as [<- | []]. cbn in Hw. injection Hw as <-.
      split; [reflexivity|]. left. split; [reflexivity|]. now right. }
  cbv zeta in *.
  destruct (JsMap.get roomId (rooms st)) as [r|] eqn:Hget.
  - exfalso. emitted_cases Hin; subst; cbn in Hw; discriminate Hw.
  - assert (Hne : roomId <> [])
      by (destruct roomId; [discriminate | congruence]).
    destruct (isCreator payload) eqn:Hc.
    + destruct (roomOptions payload) as [opts|] eqn:Ho.
      * exfalso. emitted_cases Hin; subst; cbn in Hw; discriminate Hw.
      * destruct Hin as [<- | []]. cbn in Hw. injection Hw as <-.
        split; [reflexivity|]. right. repeat split; auto.
    + destruct Hin as [<- | []]. cbn in Hw. injection Hw as <-.
      split; [reflexivity|]. right. repeat split; auto.
Qed.

Lemma join_error_changes_nothing_witness :
  join_room 2000 Scenario.B (lit "r2") (Some (lit "bob")) (Scenario.joining [])
    (Scenario.after (firstn 3 Scenario.scheduled)) =
  (Scenario.after (firstn 3 Scenario.scheduled),
   [socket_emit Scenario.B (Error (lit "Room not found"))]).
Proof.
  eapply (join_error_changes_nothing 2000 Scenario.B (lit "r2")
            (Some (lit "bob")) (Scenario.joining [])
            (Scenario.after (firstn 3 Scenario.scheduled)));
    [left; reflexivity | reflexivity].
Defined.

(** ** A join to a room with a waiting room *)

(** X10.  A join that passes the gates of a room with a waiting room,
    from a session that is not the creator, puts the session in
    [pending] under its display name and nowhere else: the members and
    the telemetry of the room are as before and the connection is
    subscribed to no new channel.  The requester is told to wait, and
    the request is announced on the channel of the creator's id. *)
Theorem waiting_room_holds_the_joiner :
  forall now sid sock roomId user payload st r,
    JsMap.get sid (sockets st) = Some sock ->
    Str.truthy roomId = true ->
    name_given user = true ->
    JsMap.get roomId (rooms st) = Some r ->
    wrong_password r payload = false ->
    not_started now (scheduledAt r) = None ->
    waitingRoom r = true ->
    Str.eqb sid (creatorId r) = false ->
    exists r',
      JsMap.get roomId
        (rooms (fst (join_room now sid roomId user payload st))) = Some r' /\
      JsMap.get sid (pending r') = Some {| userName := stored_name user |} /\
      members r' = members r /\
      intel r' = intel r /\
      JsMap.get sid
        (sockets (fst (join_room now sid roomId user payload st))) =
        Some {| s_roomId := Some roomId;
                s_userName := Some (stored_name user);
                s_isHost := false;
                s_channels := s_channels sock |} /\
      snd (join_room now sid roomId user payload st) =
        [ socket_emit sid WaitingForHost;
          {| rcpt := subscribers (creatorId r) st;
             what := PendingJoin sid (stored_name user) |} ].
Proof.
  intros now sid sock roomId user payload st r Hs Hid Hname Hget Hpw Hat
    Hw Hc.
  unfold join_room. rewrite Hid, Hname, Hget. cbn [negb orb]. cbv zeta.
  rewrite wrong_password_clear, Hpw.
  destruct (clearExpiryTimer_fields r)
    as (Ec & _ & Es & _ & Ew & Em & Ep & Ei & _).
  rewrite Es, Hat, Ew, Ec, Hw, Hc. cbn [negb andb fst snd].
  eexists. rewrite rooms_update_socket, get_put_room.
  split; [reflexivity|]. fields.
  split; [apply JsMapFacts.get_set_same|].
  split; [exact Em|]. split; [exact Ei|].
  split.
  - erewrite get_update_socket; [reflexivity|]. exact Hs.
  - unfold io_to. rewrite subscribers_update by reflexivity.
    fields. rewrite Ec. reflexivity.
Qed.

Lemma waiting_room_holds_the_joiner_witness :
  snd (join_room 3 Scenario.B (lit "r1") (Some (lit "bob"))
         (Scenario.joining []) Scenario2.st_host_only_r1) =
  [ socket_emit Scenario.B WaitingForHost;
    {| rcpt := [Scenario.H]; what := PendingJoin Scenario.B (lit "bob") |} ].
Proof.
  edestruct waiting_room_holds_the_joiner
    with (now := 3) (sid := Scenario.B) (roomId := lit "r1")
         (user := Some (lit "bob")) (payload := Scenario.joining [])
         (st := Scenario2.st_host_only_r1)
    as (r' & _ & _ & _ & _ & _ & Hout); [reflexivity .. |].
  exact Hout.
Defined.

(** ** The roster a joiner gets *)

(** X11.  A join that passes the gates into the members of a registered
    room.  The requester gets [room-joined] with its own id, the host
    flag set exactly when it is the creator, and the roster of the room
    as it is afterwards: the roster before with the requester added at
    the end, or, for a session that was a member already, the same
    sessions in the same places.  The requester is on the roster under
    its display name.  [participant-joined] is sent with
    [socket.to(roomId)]: it goes to the connections that are then
    subscribed to the channel of the room and not to the channel named
    by the id of the requester.  Of the other connections these are the
    ones that were so subscribed before; and, in a state the server can
    reach, the requester itself is left out when it is subscribed to
    its own id. *)
Theorem joiner_gets_the_roster :
  forall now sid roomId user payload st r,
    Str.truthy roomId = true ->
    name_given user = true ->
    JsMap.get roomId (rooms st) = Some r ->
    wrong_password r payload = false ->
    not_started now (scheduledAt r) = None ->
    waitingRoom r && negb (Str.eqb sid (creatorId r)) = false ->
    exists r',
      JsMap.get roomId
        (rooms (fst (join_room now sid roomId user payload st))) = Some r' /\
      snd (join_room now sid roomId user payload st) =
        [ socket_emit sid
            (RoomJoined roomId (getRoomParticipants r')
               (Str.eqb sid (creatorId r)) sid);
          {| rcpt := subscribers_except sid roomId
                       (fst (join_room now sid roomId user payload st));
             what := ParticipantJoined sid (stored_name user) |} ] /\
      In {| p_id := sid; p_userName := stored_name user |}
        (getRoomParticipants r') /\
      (JsMap.has sid (members r) = false ->
       getRoomParticipants r' =
       getRoomParticipants r ++
       [ {| p_id := sid; p_userName := stored_name user |} ]) /\
      (JsMap.has sid (members r) = true ->
       List.map p_id (getRoomParticipants r') =
       List.map p_id (getRoomParticipants r)) /\
      (forall c,
         c <> sid ->
         In c (subscribers_except sid roomId
                 (fst (join_room now sid roomId user payload st))) <->
         exists s,
           In (c, s) (sockets st) /\
           subscribed roomId s = true /\ subscribed sid s = false) /\
      (forall sock,
         reachable st ->
         JsMap.get sid (sockets st) = Some sock ->
         In sid (subscribers_except sid roomId
                   (fst (join_room now sid roomId user payload st))) <->
         subscribed sid sock = false /\ sid <> roomId).
Proof.
  intros now sid roomId user payload st r Hid Hname Hget Hpw Hat Hw.
  unfold join_room. rewrite Hid, Hname, Hget. cbn [negb orb]. cbv zeta.
  rewrite wrong_password_clear, Hpw.
  destruct (clearExpiryTimer_fields r)
    as (Ec & _ & Es & _ & Ew & Em & Ep & Ei & _).
  rewrite Es, Hat, Ew, Ec, Hw. cbn [fst snd].
  eexists. rewrite rooms_update_socket, get_put_room.
  split; [reflexivity|]. fields. rewrite Ec, Em.
  split; [reflexivity|].
  split; [|split; [|split; [|split]]].
  - unfold getRoomParticipants. fields.
    apply (in_map (fun e => {| p_id := fst e; p_userName := userName (snd e) |})
             _ (sid, {| userName := stored_name user |})).
    apply In_set.
  - intros Hnew. unfold getRoomParticipants. fields.
    rewrite (JsMapMore.set_new _ _ _ Hnew), map_app. reflexivity.
  - intros Hold. unfold getRoomParticipants. fields.
    rewrite !map_map. cbn [p_id].
    exact (JsMapMore.keys_set_old _ _ _ Hold).
  - intros c Hc. rewrite subscribers_except_spec.
    split; intros (s & Hin & H1 & H2); exists s; (split; [|auto]).
    + apply In_update_other in Hin; [exact Hin | exact Hc].
    + apply In_update_other; [exact Hc | exact Hin].
  - intros sock Hreach Hs.
    match goal with
    | |- In sid (subscribers_except sid roomId (update_socket sid ?f ?st0))
         <-> _ =>
        rewrite (subscribers_except_get sid roomId
                   (update_socket sid f st0) sid (f sock)
                   (conns_ok_update st0 sid f (reachable_conns_ok st Hreach))
                   (get_update_socket sid f st0 sock Hs))
    end.
    cbv beta. rewrite !subscribed_join. unfold subscribed.
    cbn [s_channels]. rewrite StrFacts.eqb_refl, orb_true_r.
    split.
    + intros [_ H]. apply orb_false_elim in H as [H1 H2].
      split; [exact H1 | now apply StrFacts.eqb_neq].
    + intros [H1 H2]. apply StrFacts.eqb_neq in H2.
      now rewrite H1, H2.
Qed.

Lemma joiner_gets_the_roster_witness :
  snd (join_room 3 Scenario.B (lit "r") (Some (lit "  bob "))
         (Scenario.joining []) Scenario2.st_host_and_guest) =
  [ socket_emit Scenario.B
      (RoomJoined (lit "r")
         [ {| p_id := Scenario.H; p_userName := lit "host" |};
           {| p_id := Scenario.B; p_userName := lit "bob" |} ]
         false Scenario.B);
    {| rcpt := [Scenario.H];
       what := ParticipantJoined Scenario.B (lit "bob") |} ].
Proof.
  edestruct joiner_gets_the_roster
    with (now := 3) (sid := Scenario.B) (roomId := lit "r")
         (user := Some (lit "  bob ")) (payload := Scenario.joining [])
         (st := Scenario2.st_host_and_guest)
    as (r' & Hg & Hout & _); [reflexivity .. |].
  vm_compute in Hg. injection Hg as <-. exact Hout.
Defined.

(** When the host re-sends its join while [X], a participant of ["r"],
    has also created a room whose id is the session id of the host:
    [X] is subscribed to the channel named by the id of the sender, and
    the join is announced to nobody. *)
Example join_announced_to_nobody :
  snd (step (FromSocket 6 Scenario.H
               (JoinRoom (lit "r") (Some (lit "host")) (Scenario.joining [])))
         Scenario.st_squatter) =
  [ socket_emit Scenario.H
      (RoomJoined (lit "r")
         [ {| p_id := Scenario.H; p_userName := lit "host" |};
           {| p_id := Scenario.X; p_userName := lit "eve" |} ]
         true Scenario.H);
    {| rcpt := []; what := ParticipantJoined Scenario.H (lit "host") |} ].
Proof. reflexivity. Qed.

(** ** Chat messages *)

(** An emission of a run is the emission of one of its steps. *)
Lemma run_emitted inputs : forall st em,
  In em (snd (run inputs st)) ->
  exists pre i,
    (exists post, inputs = pre ++ i :: post) /\
    In em (snd (step i (fst (run pre st)))).
Proof.
  induction inputs as [|i rest IH]; intros st em Hin; [destruct Hin|].
  cbn [run] in Hin. destruct (step i st) as [st1 out1] eqn:E1.
  destruct (run rest st1) as [st2 out2] eqn:E2. cbn [snd] in Hin.
  apply in_app_or in Hin as [Hin | Hin].
  - exists [], i. split; [now exists rest|]. cbn [run fst].
    now rewrite E1.
  - specialize (IH st1 em). rewrite E2 in IH.
    destruct (IH Hin) as (pre & j & [post ->] & Hj).
    exists (i :: pre), j. split; [now exists post|].
    cbn [run]. rewrite E1. now destruct (run pre st1).
Qed.

Lemma slice0_length n s : (List.length (Str.slice0 n s) <= n)%nat.
Proof. unfold Str.slice0. rewrite length_firstn. lia. Qed.

Lemma slice0_nonempty n s :
  (0 < n)%nat -> Str.truthy s = true -> Str.slice0 n s <> [].
Proof. destruct n, s; cbn; try discriminate; lia. Qed.

Lemma chat_only_from_chat_message i st em id user text ts :
  In em (snd (step i st)) ->
  what em = ChatMessage id user text ts ->
  text <> [] /\ (List.length text <= 2000)%nat /\ Str.clean text /\
  exists roomId r,
    getRoomBySocket id st = Some (roomId, r) /\
    rcpt em = subscribers roomId st.
Proof.
  intros Hin Hw. destruct i as [now sid e | now roomId].
  - unfold step in Hin. destruct e.
    1: solve [not_dashboard Hin Hw].
    all: destruct (JsMap.get sid (sockets st)) as [sock|] eqn:Hs;
      [|destruct Hin].
    1: unfold join_room in Hin; solve [not_dashboard Hin Hw].
    1: unfold admit_peer in Hin; solve [not_dashboard Hin Hw].
    1: unfold reject in Hin; solve [not_dashboard Hin Hw].
    1: unfold offer in Hin; solve [not_dashboard Hin Hw].
    1: unfold answer in Hin; solve [not_dashboard Hin Hw].
    1: unfold ice_candidate in Hin; solve [not_dashboard Hin Hw].
    2: unfold mute_all in Hin; solve [not_dashboard Hin Hw].
    2: unfold mute_peer in Hin; solve [not_dashboard Hin Hw].
    2: unfold kick in Hin; solve [not_dashboard Hin Hw].
    2: unfold end_meeting in Hin; solve [not_dashboard Hin Hw].
    2: unfold raise_hand in Hin; solve [not_dashboard Hin Hw].
    2: unfold reaction in Hin; solve [not_dashboard Hin Hw].
    2: unfold spotlight in Hin; solve [not_dashboard Hin Hw].
    2: unfold intel_metrics in Hin; solve [not_dashboard Hin Hw].
    2: unfold disconnect in Hin; solve [not_dashboard Hin Hw].
    unfold chat_message in Hin.
    destruct (getRoomBySocket sid st) as [[roomId r]|] eqn:Hroom;
      [|destruct Hin].
    destruct text0 as [t|]; [|destruct Hin].
    destruct (Str.truthy roomId); cbn [negb orb] in Hin; [|destruct Hin].
    destruct (Str.truthy (Str.trim t)) eqn:Ht; cbn [negb] in Hin;
      [|destruct Hin].
    destruct Hin as [<- | []]. cbn [what io_to] in Hw.
    assert (Et : text = Str.slice0 2000 (Str.trim t)) by congruence.
    assert (Ei : id = sid) by congruence. subst text id. clear Hw.
    split; [apply slice0_nonempty; [lia | exact Ht]|].
    split; [apply slice0_length|].
    split; [apply firstn_clean, StrFacts.trim_clean|].
    exists roomId, r. split; [exact Hroom | reflexivity].
  - unfold step, timer_fires in Hin. not_dashboard Hin Hw.
Qed.

(** X12.  Every chat message the server delivers, in any run from the
    start: the text is not empty, has 2000 code units at most and no
    white space in front; the sender was a member of a room at that
    moment, and the message went to the connections subscribed to the
    channel of that room. *)
Theorem chat_texts_are_bounded :
  forall inputs em id user text ts,
    In em (snd (run inputs init)) ->
    what em = ChatMessage id user text ts ->
    text <> [] /\ (List.length text <= 2000)%nat /\ Str.clean text /\
    exists st roomId r,
      reachable st /\
      getRoomBySocket id st = Some (roomId, r) /\
      JsMap.has id (members r) = true /\
      rcpt em = subscribers roomId st.
Proof.
  intros inputs em id user text ts Hin Hw.
  apply run_emitted in Hin as (pre & i & _ & Hin).
  destruct (chat_only_from_chat_message _ _ _ _ _ _ _ Hin Hw)
    as (H1 & H2 & H3 & roomId & r & Hroom & Hrc).
  repeat (split; [assumption|]).
  exists (fst (run pre init)), roomId, r.
  split; [now exists pre|]. split; [exact Hroom|].
  split; [|exact Hrc].
  exact (proj2 (getRoomBySocket_registered _ _ _ _ Hroom)).
Qed.

Lemma chat_texts_are_bounded_witness :
  In {| rcpt := [Scenario.H; Scenario.B];
        what := ChatMessage Scenario.B (Some (lit "bob")) (lit "hi") 7 |}
     (snd (run Scenario3.chatting init)) /\
  (List.length (lit "hi") <= 2000)%nat.
Proof.
  assert (Hin : In {| rcpt := [Scenario.H; Scenario.B];
                      what := ChatMessage Scenario.B (Some (lit "bob"))
                                (lit "hi") 7 |}
                   (snd (run Scenario3.chatting init)))
    by (do 3 right; left; reflexivity).
  split; [exact Hin|].
  eapply (chat_texts_are_bounded Scenario3.chatting _ Scenario.B
            (Some (lit "bob")) (lit "hi") 7 Hin).
  reflexivity.
Defined.

(** ** The host ends the meeting *)

(** X13.  When the host of a room ends the meeting, the room leaves the
    registry, no other room changes, [meeting-ended] goes once to the
    connections subscribed to the channel of the room, and the
    connections themselves are left as they are. *)
Theorem end_meeting_removes_the_room :
  forall sid roomId r st,
    getRoomBySocket sid st = Some (roomId, r) ->
    Str.truthy roomId = true ->
    creatorId r = sid ->
    JsMap.get roomId (rooms (fst (end_meeting sid st))) = None /\
    (forall k,
       k <> roomId ->
       JsMap.get k (rooms (fst (end_meeting sid st))) =
       JsMap.get k (rooms st)) /\
    sockets (fst (end_meeting sid st)) = sockets st /\
    snd (end_meeting sid st) =
      [ {| rcpt := subscribers roomId st; what := MeetingEnded |} ].
Proof.
  intros sid roomId r st Hroom Hid Hc.
  unfold end_meeting, isHost. rewrite Hroom, Hid, Hc, StrFacts.eqb_refl.
  cbn [negb orb fst snd rooms sockets set_rooms put_room].
  split; [|split; [|split]]; try reflexivity.
  - rewrite JsMapMore.get_delete. now rewrite StrFacts.eqb_refl.
  - intros k Hk. rewrite JsMapMore.get_delete.
    apply StrFacts.eqb_neq in Hk. rewrite Hk.
    apply StrFacts.eqb_neq in Hk.
    now apply JsMapFacts.get_set_other.
Qed.

Lemma end_meeting_removes_the_room_witness :
  rooms (fst (end_meeting Scenario.H Scenario2.st_two_in_r)) = [] /\
  snd (end_meeting Scenario.H Scenario2.st_two_in_r) =
    [ {| rcpt := [Scenario.H; Scenario.B]; what := MeetingEnded |} ].
Proof.
  split; [reflexivity|].
  eapply (end_meeting_removes_the_room Scenario.H (lit "r") _
            Scenario2.st_two_in_r); reflexivity.
Defined.

(** ** The host removes, admits or rejects a session *)

Lemma subscribed_leave ch s : subscribed ch (leave ch s) = false.
Proof.
  unfold subscribed, leave. cbn [s_channels].
  induction (s_channels s) as [|c l IH]; cbn [filter existsb]; auto.
  destruct (Str.eqb ch c) eqn:E; cbn [negb existsb]; auto.
  now rewrite E, IH.
Qed.

Lemma host_is_host sid st roomId r :
  getRoomBySocket sid st = Some (roomId, r) ->
  creatorId r = sid -> isHost sid st = true.
Proof.
  intros Hroom Hc. unfold isHost. rewrite Hroom, Hc.
  apply StrFacts.eqb_refl.
Qed.

(** X14.  When the host of a room kicks a session, the session is in
    neither [members] nor [pending] of the room afterwards; every other
    session is where it was, and so is the telemetry of the room, the
    record of the kicked session included.  If the target is a live
    connection whose room is this one, it is told, it is taken out
    of the channel of the room and has no room afterwards, and
    those still subscribed to the channel are told that it left;
    otherwise the removal is silent and no connection changes. *)
Theorem kick_removes_the_target :
  forall sid targetId roomId r st,
    getRoomBySocket sid st = Some (roomId, r) ->
    creatorId r = sid ->
    exists r',
      JsMap.get roomId (rooms (fst (kick sid targetId st))) = Some r' /\
      members r' = JsMap.delete targetId (members r) /\
      pending r' = JsMap.delete targetId (pending r) /\
      JsMap.has targetId (members r') = false /\
      JsMap.has targetId (pending r') = false /\
      intel r' = intel r /\
      (forall peer,
         JsMap.get targetId (sockets st) = Some peer ->
         in_room roomId peer = true ->
         (exists peer',
            JsMap.get targetId (sockets (fst (kick sid targetId st)))
            = Some peer' /\
            s_roomId peer' = None /\ subscribed roomId peer' = false) /\
         snd (kick sid targetId st) =
           [ socket_emit targetId Kicked;
             {| rcpt := subscribers roomId (fst (kick sid targetId st));
                what := ParticipantLeft targetId |} ]) /\
      ((forall peer,
          JsMap.get targetId (sockets st) = Some peer ->
          in_room roomId peer = false) ->
       sockets (fst (kick sid targetId st)) = sockets st /\
       snd (kick sid targetId st) = []).
Proof.
  intros sid targetId roomId r st Hroom Hc.
  unfold kick. rewrite Hroom, (host_is_host sid st roomId r Hroom Hc).
  cbn [negb]. cbv zeta.
  match goal with
  | |- context [put_room roomId ?r' st] => exists r'
  end.
  cbn [sockets put_room set_rooms]. fields.
  refine (conj _ (conj eq_refl (conj eq_refl (conj _ (conj _
           (conj eq_refl (conj _ _))))))).
  - destruct (JsMap.get targetId (sockets st)) as [peer|];
      [destruct (in_room roomId peer)|]; cbn [fst];
      rewrite ?rooms_update_socket; apply JsMapFacts.get_set_same.
  - rewrite JsMapMore.has_delete. now rewrite StrFacts.eqb_refl.
  - rewrite JsMapMore.has_delete. now rewrite StrFacts.eqb_refl.
  - intros peer Hp Hin. rewrite Hp, Hin. cbn [fst snd]. split.
    + eexists. split.
      * apply get_update_socket. exact Hp.
      * split; [reflexivity|]. unfold subscribed. cbn [s_channels].
        apply (subscribed_leave roomId peer).
    + reflexivity.
  - intros Hno. destruct (JsMap.get targetId (sockets st)) as [peer|].
    + rewrite (Hno peer eq_refl). split; reflexivity.
    + split; reflexivity.
Qed.

Lemma kick_removes_the_target_witness :
  snd (kick Scenario.H Scenario.B Scenario2.st_two_in_r) =
    [ socket_emit Scenario.B Kicked;
      {| rcpt := [Scenario.H]; what := ParticipantLeft Scenario.B |} ].
Proof.
  edestruct kick_removes_the_target
    with (sid := Scenario.H) (targetId := Scenario.B) (roomId := lit "r")
         (st := Scenario2.st_two_in_r)
    as (r' & _ & _ & _ & _ & _ & _ & Hlive & _);
    [reflexivity | reflexivity |].
  edestruct Hlive as [_ Hout]; [reflexivity | reflexivity |].
  exact Hout.
Defined.

(** X15.  When the host of a room admits a session that is pending in
    it, the session moves from [pending] to [members] with the record
    it was waiting under, and nobody else moves.  If the session is a
    live connection it gets [admitted] with the roster of the room as
    it is afterwards, and [participant-joined] is sent with the host's
    [socket.to(roomId)]: it goes to the connections that are then
    subscribed to the channel of the room and not to the channel named
    by the id of the host.  Of the other connections these are the ones
    that were so subscribed before; and, in a state the server can
    reach, the admitted connection is one of them exactly when it is
    not subscribed to the channel named by the id of the host and the
    room is not named by that id.  An admission of a session that is
    not pending does nothing. *)
Theorem admit_moves_pending_to_members :
  (forall sid peerId st roomId r data,
     getRoomBySocket sid st = Some (roomId, r) ->
     creatorId r = sid ->
     JsMap.get peerId (pending r) = Some data ->
     exists r',
       JsMap.get roomId (rooms (fst (admit_peer sid peerId st))) = Some r' /\
       JsMap.get peerId (members r') = Some data /\
       JsMap.has peerId (pending r') = false /\
       (forall k,
          k <> peerId ->
          JsMap.get k (members r') = JsMap.get k (members r) /\
          JsMap.get k (pending r') = JsMap.get k (pending r)) /\
       (forall peer,
          JsMap.get peerId (sockets st) = Some peer ->
          snd (admit_peer sid peerId st) =
            [ socket_emit peerId
                (AdmittedTo roomId (getRoomParticipants r') peerId);
              {| rcpt := subscribers_except sid roomId
                           (fst (admit_peer sid peerId st));
                 what := ParticipantJoined peerId (userName data) |} ] /\
          (forall c,
             c <> peerId ->
             In c (subscribers_except sid roomId
                     (fst (admit_peer sid peerId st))) <->
             exists s,
               In (c, s) (sockets st) /\
               subscribed roomId s = true /\ subscribed sid s = false) /\
          (reachable st ->
           In peerId (subscribers_except sid roomId
                        (fst (admit_peer sid peerId st))) <->
           subscribed sid peer = false /\ sid <> roomId)) /\
       (JsMap.get peerId (sockets st) = None ->
        snd (admit_peer sid peerId st) = [])) /\
  (forall sid peerId st roomId r,
     getRoomBySocket sid st = Some (roomId, r) ->
     JsMap.get peerId (pending r) = None ->
     admit_peer sid peerId st = (st, [])).
Proof.
  split.
  - intros sid peerId st roomId r data Hroom Hc Hp.
    unfold admit_peer. rewrite Hroom, Hc, StrFacts.eqb_refl, Hp.
    cbn [negb]. cbv zeta.
    match goal with
    | |- context [put_room roomId ?r' st] => exists r'
    end.
    cbn [sockets put_room set_rooms]. fields.
    refine (conj _ (conj _ (conj _ (conj _ (conj _ _))))).
    + destruct (JsMap.get peerId (sockets st)); cbn [fst];
        rewrite ?rooms_update_socket; apply JsMapFacts.get_set_same.
    + apply JsMapFacts.get_set_same.
    + rewrite JsMapMore.has_delete. now rewrite StrFacts.eqb_refl.
    + intros k Hk. rewrite JsMapMore.get_set, JsMapMore.get_delete.
      apply StrFacts.eqb_neq in Hk. now rewrite Hk.
    + intros peer Hpeer. rewrite Hpeer. cbn [fst snd].
      split; [reflexivity|]. split.
      * intros c Hne. rewrite subscribers_except_spec.
        split; intros (s & Hin & H1 & H2); exists s; (split; [|auto]).
        -- apply In_update_other in Hin; [exact Hin | exact Hne].
        -- apply In_update_other; [exact Hne | exact Hin].
      * intros Hreach.
        match goal with
        | |- In peerId
               (subscribers_except sid roomId
                  (update_socket peerId ?f ?st0)) <-> _ =>
            rewrite (subscribers_except_get sid roomId
                       (update_socket peerId f st0) peerId (f peer)
                       (conns_ok_update st0 peerId f
                          (reachable_conns_ok st Hreach))
                       (get_update_socket peerId f st0 peer Hpeer))
        end.
        cbv beta. unfold subscribed. cbn [s_channels].
        fold (subscribed roomId (join roomId peer))
             (subscribed sid (join roomId peer)).
        rewrite !subscribed_join, StrFacts.eqb_refl, orb_true_r.
        split.
        -- intros [_ H]. apply orb_false_elim in H as [H1 H2].
           split; [exact H1 | now apply StrFacts.eqb_neq].
        -- intros [H1 H2]. apply StrFacts.eqb_neq in H2.
           unfold subscribed. now rewrite H1, H2.
    + intros Hnone. now rewrite Hnone.
  - intros sid peerId st roomId r Hroom Hp.
    unfold admit_peer. rewrite Hroom, Hp. now destruct (negb _).
Qed.

Lemma admit_moves_pending_to_members_witness :
  snd (admit_peer Scenario.H Scenario.B Scenario2.st_waiting) =
    [ socket_emit Scenario.B
        (AdmittedTo (lit "r1")
           [ {| p_id := Scenario.H; p_userName := lit "host" |};
             {| p_id := Scenario.B; p_userName := lit "bob" |} ]
           Scenario.B);
      {| rcpt := [Scenario.B];
         what := ParticipantJoined Scenario.B (lit "bob") |} ] /\
  admit_peer Scenario.H Scenario.X Scenario2.st_waiting =
    (Scenario2.st_waiting, []).
Proof.
  split.
  - edestruct (proj1 admit_moves_pending_to_members)
      with (sid := Scenario.H) (peerId := Scenario.B)
           (st := Scenario2.st_waiting)
      as (r' & Hg & _ & _ & _ & Hlive & _);
      [reflexivity | reflexivity | reflexivity |].
    edestruct Hlive as [Hout _]; [reflexivity|].
    vm_compute in Hg. injection Hg as <-. exact Hout.
  - eapply (proj2 admit_moves_pending_to_members); reflexivity.
Defined.

(** An admitted connection that is left out.  [B] has created a room
    whose id is the session id of the host [H], and then asked to join
    the room ["r1"] of [H]: it is subscribed to the channel named by
    the id of the host, and when the host admits it, its joining is
    announced to nobody. *)
Example admitted_peer_left_out :
  snd (step (FromSocket 5 Scenario.H (AdmitPeer Scenario.B))
         Scenario3.st_waiting_in_channel_of_host) =
  [ socket_emit Scenario.B
      (AdmittedTo (lit "r1")
         [ {| p_id := Scenario.H; p_userName := lit "host" |};
           {| p_id := Scenario.B; p_userName := lit "bob" |} ]
         Scenario.B);
    {| rcpt := []; what := ParticipantJoined Scenario.B (lit "bob") |} ].
Proof. reflexivity. Qed.

(** X16.  When the host of a room rejects a session, the session is not
    pending in the room afterwards and nothing else of the room or of
    the connections changes; [rejected] goes to the connections
    subscribed to the channel named by the rejected id, whether or not
    that session was pending. *)
Theorem reject_drops_pending :
  forall sid peerId st roomId r,
    getRoomBySocket sid st = Some (roomId, r) ->
    creatorId r = sid ->
    (exists r',
       JsMap.get roomId (rooms (fst (reject sid peerId st))) = Some r' /\
       JsMap.has peerId (pending r') = false /\
       (forall k,
          k <> peerId ->
          JsMap.get k (pending r') = JsMap.get k (pending r)) /\
       members r' = members r /\
       intel r' = intel r /\
       expiryTimer r' = expiryTimer r) /\
    (forall k,
       k <> roomId ->
       JsMap.get k (rooms (fst (reject sid peerId st))) =
       JsMap.get k (rooms st)) /\
    sockets (fst (reject sid peerId st)) = sockets st /\
    snd (reject sid peerId st) =
      [ {| rcpt := subscribers peerId st; what := Rejected |} ].
Proof.
  intros sid peerId st roomId r Hroom Hc.
  unfold reject. rewrite Hroom, Hc, StrFacts.eqb_refl. cbn [negb fst snd].
  split; [|split; [|split; reflexivity]].
  - eexists. rewrite get_put_room. split; [reflexivity|]. fields.
    split; [|split; [|repeat split]].
    + rewrite JsMapMore.has_delete. now rewrite StrFacts.eqb_refl.
    + intros k Hk. rewrite JsMapMore.get_delete.
      apply StrFacts.eqb_neq in Hk. now rewrite Hk.
  - intros k Hk. now apply get_put_room_other.
Qed.

Lemma reject_drops_pending_witness :
  snd (reject Scenario.H Scenario.B Scenario2.st_waiting) =
    [ {| rcpt := [Scenario.B]; what := Rejected |} ].
Proof.
  eapply (reject_drops_pending Scenario.H Scenario.B Scenario2.st_waiting);
    reflexivity.
Defined.

(** ** A participant leaves and others stay *)

(** Without the connection [sid], the subscribers of a channel are the
    ones before but for [sid]. *)
Lemma subscribers_delete ch sid st :
  subscribers ch (set_sockets (JsMap.delete sid (sockets st)) st) =
  filter (fun x => negb (Str.eqb sid x)) (subscribers ch st).
Proof.
  unfold subscribers. cbn [sockets set_sockets].
  induction (sockets st) as [|[k v] m IH]; [reflexivity|].
  cbn [JsMap.delete]. destruct (Str.eqb sid k) eqn:E.
  - cbn [filter snd]. destruct (subscribed ch v); [|exact IH].
    cbn [List.map fst filter]. rewrite E. exact IH.
  - cbn [filter snd]. destruct (subscribed ch v); [|exact IH].
    cbn [List.map fst filter]. rewrite E. cbn [negb]. now rewrite IH.
Qed.

Lemma has_size {V : Type} k (m : JsMap.t V) :
  JsMap.has k m = true -> (JsMap.size m =? 0)%nat = false.
Proof. destruct m; [discriminate | reflexivity]. Qed.

(** X17.  In a state the server can reach, when a connection of a room
    disconnects and somebody else is still a member or pending there,
    the room stays registered with its timer as it was; the leaver is
    taken out of [members], [pending] and the telemetry, and nobody
    else is.  If the leaver was pending, [pending-left] goes to the
    channel of the creator's id; then [participant-left] goes to the
    channel of the room.  The leaver gets neither. *)
Theorem leaver_is_removed_and_announced :
  forall now sid sock roomId r other st,
    reachable st ->
    JsMap.get sid (sockets st) = Some sock ->
    s_roomId sock = Some roomId ->
    JsMap.get roomId (rooms st) = Some r ->
    other <> sid ->
    JsMap.has other (members r) || JsMap.has other (pending r) = true ->
    (exists r',
       JsMap.get roomId
         (rooms (fst (step (FromSocket now sid Disconnect) st))) = Some r' /\
       members r' = JsMap.delete sid (members r) /\
       pending r' = JsMap.delete sid (pending r) /\
       intel r' = JsMap.delete sid (intel r) /\
       expiryTimer r' = expiryTimer r) /\
    JsMap.get sid
      (sockets (fst (step (FromSocket now sid Disconnect) st))) = None /\
    snd (step (FromSocket now sid Disconnect) st) =
      (if JsMap.has sid (pending r)
       then [ {| rcpt := filter (fun x => negb (Str.eqb sid x))
                           (subscribers (creatorId r) st);
                 what := PendingLeft sid |} ]
       else []) ++
      [ {| rcpt := filter (fun x => negb (Str.eqb sid x))
                     (subscribers roomId st);
           what := ParticipantLeft sid |} ].
Proof.
  intros now sid sock roomId r other st Hreach Hs Hroom Hget Hne Hother.
  pose proof (state_ok_get st roomId r (reachable_ok st Hreach) Hget)
    as (Hid & _). cbn [fst] in Hid.
  destruct (reachable_inv st Hreach) as [Hrooms _].
  destruct (JsMapMore.Forall_get _ roomId r _ Hrooms Hget)
    as (_ & _ & _ & _ & _ & Hcr). fields.
  assert (Hsize :
    (JsMap.size (JsMap.delete sid (members r)) =? 0)%nat
    && (JsMap.size (JsMap.delete sid (pending r)) =? 0)%nat = false).
  { apply StrFacts.eqb_neq in Hne.
    apply orb_true_iff in Hother as [Ho | Ho].
    - rewrite (has_size other); [reflexivity|].
      rewrite JsMapMore.has_delete, Hne. exact Ho.
    - rewrite (has_size other (JsMap.delete sid (pending r)));
        [apply andb_false_r|].
      rewrite JsMapMore.has_delete, Hne. exact Ho. }
  unfold step. rewrite Hs. unfold disconnect. rewrite Hroom, Hid.
  cbn [negb]. cbn [rooms set_sockets]. rewrite Hget. cbv zeta. fields.
  rewrite Hsize, Hcr, andb_true_r. cbn [fst snd].
  split; [|split].
  - eexists. cbn [rooms put_room set_rooms set_sockets].
    rewrite JsMapFacts.get_set_same. split; [reflexivity|]. fields.
    repeat split.
  - cbn [sockets put_room set_rooms set_sockets].
    rewrite JsMapMore.get_delete. now rewrite StrFacts.eqb_refl.
  - unfold io_to.
    change (put_room roomId ?x (set_sockets ?m st))
      with (set_rooms (JsMap.set roomId x (rooms st)) (set_sockets m st)).
    f_equal.
    + destruct (JsMap.has sid (pending r)); [|reflexivity].
      do 2 f_equal. apply (subscribers_delete (creatorId r) sid st).
    + do 2 f_equal. apply (subscribers_delete roomId sid st).
Qed.

Lemma leaver_is_removed_and_announced_witness :
  snd (step (FromSocket 9 Scenario.B Disconnect) Scenario2.st_two_in_r) =
    [ {| rcpt := [Scenario.H]; what := ParticipantLeft Scenario.B |} ].
Proof.
  edestruct leaver_is_removed_and_announced
    with (now := 9) (sid := Scenario.B) (roomId := lit "r")
         (other := Scenario.H) (st := Scenario2.st_two_in_r)
    as (_ & _ & Hout);
    [exists Scenario2.two_in_r; reflexivity | reflexivity | reflexivity
    | reflexivity | discriminate | reflexivity |].
  exact Hout.
Defined.

(** ** The ways into a room *)

Lemma put_room_cases roomId k x st r r' :
  JsMap.get roomId (rooms st) = Some r ->
  JsMap.get roomId (rooms (put_room k x st)) = Some r' ->
  roomId = k /\ r' = x \/ roomId <> k /\ r' = r.
Proof.
  intros Hg Hg'. cbn [rooms put_room set_rooms] in Hg'.
  rewrite JsMapMore.get_set in Hg'.
  destruct (Str.eqb roomId k) eqn:E.
  - left. apply StrFacts.eqb_eq in E. split; congruence.
  - right. apply StrFacts.eqb_neq in E. split; congruence.
Qed.

Lemma scheduleRoomExpiry_fields now k r :
  members (scheduleRoomExpiry now k r) = members r /\
  pending (scheduleRoomExpiry now k r) = pending r.
Proof.
  unfold scheduleRoomExpiry. rewrite clearExpiryTimer_eq. fields.
  now destruct (expiryMinutes r <=? 0).
Qed.

Lemma has_delete_has {V : Type} k x (m : JsMap.t V) :
  JsMap.has k (JsMap.delete x m) = true -> JsMap.has k m = true.
Proof.
  rewrite JsMapMore.has_delete. intros H.
  now apply andb_prop in H as [_ H].
Qed.

Lemma has_set_cases {V : Type} k x (v : V) m :
  JsMap.has k (JsMap.set x v m) = true -> k = x \/ JsMap.has k m = true.
Proof.
  rewrite JsMapMore.has_set. intros H.
  apply orb_prop in H as [H | H]; [left | now right].
  now apply StrFacts.eqb_eq.
Qed.

(** X18.  The ways into a registered room, from any state the server can
    reach.  A session becomes a member in one step only by its own
    [join-room] for that room, with a name, the right password and not
    ahead of the scheduled start, when the room has no waiting room or
    the session is the creator; or by the [admit] of the creator for a
    session that is pending.  A session becomes pending only by its own
    [join-room] through the same gates.  No other event, and no event
    of somebody else, brings a session into a room. *)
Theorem entry_only_through_the_gates :
  forall i st roomId r r' k,
    reachable st ->
    JsMap.get roomId (rooms st) = Some r ->
    JsMap.get roomId (rooms (fst (step i st))) = Some r' ->
    (JsMap.has k (members r) = false ->
     JsMap.has k (members r') = true ->
     (exists now user payload,
        i = FromSocket now k (JoinRoom roomId user payload) /\
        name_given user = true /\
        wrong_password r payload = false /\
        not_started now (scheduledAt r) = None /\
        (waitingRoom r = false \/ k = creatorId r)) \/
     (exists now,
        i = FromSocket now (creatorId r) (AdmitPeer k) /\
        JsMap.has k (pending r) = true)) /\
    (JsMap.has k (pending r) = false ->
     JsMap.has k (pending r') = true ->
     exists now user payload,
       i = FromSocket now k (JoinRoom roomId user payload) /\
       name_given user = true /\
       wrong_password r payload = false /\
       not_started now (scheduledAt r) = None /\
       waitingRoom r = true /\ k <> creatorId r).
Proof.
  intros i st roomId r r' k Hreach Hget Hget'.
  pose proof (reachable_keys_ok st Hreach) as Hkeys.
  match goal with |- ?G => assert (Hno :
    (JsMap.has k (members r') = true -> JsMap.has k (members r) = true) ->
    (JsMap.has k (pending r') = true -> JsMap.has k (pending r) = true) ->
    G) end.
  { intros Hm Hp. split; intros Hf Ht;
      [rewrite (Hm Ht) in Hf | rewrite (Hp Ht) in Hf]; discriminate. }
  match goal with |- ?G => assert (Hsame : r' = r -> G) end.
  { intros ->. apply Hno; auto. }
  destruct i as [now sid e | now k0].
  2:{ apply Hsame. unfold step, timer_fires in Hget'.
      destruct (JsMap.get k0 (rooms st)) as [r0|];
        [destruct (expiryTimer r0) as [t|];
         [destruct (t_due t <=? now)|]|];
        cbn [fst rooms set_rooms] in Hget';
        rewrite ?JsMapMore.get_delete in Hget';
        try destruct (Str.eqb roomId (t_roomId t)); congruence. }
  destruct (stateless e) eqn:Hst.
  { apply Hsame. rewrite stateless_keeps_state in Hget' by exact Hst.
    congruence. }
  destruct e; try discriminate Hst; unfold step in Hget'.
  - (* connection *)
    apply Hsame.
    destruct (Str.truthy sid && negb (JsMap.has sid (sockets st)));
      cbn [fst rooms set_sockets] in Hget'; congruence.
  - (* join-room *)
    destruct (JsMap.get sid (sockets st)) as [sock|];
      [|apply Hsame; cbn [fst] in Hget'; congruence].
    rename roomId0 into k1. unfold join_room in Hget'.
    destruct (Str.truthy k1) eqn:Hid; cbn [negb orb] in Hget';
      [|apply Hsame; cbn [fst] in Hget'; congruence].
    destruct (name_given user) eqn:Hname; cbn [negb] in Hget';
      [|apply Hsame; cbn [fst] in Hget'; congruence].
    cbv zeta in Hget'.
    destruct (JsMap.get k1 (rooms st)) as [r1|] eqn:Hg1.
    + destruct (Str.eqb roomId k1) eqn:Ek.
      2:{ apply StrFacts.eqb_neq in Ek. apply Hsame.
          destruct (wrong_password (clearExpiryTimer r1) payload);
            [|destruct (not_started now (scheduledAt (clearExpiryTimer r1)));
              [|destruct
                  (waitingRoom (clearExpiryTimer r1) &&
                   negb (Str.eqb sid (creatorId (clearExpiryTimer r1))))]];
            cbn [fst] in Hget';
            rewrite ?rooms_update_socket in Hget';
            rewrite ?get_put_room_other in Hget' by exact Ek;
            congruence. }
      apply StrFacts.eqb_eq in Ek. subst k1.
      rewrite Hg1 in Hget. injection Hget as ->.
      rewrite wrong_password_clear in Hget'.
      destruct (clearExpiryTimer_fields r)
        as (Ec & _ & Es & _ & Ew & Em & Ep & _).
      rewrite Es, Ew, Ec in Hget'.
      destruct (wrong_password r payload) eqn:Hpw;
        [|destruct (not_started now (scheduledAt r)) eqn:Hat;
          [|destruct (waitingRoom r && negb (Str.eqb sid (creatorId r)))
              eqn:Hw]];
        cbn [fst] in Hget'; rewrite ?rooms_update_socket in Hget';
        rewrite get_put_room in Hget'; injection Hget' as <-; fields.
      * apply Hno; rewrite ?Em, ?Ep; auto.
      * apply Hno; rewrite ?Em, ?Ep; auto.
      * rewrite Em, Ep. apply andb_prop in Hw as [Hw1 Hw2].
        apply negb_true_iff in Hw2. split; [congruence|].
        intros Hf Ht. apply has_set_cases in Ht as [-> | Ht];
          [|congruence].
        exists now, user, payload. repeat split; auto.
        now apply StrFacts.eqb_neq.
      * rewrite Em, Ep. split; [|congruence].
        intros Hf Ht. apply has_set_cases in Ht as [-> | Ht];
          [|congruence].
        left. exists now, user, payload. repeat split; auto.
        apply andb_false_iff in Hw as [Hw | Hw]; [now left | right].
        apply negb_false_iff in Hw. now apply StrFacts.eqb_eq.
    + apply Hsame.
      destruct (isCreator payload);
        [destruct (roomOptions payload) as [opts|];
         [destruct (not_started now (o_scheduledAt opts))|]|];
        cbn [fst] in Hget'; rewrite ?rooms_update_socket in Hget';
        try congruence.
      apply put_room_cases with (r := r) in Hget' as [[-> ->] | [_ ->]];
        congruence.
  - (* admit *)
    destruct (JsMap.get sid (sockets st)) as [sock|];
      [|apply Hsame; cbn [fst] in Hget'; congruence].
    unfold admit_peer in Hget'.
    destruct (getRoomBySocket sid st) as [[k1 r1]|] eqn:Hroom;
      [|apply Hsame; cbn [fst] in Hget'; congruence].
    destruct (Str.eqb (creatorId r1) sid) eqn:Hc; cbn [negb] in Hget';
      [|apply Hsame; cbn [fst] in Hget'; congruence].
    destruct (JsMap.get peerId (pending r1)) as [data|] eqn:Hp;
      [|apply Hsame; cbn [fst] in Hget'; congruence].
    cbv zeta in Hget'.
    assert (Hg : JsMap.get roomId
                   (rooms (put_room k1
                      (set_intel (JsMap.set peerId fresh_intel (intel r1))
                         (set_members (JsMap.set peerId data (members r1))
                            (set_pending (JsMap.delete peerId (pending r1))
                               r1))) st)) = Some r').
    { fields.
      destruct (JsMap.get peerId (sockets (put_room k1 _ st)));
        cbn [fst] in Hget'; rewrite ?rooms_update_socket in Hget';
        exact Hget'. }
    clear Hget'.
    apply put_room_cases with (r := r) in Hg as [[-> ->] | [_ ->]]; auto.
    rewrite (getRoomBySocket_get sid st k1 r1 Hkeys Hroom) in Hget.
    injection Hget as <-. fields. apply StrFacts.eqb_eq in Hc.
    split.
    + intros Hf Ht. apply has_set_cases in Ht as [-> | Ht]; [|congruence].
      right. exists now. rewrite Hc. split; [reflexivity|].
      unfold JsMap.has. now rewrite Hp.
    + intros Hf Ht. apply has_delete_has in Ht. congruence.
  - (* reject *)
    destruct (JsMap.get sid (sockets st)) as [sock|];
      [|apply Hsame; cbn [fst] in Hget'; congruence].
    unfold reject in Hget'.
    destruct (getRoomBySocket sid st) as [[k1 r1]|] eqn:Hroom;
      [|apply Hsame; cbn [fst] in Hget'; congruence].
    destruct (negb (Str.eqb (creatorId r1) sid));
      [apply Hsame; cbn [fst] in Hget'; congruence|].
    cbn [fst] in Hget'.
    apply put_room_cases with (r := r) in Hget' as [[-> ->] | [_ ->]]; auto.
    rewrite (getRoomBySocket_get sid st k1 r1 Hkeys Hroom) in Hget.
    injection Hget as <-. fields.
    apply Hno; [auto | apply has_delete_has].
  - (* kick *)
    destruct (JsMap.get sid (sockets st)) as [sock|];
      [|apply Hsame; cbn [fst] in Hget'; congruence].
    unfold kick in Hget'.
    destruct (getRoomBySocket sid st) as [[k1 r1]|] eqn:Hroom;
      [|apply Hsame; cbn [fst] in Hget'; congruence].
    destruct (negb (isHost sid st));
      [apply Hsame; cbn [fst] in Hget'; congruence|].
    cbv zeta in Hget'.
    assert (Hg : JsMap.get roomId
                   (rooms (put_room k1
                      (set_pending (JsMap.delete targetId (pending r1))
                         (set_members (JsMap.delete targetId (members r1))
                            r1)) st)) = Some r').
    { fields.
      destruct (JsMap.get targetId (sockets (put_room k1 _ st))) as [p|];
        [destruct (in_room k1 p)|];
        cbn [fst] in Hget'; rewrite ?rooms_update_socket in Hget';
        exact Hget'. }
    clear Hget'.
    apply put_room_cases with (r := r) in Hg as [[-> ->] | [_ ->]]; auto.
    rewrite (getRoomBySocket_get sid st k1 r1 Hkeys Hroom) in Hget.
    injection Hget as <-. fields.
    apply Hno; apply has_delete_has.
  - (* end-meeting *)
    destruct (JsMap.get sid (sockets st)) as [sock|];
      [|apply Hsame; cbn [fst] in Hget'; congruence].
    unfold end_meeting in Hget'.
    destruct (getRoomBySocket sid st) as [[k1 r1]|] eqn:Hroom;
      [|apply Hsame; cbn [fst] in Hget'; congruence].
    destruct (negb (Str.truthy k1) || negb (isHost sid st));
      [apply Hsame; cbn [fst] in Hget'; congruence|].
    apply Hsame. cbn [fst rooms set_rooms put_room] in Hget'.
    rewrite JsMapMore.get_delete, JsMapMore.get_set in Hget'.
    destruct (Str.eqb roomId k1); congruence.
  - (* intel-metrics *)
    destruct (JsMap.get sid (sockets st)) as [sock|];
      [|apply Hsame; cbn [fst] in Hget'; congruence].
    unfold intel_metrics in Hget'.
    destruct (getRoomBySocket sid st) as [[k1 r1]|] eqn:Hroom;
      [|apply Hsame; cbn [fst] in Hget'; congruence].
    destruct (negb (Str.truthy k1));
      [apply Hsame; cbn [fst] in Hget'; congruence|].
    cbv zeta in Hget'. fields.
    destruct (negb (Str.truthy (creatorId r1))); cbn [fst] in Hget';
      (apply put_room_cases with (r := r) in Hget'
         as [[-> ->] | [_ ->]]; auto;
       rewrite (getRoomBySocket_get sid st k1 r1 Hkeys Hroom) in Hget;
       injection Hget as <-; fields; apply Hno; auto).
  - (* disconnect *)
    destruct (JsMap.get sid (sockets st)) as [sock|];
      [|apply Hsame; cbn [fst] in Hget'; congruence].
    unfold disconnect in Hget'.
    destruct (s_roomId sock) as [k1|];
      [|apply Hsame; cbn [fst rooms set_sockets] in Hget'; congruence].
    destruct (negb (Str.truthy k1));
      [apply Hsame; cbn [fst rooms set_sockets] in Hget'; congruence|].
    cbn [rooms set_sockets] in Hget'.
    destruct (JsMap.get k1 (rooms st)) as [r1|] eqn:Hg1;
      [|apply Hsame; cbn [fst rooms set_sockets] in Hget'; congruence].
    cbv zeta in Hget'. fields.
    rewrite !clearExpiryTimer_eq in Hget'. fields.
    destruct ((JsMap.size (JsMap.delete sid (members r1)) =? 0)%nat
              && (JsMap.size (JsMap.delete sid (pending r1)) =? 0)%nat).
    + destruct (Str.eqb roomId k1) eqn:Ek.
      2:{ apply StrFacts.eqb_neq in Ek. apply Hsame.
          destruct (expiryTimer (scheduleRoomExpiry now k1 _));
            cbn [fst] in Hget';
            cbn [rooms put_room set_rooms set_sockets] in Hget';
            rewrite ?JsMapMore.get_delete in Hget';
            apply StrFacts.eqb_neq in Ek; rewrite ?Ek in Hget';
            apply StrFacts.eqb_neq in Ek;
            rewrite !JsMapFacts.get_set_other in Hget' by exact Ek;
            congruence. }
      apply StrFacts.eqb_eq in Ek. subst k1.
      rewrite Hg1 in Hget. injection Hget as ->.
      destruct (expiryTimer (scheduleRoomExpiry now roomId _)) eqn:Et;
        cbn [fst] in Hget'.
      * rewrite get_put_room in Hget'. injection Hget' as <-.
        apply Hno;
          [rewrite (proj1 (scheduleRoomExpiry_fields _ _ _))
          |rewrite (proj2 (scheduleRoomExpiry_fields _ _ _))];
          fields; apply has_delete_has.
      * cbn [rooms put_room set_rooms set_sockets] in Hget'.
        rewrite JsMapMore.get_delete, StrFacts.eqb_refl in Hget'.
        discriminate.
    + cbn [fst] in Hget'.
      apply put_room_cases with (r := r) in Hget' as [[-> ->] | [_ ->]];
        auto.
      rewrite Hg1 in Hget. injection Hget as <-. fields.
      apply Hno; apply has_delete_has.
Qed.

Lemma entry_only_through_the_gates_witness :
  exists r r',
    JsMap.get (lit "r") (rooms Scenario2.st_host_and_guest) = Some r /\
    JsMap.get (lit "r")
      (rooms (fst (step (FromSocket 3 Scenario.B
                           (JoinRoom (lit "r") (Some (lit "bob"))
                              (Scenario.joining [])))
                     Scenario2.st_host_and_guest))) = Some r' /\
    JsMap.has Scenario.B (members r) = false /\
    JsMap.has Scenario.B (members r') = true /\
    wrong_password r (Scenario.joining []) = false.
Proof.
  do 2 eexists. do 4 (split; [reflexivity|]).
  edestruct entry_only_through_the_gates
    with (i := FromSocket 3 Scenario.B
                 (JoinRoom (lit "r") (Some (lit "bob"))
                    (Scenario.joining [])))
         (st := Scenario2.st_host_and_guest) (roomId := lit "r")
         (k := Scenario.B) as [Hm _];
    [exists Scenario2.host_and_guest; reflexivity | reflexivity
    | reflexivity |].
  destruct Hm as [(now & user & payload & Hi & _ & Hpw & _) | (now & Hi & _)];
    [reflexivity | reflexivity | | discriminate Hi].
  injection Hi as _ _ <-. exact Hpw.
Defined.

(** ** Creating a room *)

Lemma room_password_spec p :
  (Str.trim (or_empty p) = [] -> room_password p = None) /\
  (Str.trim (or_empty p) <> [] ->
   room_password p = Some (Str.trim (or_empty p))).
Proof.
  unfold room_password, or_empty. destruct p as [p|].
  - destruct p as [|c p]; [split; [reflexivity | intros H; now elim H]|].
    cbn [Str.truthy]. cbv zeta.
    destruct (Str.trim (c :: p)); cbn [Str.truthy];
      split; congruence.
  - split; [reflexivity | intros H; now elim H].
Qed.

(** X19.  A creating join for a room id that is not registered, with a
    name and not ahead of its scheduled start, registers the room: the
    requester is its creator and its only member, nobody is pending,
    no timer runs, the telemetry of the creator is fresh, the expiry is
    the given number of minutes or else thirty, and the room has a
    password exactly when the given one is not blank, the given one
    trimmed.  No other room changes; the connection is subscribed to
    the channel of the room and gets [room-joined] as host with a
    roster of itself. *)
Theorem creation_registers_the_room :
  forall now sid sock roomId user payload opts st,
    JsMap.get sid (sockets st) = Some sock ->
    Str.truthy roomId = true ->
    name_given user = true ->
    JsMap.get roomId (rooms st) = None ->
    isCreator payload = true ->
    roomOptions payload = Some opts ->
    not_started now (o_scheduledAt opts) = None ->
    (exists r',
       JsMap.get roomId
         (rooms (fst (join_room now sid roomId user payload st))) = Some r' /\
       creatorId r' = sid /\
       members r' = [(sid, {| userName := stored_name user |})] /\
       pending r' = [] /\
       expiryTimer r' = None /\
       intel r' = [(sid, fresh_intel)] /\
       waitingRoom r' = o_waitingRoom opts /\
       scheduledAt r' = o_scheduledAt opts /\
       (forall m, o_expiryMinutes opts = Some m -> expiryMinutes r' = m) /\
       (o_expiryMinutes opts = None -> expiryMinutes r' = 30) /\
       (Str.trim (or_empty (o_password opts)) = [] -> password r' = None) /\
       (Str.trim (or_empty (o_password opts)) <> [] ->
        password r' = Some (Str.trim (or_empty (o_password opts))))) /\
    (forall k,
       k <> roomId ->
       JsMap.get k (rooms (fst (join_room now sid roomId user payload st)))
       = JsMap.get k (rooms st)) /\
    (exists sock',
       JsMap.get sid
         (sockets (fst (join_room now sid roomId user payload st)))
       = Some sock' /\
       s_roomId sock' = Some roomId /\ s_isHost sock' = true /\
       subscribed roomId sock' = true) /\
    snd (join_room now sid roomId user payload st) =
      [ socket_emit sid
          (RoomJoined roomId
             [ {| p_id := sid; p_userName := stored_name user |} ]
             true sid) ].
Proof.
  intros now sid sock roomId user payload opts st Hs Hid Hname Hget Hc Ho
    Hat.
  unfold join_room. rewrite Hid, Hname, Hget, Hc, Ho, Hat.
  cbn [negb orb fst snd]. cbv zeta.
  split; [|split; [|split]].
  - eexists. rewrite rooms_update_socket, get_put_room.
    split; [reflexivity|]. fields.
    destruct (room_password_spec (o_password opts)) as [Hp1 Hp2].
    repeat split; auto.
    + intros m ->. reflexivity.
    + intros ->. reflexivity.
  - intros k Hk. rewrite rooms_update_socket.
    now apply get_put_room_other.
  - eexists. split.
    + apply get_update_socket. exact Hs.
    + split; [reflexivity|]. split; [reflexivity|].
      unfold subscribed, join. cbn [s_channels].
      fold (subscribed roomId
              {| s_roomId := Some roomId;
                 s_userName := Some (Str.slice0 50
                                       (Str.trim match user with
                                                 | Some u => u
                                                 | None => []
                                                 end));
                 s_isHost := true; s_channels := s_channels sock |}).
      destruct (subscribed roomId _) eqn:Es; [exact Es|].
      rewrite existsb_app. cbn [existsb].
      rewrite StrFacts.eqb_refl. apply orb_true_r.
  - reflexivity.
Qed.

Lemma creation_registers_the_room_witness :
  exists r',
    JsMap.get (lit "r3")
      (rooms (fst (join_room 2000 Scenario.H (lit "r3") (Some (lit "host"))
                     (Scenario.creating
                        (Scenario.options (Some (lit " abc ")) (Some 1000)
                           (Some 30) false))
                     (Scenario.after (firstn 2 Scenario.r3))))) = Some r' /\
    password r' = Some (lit "abc") /\
    members r' = [(Scenario.H, {| userName := lit "host" |})].
Proof.
  edestruct creation_registers_the_room
    with (now := 2000) (sid := Scenario.H) (roomId := lit "r3")
         (user := Some (lit "host"))
         (payload := Scenario.creating
                       (Scenario.options (Some (lit " abc ")) (Some 1000)
                          (Some 30) false))
         (st := Scenario.after (firstn 2 Scenario.r3))
    as ((r' & Hg & _ & Hm & _ & _ & _ & _ & _ & _ & _ & _ & Hp) & _);
    [reflexivity .. |].
  exists r'. split; [exact Hg|]. split; [|exact Hm].
  apply Hp. discriminate.
Defined.

(** ** Joining and leaving again *)

Lemma delete_absent {V : Type} k (m : JsMap.t V) :
  JsMap.has k m = false -> JsMap.delete k m = m.
Proof.
  unfold JsMap.has. induction m as [|[k0 v0] m IH]; cbn; auto.
  destruct (Str.eqb k k0); [discriminate|]. intros H. now rewrite IH.
Qed.

Lemma delete_app {V : Type} k (a b : JsMap.t V) :
  JsMap.delete k (a ++ b) = JsMap.delete k a ++ JsMap.delete k b.
Proof.
  induction a as [|[k0 v0] a IH]; cbn; auto.
  destruct (Str.eqb k k0); now rewrite IH.
Qed.

Lemma delete_set_new {V : Type} k (v : V) m :
  JsMap.has k m = false -> JsMap.delete k (JsMap.set k v m) = m.
Proof.
  intros H. rewrite (JsMapMore.set_new k v m H), delete_app.
  rewrite (delete_absent k m H). cbn. rewrite StrFacts.eqb_refl.
  apply app_nil_r.
Qed.

Lemma set_set {V : Type} k (v w : V) m :
  JsMap.set k w (JsMap.set k v m) = JsMap.set k w m.
Proof.
  induction m as [|[k0 v0] m IH]; cbn.
  - now rewrite StrFacts.eqb_refl.
  - destruct (Str.eqb k k0) eqn:E; cbn; rewrite E; [reflexivity|].
    now rewrite IH.
Qed.

Lemma set_same {V : Type} k (v : V) m :
  JsMap.get k m = Some v -> JsMap.set k v m = m.
Proof.
  induction m as [|[k0 v0] m IH]; cbn; [discriminate|].
  destruct (Str.eqb k k0); [now intros [= ->]|].
  intros H. now rewrite IH.
Qed.

(** X20.  Joining and leaving again.  From a state the server can reach,
    a session that is not in a room (no member, not pending, without
    telemetry there) joins it through the gates into the members, while
    someone else is a member, and then disconnects: the registry is
    exactly as it was before the join, and the connection is gone. *)
Theorem join_then_leave_restores_the_registry :
  forall now now' sid sock roomId user payload st r other,
    reachable st ->
    JsMap.get sid (sockets st) = Some sock ->
    JsMap.get roomId (rooms st) = Some r ->
    name_given user = true ->
    wrong_password r payload = false ->
    not_started now (scheduledAt r) = None ->
    waitingRoom r && negb (Str.eqb sid (creatorId r)) = false ->
    JsMap.has sid (members r) = false ->
    JsMap.has sid (pending r) = false ->
    JsMap.has sid (intel r) = false ->
    JsMap.has other (members r) = true ->
    rooms (fst (step (FromSocket now' sid Disconnect)
                  (fst (step (FromSocket now sid
                                (JoinRoom roomId user payload)) st))))
    = rooms st /\
    JsMap.get sid
      (sockets (fst (step (FromSocket now' sid Disconnect)
                       (fst (step (FromSocket now sid
                                     (JoinRoom roomId user payload)) st)))))
    = None.
Proof.
  intros now now' sid sock roomId user payload st r other Hreach Hs Hget
    Hname Hpw Hat Hw Hm Hp Hi Hother.
  pose proof (state_ok_get st roomId r (reachable_ok st Hreach) Hget)
    as (Hid & _). cbn [fst] in Hid.
  destruct (reachable_inv st Hreach) as [Hrooms _].
  destruct (JsMapMore.Forall_get _ roomId r _ Hrooms Hget)
    as (_ & _ & Ht & _). fields.
  pose proof (member_no_timer roomId r other Ht Hother) as Hnone.
  assert (Hne : Str.eqb other sid = false).
  { apply StrFacts.eqb_neq. intros ->. congruence. }
  assert (Hclear : clearExpiryTimer r = r).
  { unfold clearExpiryTimer. now rewrite Hnone. }
  assert (Hstep1 :
    fst (step (FromSocket now sid (JoinRoom roomId user payload)) st) =
    update_socket sid (fun s =>
        join roomId
          {| s_roomId := Some roomId; s_userName := Some (stored_name user);
             s_isHost := Str.eqb sid (creatorId r);
             s_channels := s_channels s |})
      (put_room roomId
         (set_intel (JsMap.set sid fresh_intel (intel r))
            (set_members
               (JsMap.set sid {| userName := stored_name user |} (members r))
               r))
         (put_room roomId r st))).
  { unfold step. rewrite Hs. unfold join_room.
    rewrite Hid, Hname, Hget. cbn [negb orb]. cbv zeta.
    rewrite Hclear, Hpw, Hat, Hw. reflexivity. }
  rewrite Hstep1. unfold step.
  erewrite get_update_socket by exact Hs.
  unfold disconnect. cbn [s_roomId join]. rewrite Hid. cbn [negb].
  cbn [rooms set_sockets]. rewrite rooms_update_socket, get_put_room.
  cbv zeta. fields.
  rewrite (delete_set_new sid _ (members r) Hm),
    (delete_set_new sid _ (intel r) Hi), (delete_absent sid (pending r) Hp).
  rewrite (has_size other (members r) Hother). cbn [andb fst].
  split.
  - cbn [rooms put_room set_rooms set_sockets].
    unfold update_socket. cbn [sockets put_room set_rooms]. rewrite Hs.
    cbn [rooms put_room set_sockets set_rooms]. rewrite !set_set.
    apply set_same. rewrite Hget. f_equal. now destruct r.
  - cbn [sockets put_room set_rooms set_sockets].
    rewrite JsMapMore.get_delete. now rewrite StrFacts.eqb_refl.
Qed.

Lemma join_then_leave_restores_the_registry_witness :
  rooms (fst (step (FromSocket 9 Scenario.B Disconnect)
                (fst (step (FromSocket 3 Scenario.B
                              (JoinRoom (lit "r") (Some (lit "bob"))
                                 (Scenario.joining [])))
                        Scenario2.st_host_and_guest))))
  = rooms Scenario2.st_host_and_guest.
Proof.
  eapply (join_then_leave_restores_the_registry 3 9 Scenario.B _ (lit "r")
            (Some (lit "bob")) (Scenario.joining [])
            Scenario2.st_host_and_guest _ Scenario.H);
    [exists Scenario2.host_and_guest; reflexivity | reflexivity ..].
Defined.

(** ** Reactions *)




(** A reaction with an empty type.  [B] sends the empty array as the
    type of its reaction: the array is truthy, [String([])] is the empty
    string, and the room gets a reaction whose type is empty. *)
Example empty_reaction_is_delivered :
  snd (step (FromSocket 8 Scenario.B (SendReaction (VOther true [])))
         Scenario2.st_two_in_r) =
  [ {| rcpt := [Scenario.H; Scenario.B];
       what := Reaction Scenario.B (Some (lit "bob")) [] |} ].
Proof. reflexivity. Qed.
